(** * flock: a lock-holding helper process for shell scripts

    Shallow embedding of [lock_file.c] and of the second source file (the
    same program with [struct lock_request] and the lock kinds added), and
    the properties of the coordinator / lock holder / unlock protocol.

    Conventions.
    - A C [int] is a [Z]; the conversion from [long] is written out
      ([to_int], two's complement wrap-around on 32 bits).
    - A [char] buffer is a [list ascii]; a C string is the prefix of a
      buffer before its first NUL ([c_string]).
    - The process runs in a small state monad [M]: the state carries the
      global [child] flag, the content and offset of the target file, and
      the chronological trace of the system calls made so far.  What the
      operating system answers is read from a [world] record. *)

From Stdlib Require Import ZArith List Bool Ascii String Lia.
Import ListNotations.
Local Open Scope Z_scope.

(** ** C integers *)

Definition INT_MAX : Z := 2147483647.
Definition INT_MIN : Z := -2147483648.
Definition LONG_MAX : Z := 9223372036854775807.
Definition LONG_MIN : Z := -9223372036854775808.

(** [(int)x] for a [long] x: the low 32 bits, read as a signed number. *)
Definition to_int (x : Z) : Z := (x + 2147483648) mod 4294967296 - 2147483648.

(** [x++] and [a * b] on [int]. *)
Definition int_succ (x : Z) : Z := to_int (x + 1).
Definition int_mul (a b : Z) : Z := to_int (a * b).

(** ** Characters, buffers and C strings *)

Definition NUL : ascii := ascii_of_nat 0.
Definition NL : ascii := ascii_of_nat 10.

Definition bytes (s : string) : list ascii := list_ascii_of_string s.

Definition is_nul (c : ascii) : bool := Ascii.eqb c NUL.

(** The C string held in a buffer: everything before the first NUL. *)
Fixpoint c_string (buf : list ascii) : list ascii :=
  match buf with
  | [] => []
  | c :: r => if is_nul c then [] else c :: c_string r
  end.

Definition strlen (buf : list ascii) : nat := List.length (c_string buf).

(** [*p] for a pointer into a C string, given as the remaining suffix. *)
Definition deref (rest : list ascii) : ascii :=
  match rest with
  | [] => NUL
  | c :: _ => c
  end.

Definition code (c : ascii) : Z := Z.of_nat (nat_of_ascii c).

Definition isspace (c : ascii) : bool :=
  (code c =? 32) || ((9 <=? code c) && (code c <=? 13)).

Definition isdigit (c : ascii) : bool :=
  (48 <=? code c) && (code c <=? 57).

Definition digit_char (d : Z) : ascii := ascii_of_nat (Z.to_nat (48 + d)).

Definition tolower (c : ascii) : ascii :=
  if (65 <=? code c) && (code c <=? 90)
  then ascii_of_nat (Z.to_nat (code c + 32)) else c.

Fixpoint strcasecmp_eq (a b : list ascii) : bool :=
  match a, b with
  | [], [] => true
  | x :: a', y :: b' => Ascii.eqb (tolower x) (tolower y) && strcasecmp_eq a' b'
  | _, _ => false
  end.

(** ** strtol(s, &end, 10) *)

Fixpoint skip_space (s : list ascii) : list ascii :=
  match s with
  | c :: r => if isspace c then skip_space r else s
  | [] => []
  end.

(** Consume the digits of [s], accumulating their value after [acc];
    returns the value and the unread suffix. *)
Fixpoint scan_digits (acc : Z) (s : list ascii) : Z * list ascii :=
  match s with
  | c :: r => if isdigit c then scan_digits (acc * 10 + (code c - 48)) r
              else (acc, s)
  | [] => (acc, [])
  end.

Definition clamp_long (x : Z) : Z :=
  if x <? LONG_MIN then LONG_MIN else if LONG_MAX <? x then LONG_MAX else x.

(** The value (a [long], clamped on overflow) and the [end] pointer, as the
    suffix of [s] it points at.  With no digits, the value is 0 and [end]
    is [s] itself. *)
Definition strtol (s : list ascii) : Z * list ascii :=
  let s1 := skip_space s in
  let '(neg, s2) :=
    match s1 with
    | c :: r => if Ascii.eqb c "-" then (true, r)
                else if Ascii.eqb c "+" then (false, r)
                else (false, s1)
    | [] => (false, s1)
    end in
  if isdigit (deref s2) then
    let '(v, rest) := scan_digits 0 s2 in
    (clamp_long (if neg then - v else v), rest)
  else (0, s).

(** ** snprintf(buf, size, "%i", v) *)

(** Decimal digits of a non-negative number, least significant first. *)
Fixpoint digits_le (fuel : nat) (n : Z) : list ascii :=
  match fuel with
  | O => []
  | S f => digit_char (n mod 10) :: if n <? 10 then [] else digits_le f (n / 10)
  end.

(** What "%i" prints for an [int]. An [int] has at most ten digits. *)
Definition format_int (v : Z) : list ascii :=
  if v <? 0 then "-"%char :: rev (digits_le 10 (- v))
  else rev (digits_le 10 v).

(** The string left in the buffer: at most [size - 1] characters are kept,
    the terminating NUL takes the last place. *)
Definition snprintf_int (size : nat) (v : Z) : list ascii :=
  firstn (size - 1) (format_int v).

(** ** The operating system, as seen by one process *)

Inductive lockf_cmd : Type := F_LOCK | F_TLOCK | F_TEST.

(** The operation word of flock(2): LOCK_EX, LOCK_EX | LOCK_NB, LOCK_UN. *)
Inductive flock_op : Type := LOCK_EX | LOCK_EX_NB | LOCK_UN.

(** open(2) flags used by the program. *)
Inductive open_flags : Type := O_CREAT_RDWR | O_RDONLY.

(** Arguments of a printf call. *)
Inductive parg : Type :=
| AStr (s : option (list ascii))    (* a char pointer, possibly NULL *)
| AInt (i : Z)
| AErr.                            (* strerror(errno) *)

Inductive event : Type :=
| Open (path : option (list ascii)) (flags : open_flags)
| Lockf (fd : Z) (cmd : lockf_cmd)
| Flock (fd : Z) (op : flock_op)
| Lseek (fd : Z) (off : Z)
| Ftruncate (fd : Z) (len : Z)
| Write (fd : Z) (data : list ascii)
| Read (fd : Z) (count : nat)
| Kill (pid sig : Z)
| Sleep (secs : Z)
| Usleep (usecs : Z)
| Signal (sig : Z)                  (* signal(sig, sig_handler) *)
| Fork
| Printf (fmt : string) (args : list parg).

(** The two signal numbers come from <signal.h>; being [case] labels of one
    [switch], they are different. *)
Class Signals : Type := {
  SIGUSR1 : Z;
  SIGUSR2 : Z;
  SIGUSR_distinct : SIGUSR1 <> SIGUSR2
}.

(** What the system answers to this process. *)
Record world : Type := {
  w_pid : Z;                      (* getpid() in the process that was started *)
  w_ppid : Z;                     (* getppid() there: the invoking script *)
  w_fork : Z;                     (* what fork() returns in the process followed *)
  w_child_pid : Z;                (* getpid() in the forked child *)
  w_open : Z;                     (* open() of an existing path argument *)
  w_lock : Z;                     (* the locking lockf() / flock() call *)
  w_lock_signal : option Z;       (* a signal that arrives during that call *)
  w_test : Z;                     (* lockf(fd, F_TEST, 0) *)
  w_unlock : Z;                   (* flock(fd, LOCK_UN) *)
  w_kill : nat -> Z;              (* the k-th kill() call of the process *)
  w_signal : nat -> option Z;     (* a signal that arrives during the k-th sleep *)
  w_file : list ascii             (* content of the target file at start *)
}.

Record pstate : Type := {
  child : bool;                   (* the global [int child] *)
  self : Z;                       (* the process id of this process *)
  handled : list Z;               (* signals that have sig_handler installed *)
  file_data : list ascii;         (* content of the target file *)
  file_pos : nat;                 (* offset of this process's descriptor *)
  kills : nat;                    (* kill() calls made so far *)
  sleeps : nat;                   (* sleep() / usleep() calls made so far *)
  trace : list event              (* calls made so far, oldest first *)
}.

Definition init (w : world) : pstate :=
  {| child := false; self := w_pid w; handled := []; file_data := w_file w;
     file_pos := 0%nat; kills := 0%nat; sleeps := 0%nat; trace := [] |}.

Definition log (e : event) (s : pstate) : pstate :=
  {| child := child s; self := self s; handled := handled s;
     file_data := file_data s; file_pos := file_pos s;
     kills := kills s; sleeps := sleeps s; trace := trace s ++ [e] |}.

(** ** The process monad *)

Inductive result (A : Type) : Type :=
| Val (a : A)                     (* the computation returned [a] *)
| Exited (status : Z)             (* exit(status) was called *)
| OutOfFuel.                      (* a loop was still running *)
Arguments Val {A} a.
Arguments Exited {A} status.
Arguments OutOfFuel {A}.

Definition M (A : Type) : Type := pstate -> result A * pstate.

Definition ret {A} (a : A) : M A := fun s => (Val a, s).

Definition bind {A B} (m : M A) (k : A -> M B) : M B :=
  fun s =>
    match m s with
    | (Val a, s') => k a s'
    | (Exited c, s') => (Exited c, s')
    | (OutOfFuel, s') => (OutOfFuel, s')
    end.

Notation "x <- m ;; k" := (bind m (fun x => k))
  (at level 61, m at next level, right associativity).
Notation "m ;; k" := (bind m (fun _ => k))
  (at level 61, right associativity).

Definition exit {A} (status : Z) : M A := fun s => (Exited status, s).
Definition out_of_fuel {A} : M A := fun s => (OutOfFuel, s).
Definition emit (e : event) : M unit := fun s => (Val tt, log e s).
Definition printf (fmt : string) (args : list parg) : M unit := emit (Printf fmt args).
Definition when (b : bool) (m : M unit) : M unit := if b then m else ret tt.

Definition get_child : M bool := fun s => (Val (child s), s).

Definition set_child (b : bool) : M unit := fun s =>
  (Val tt, {| child := b; self := self s; handled := handled s;
              file_data := file_data s; file_pos := file_pos s;
              kills := kills s; sleeps := sleeps s; trace := trace s |}).

Definition getpid : M Z := fun s => (Val (self s), s).

(** Content of a file after writing [buf] at offset [pos]. *)
Definition write_at (pos : nat) (buf data : list ascii) : list ascii :=
  firstn pos data ++ repeat NUL (pos - List.length data) ++ buf
  ++ skipn (pos + List.length buf) data.

Definition set_file (d : list ascii) (p : nat) (s : pstate) : pstate :=
  {| child := child s; self := self s; handled := handled s;
     file_data := d; file_pos := p;
     kills := kills s; sleeps := sleeps s; trace := trace s |}.

(** lseek(fd, off, SEEK_SET) *)
Definition lseek (fd off : Z) : M unit := fun s =>
  (Val tt, log (Lseek fd off) (set_file (file_data s) (Z.to_nat off) s)).

(** ftruncate(fd, len) *)
Definition ftruncate (fd len : Z) : M unit := fun s =>
  let n := Z.to_nat len in
  let d := firstn n (file_data s) ++ repeat NUL (n - List.length (file_data s)) in
  (Val tt, log (Ftruncate fd len) (set_file d (file_pos s) s)).

(** write(fd, buf, n): the first [n] bytes of [buf] go to the file. *)
Definition write (fd : Z) (buf : list ascii) (n : nat) : M unit := fun s =>
  let b := firstn n buf in
  (Val tt, log (Write fd b)
     (set_file (write_at (file_pos s) b (file_data s))
               (file_pos s + List.length b) s)).

(** read(fd, buf, count): returns the bytes read. *)
Definition read (fd : Z) (count : nat) : M (list ascii) := fun s =>
  let b := firstn count (skipn (file_pos s) (file_data s)) in
  (Val b, log (Read fd count)
     (set_file (file_data s) (file_pos s + List.length b) s)).

(** A buffer [char buf[size] = {0}] after [b] was stored at its start. *)
Definition fill (size : nat) (b : list ascii) : list ascii :=
  b ++ repeat NUL (size - List.length b).

Definition mem (x : Z) (l : list Z) : bool := existsb (Z.eqb x) l.

Section Process.

Context {sg : Signals}.
Variable w : world.

(** open(path, flags): a NULL path fails, the system decides otherwise. A
    fresh descriptor starts at offset 0. *)
Definition open (path : option (list ascii)) (flags : open_flags) : M Z := fun s =>
  let fd := match path with Some _ => w_open w | None => -1 end in
  (Val fd, log (Open path flags) (set_file (file_data s) 0%nat s)).

(** kill(pid, sig) *)
Definition kill (pid sig : Z) : M Z := fun s =>
  (Val (w_kill w (kills s)),
   {| child := child s; self := self s; handled := handled s;
      file_data := file_data s; file_pos := file_pos s;
      kills := S (kills s); sleeps := sleeps s;
      trace := trace s ++ [Kill pid sig] |}).

(** signal(sig, sig_handler) *)
Definition signal (sig : Z) : M unit := fun s =>
  (Val tt, {| child := child s; self := self s; handled := sig :: handled s;
      file_data := file_data s; file_pos := file_pos s;
      kills := kills s; sleeps := sleeps s;
      trace := trace s ++ [Signal sig] |}).

(** fork(): the process followed is the child when the answer is 0. *)
Definition fork : M Z := fun s =>
  (Val (w_fork w),
   {| child := child s;
      self := if w_fork w =? 0 then w_child_pid w else self s;
      handled := handled s;
      file_data := file_data s; file_pos := file_pos s;
      kills := kills s; sleeps := sleeps s;
      trace := trace s ++ [Fork] |}).

(** *** Signal handlers (the same text in both source files) *)

Definition child_sig_handler (sig : Z) : M unit :=
  if sig =? SIGUSR1 then
    printf "Parent process signalled timeout - exiting\n" [] ;;
    exit 1
  else if sig =? SIGUSR2 then
    printf "Unlocking\n" [] ;;
    exit 0
  else
    printf "Child caught unknown signal: %i\n" [AInt sig].

Definition parent_sig_handler (sig : Z) : M unit :=
  if sig =? SIGUSR1 then
    printf "Child has successfully locked file - exiting\n" [] ;;
    exit 0
  else if sig =? SIGUSR2 then
    printf "Child process failed to lock file\n" [] ;;
    exit 1
  else
    printf "Parent caught unknown signal: %i\n" [AInt sig].

Definition sig_handler (sig : Z) : M unit :=
  c <- get_child ;;
  if c then child_sig_handler sig else parent_sig_handler sig.

(** Delivery of a signal to the process: the handler runs when one is
    installed for it.  Other signals are outside the model. *)
Definition deliver (sig : option Z) : M unit := fun s =>
  match sig with
  | Some g => if mem g (handled s) then sig_handler g s else (Val tt, s)
  | None => (Val tt, s)
  end.

Definition tick (e : event) : M unit := fun s =>
  deliver (w_signal w (sleeps s))
    {| child := child s; self := self s; handled := handled s;
       file_data := file_data s; file_pos := file_pos s;
       kills := kills s; sleeps := S (sleeps s);
       trace := trace s ++ [e] |}.

(** sleep(secs) and usleep(usecs): a signal may arrive meanwhile. *)
Definition sleep (secs : Z) : M unit := tick (Sleep secs).
Definition usleep (usecs : Z) : M unit := tick (Usleep usecs).

(** The locking calls: a signal may arrive while the call waits. *)
Definition lockf (fd : Z) (cmd : lockf_cmd) : M Z :=
  emit (Lockf fd cmd) ;;
  match cmd with
  | F_TEST => ret (w_test w)
  | _ => deliver (w_lock_signal w) ;; ret (w_lock w)
  end.

Definition flock (fd : Z) (op : flock_op) : M Z :=
  emit (Flock fd op) ;;
  match op with
  | LOCK_UN => ret (w_unlock w)
  | _ => deliver (w_lock_signal w) ;; ret (w_lock w)
  end.

Definition MAX_PID_LEN : nat := 10.

(** *** parent_loop (the same text in both source files) *)

(** The [while] of parent_loop, from the value [time] of the local. *)
Fixpoint parent_wait (timeout time : Z) (fuel : nat) : M unit :=
  match fuel with
  | O => out_of_fuel
  | S f =>
      if timeout =? 0 then sleep 1 ;; parent_wait timeout time f
      else if time <? timeout then sleep 1 ;; parent_wait timeout (int_succ time) f
      else ret tt
  end.

Definition parent_loop (cpid timeout : Z) (fuel : nat) : M Z :=
  parent_wait timeout 0 fuel ;;
  kill cpid SIGUSR1 ;;
  ret 0.

(** *** The idle loop of child_loop (the same text in both source files)

    [while (kill(script_pid, 0) == 0) sleep(1);] *)
Fixpoint child_wait (script_pid : Z) (fuel : nat) : M unit :=
  match fuel with
  | O => out_of_fuel
  | S f =>
      r <- kill script_pid 0 ;;
      if r =? 0 then sleep 1 ;; child_wait script_pid f else ret tt
  end.

(** *** Reading the pid in unlock_file (the same text in both source files)

    [b] is what read() returned, stored in [char pid_str[MAX_PID_LEN+1] = {0}]:
    the pid is [(int)strtol(pid_str, &end, 10)] when read() returned a
    positive count, reset to 0 unless [end] points at NUL or at a newline;
    it stays 0 when nothing was read. *)
Definition read_pid (b : list ascii) : Z :=
  let pid_str := fill (MAX_PID_LEN + 1) b in
  if (0 <? List.length b)%nat then
    let '(v, e) := strtol (c_string pid_str) in
    if negb (Ascii.eqb (deref e) NUL) && negb (Ascii.eqb (deref e) NL)
    then 0 else to_int v
  else 0.

(** *** The polling loop of unlock_file (the same text in both source files)

    [while (time++ < timeout || timeout == 0) { ... }], from the value [time]
    of the local; returns the value of [time] after the loop. *)
Fixpoint unlock_poll (pid locked timeout time : Z) (fuel : nat) : M Z :=
  match fuel with
  | O => out_of_fuel
  | S f =>
      let time' := int_succ time in
      if (time <? timeout) || (timeout =? 0) then
        r <- kill pid SIGUSR2 ;;
        if r <? 0 then
          when (time' =? 1)
            (printf "Failed to send signal to child process %i: %s\n" [AInt pid; AErr]) ;;
          ret time'
        else if locked =? 0 then ret time'
        else usleep (1000 + 100) ;; unlock_poll pid locked timeout time' f
      else ret time'
  end.

End Process.

(** The exit status of the process, when it ends. *)
Definition status (r : result Z) : option Z :=
  match r with
  | Val v => Some v
  | Exited c => Some c
  | OutOfFuel => None
  end.

(** What getopt_long() returned, call after call: the option character and
    [optarg].  The remaining arguments, [argv[optind]] onwards, are given
    to [main] separately. *)
Definition getopt_result : Type := ascii * list ascii.

(** ** lock_file.c *)

Module LockFile.

(** The locals of [main] that the option loop sets. *)
Record options : Type := {
  timeout : Z;
  no_block : Z;
  unlock : Z
}.

Section Program.

Context {sg : Signals}.
Variable w : world.

Definition child_loop (filename : list ascii) (ppid script_pid no_block : Z)
    (fuel : nat) : M Z :=
  pid <- getpid ;;
  set_child true ;;
  fd <- open w (Some filename) O_CREAT_RDWR ;;
  if fd <? 0 then
    printf "Failed to open file %s: %s\n" [AStr (Some filename); AErr] ;;
    kill w ppid SIGUSR2 ;;
    ret 1
  else
    r <- lockf w fd (if no_block =? 0 then F_LOCK else F_TLOCK) ;;
    if r =? -1 then
      printf "Failed to lock file %s (%i): %s\n" [AStr (Some filename); AInt fd; AErr] ;;
      kill w ppid SIGUSR2 ;;
      ret 1
    else
      let pid_str := fill (MAX_PID_LEN + 1) (snprintf_int MAX_PID_LEN pid) in
      lseek fd 0 ;;
      ftruncate fd 0 ;;
      write fd pid_str (strlen pid_str) ;;
      kill w ppid SIGUSR1 ;;
      child_wait w script_pid fuel ;;
      ret 1.

Definition unlock_file (filename : list ascii) (timeout no_block : Z)
    (fuel : nat) : M Z :=
  fd <- open w (Some filename) O_RDONLY ;;
  if fd <? 0 then
    printf "Failed to open file %s: %s\n" [AStr (Some filename); AErr] ;;
    ret 1
  else
    locked <- lockf w fd F_TEST ;;
    when (locked =? 0) (printf "File %s was not locked\n" [AStr (Some filename)]) ;;
    b <- read fd MAX_PID_LEN ;;
    let pid := read_pid b in
    if pid =? 0 then
      printf "Failed to read pid from file %s\n" [AStr (Some filename)] ;;
      ret 1
    else
      let timeout := int_mul timeout 10 in
      time <- unlock_poll w pid locked timeout 0 fuel ;;
      if time =? timeout then
        printf "Timed out\n" [] ;;
        ret 1
      else ret 0.

(** The getopt loop of [main]: [inl] is a [return] out of [main]. *)
Fixpoint getopt_loop (opts : list getopt_result) (l : options) : M (Z + options) :=
  match opts with
  | [] => ret (inr l)
  | (opt, optarg) :: rest =>
      if Ascii.eqb opt "t" then
        let '(v, e) := strtol optarg in
        let t := to_int v in
        if negb (Ascii.eqb (deref e) NUL) || (t <? 0) then
          printf "Timeout argument should be a positive integer\n" [] ;;
          ret (inl 1)
        else getopt_loop rest {| timeout := t; no_block := no_block l; unlock := unlock l |}
      else if Ascii.eqb opt "n" then
        getopt_loop rest {| timeout := timeout l; no_block := 1; unlock := unlock l |}
      else if Ascii.eqb opt "u" then
        getopt_loop rest {| timeout := timeout l; no_block := no_block l; unlock := 1 |}
      else
        printf "Unrecognised option %c\n" [AInt (code opt)] ;;
        ret (inl 1)
  end.

Definition main (opts : list getopt_result) (args : list (list ascii))
    (fuel : nat) : M Z :=
  r <- getopt_loop opts {| timeout := -1; no_block := 0; unlock := 0 |} ;;
  match r with
  | inl st => ret st
  | inr l =>
      if negb (no_block l =? 0) && (0 <=? timeout l) then
        printf "Cannot set no-block and timeout together\n" [] ;;
        ret 1
      else
        let timeout := if timeout l =? -1 then 0 else timeout l in
        match args with
        | [] =>
            printf "No filename given\n" [] ;;
            ret 1
        | filename :: _ =>
            if negb (unlock l =? 0) then
              unlock_file filename timeout (no_block l) fuel
            else
              signal SIGUSR1 ;;
              signal SIGUSR2 ;;
              pid <- getpid ;;
              let ppid := w_ppid w in
              cpid <- fork w ;;
              if cpid =? 0 then child_loop filename pid ppid (no_block l) fuel
              else parent_loop w cpid timeout fuel
        end
  end.

End Program.

End LockFile.

(** ** The second source file *)

Module Flock.

Inductive l_type : Type := FLOCK | FCNTL | LOCKF.

Record lock_request : Type := {
  filename : option (list ascii);   (* NULL until a path argument is seen *)
  fd : Z;
  type : l_type;
  no_block : Z;
  timeout : Z
}.

(** [struct lock_request req = {0}] *)
Definition req0 : lock_request :=
  {| filename := None; fd := 0; type := FLOCK; no_block := 0; timeout := 0 |}.

Definition set_fd (v : Z) (r : lock_request) : lock_request :=
  {| filename := filename r; fd := v; type := type r;
     no_block := no_block r; timeout := timeout r |}.
Definition set_filename (v : option (list ascii)) (r : lock_request) : lock_request :=
  {| filename := v; fd := fd r; type := type r;
     no_block := no_block r; timeout := timeout r |}.
Definition set_type (v : l_type) (r : lock_request) : lock_request :=
  {| filename := filename r; fd := fd r; type := v;
     no_block := no_block r; timeout := timeout r |}.
Definition set_no_block (v : Z) (r : lock_request) : lock_request :=
  {| filename := filename r; fd := fd r; type := type r;
     no_block := v; timeout := timeout r |}.
Definition set_timeout (v : Z) (r : lock_request) : lock_request :=
  {| filename := filename r; fd := fd r; type := type r;
     no_block := no_block r; timeout := v |}.

Section Program.

Context {sg : Signals}.
Variable w : world.

Definition lock_descriptor (req : lock_request) : M Z :=
  match type req with
  | LOCKF =>
      r <- lockf w (fd req) (if no_block req =? 0 then F_LOCK else F_TLOCK) ;;
      if r =? -1 then
        printf "Failed to lock file (fd = %i): %s\n" [AInt (fd req); AErr] ;;
        ret 0
      else ret 1
  | FLOCK =>
      r <- flock w (fd req) (if no_block req =? 0 then LOCK_EX else LOCK_EX_NB) ;;
      if r =? -1 then
        printf "Failed to lock file (fd = %i): %s\n" [AInt (fd req); AErr] ;;
        ret 0
      else ret 1
  | FCNTL => ret 1
  end.

Definition unlock_descriptor (fd : Z) : M Z :=
  r <- flock w fd LOCK_UN ;;
  if r =? -1 then
    printf "Failed to unlock file (fd = %i): %s\n" [AInt fd; AErr] ;;
    ret 0
  else
    printf "Unlocked file descriptor %i\n" [AInt fd] ;;
    ret 1.

(** [req] is passed by value: the caller returns what child_loop returns
    and never looks at the request again. *)
Definition child_loop (req : lock_request) (ppid script_pid : Z)
    (fuel : nat) : M Z :=
  pid <- getpid ;;
  set_child true ;;
  fd' <- open w (filename req) O_CREAT_RDWR ;;
  let req := set_fd fd' req in
  if fd req <? 0 then
    printf "Failed to open file %s: %s\n" [AStr (filename req); AErr] ;;
    kill w ppid SIGUSR2 ;;
    ret 1
  else
    printf "Locking file %s\n" [AStr (filename req)] ;;
    ok <- lock_descriptor req ;;
    if ok =? 0 then
      kill w ppid SIGUSR2 ;;
      ret 1
    else
      let pid_str := fill (MAX_PID_LEN + 1) (snprintf_int MAX_PID_LEN pid) in
      lseek (fd req) 0 ;;
      ftruncate (fd req) 0 ;;
      write (fd req) pid_str (strlen pid_str) ;;
      kill w ppid SIGUSR1 ;;
      child_wait w script_pid fuel ;;
      ret 1.

Definition unlock_file (req : lock_request) (fuel : nat) : M Z :=
  fd <- open w (filename req) O_RDONLY ;;
  if fd <? 0 then
    printf "Failed to open file %s: %s\n" [AStr (filename req); AErr] ;;
    ret 1
  else
    locked <- lockf w fd F_TEST ;;
    when (locked =? 0) (printf "File %s was not locked\n" [AStr (filename req)]) ;;
    b <- read fd MAX_PID_LEN ;;
    let pid := read_pid b in
    if pid =? 0 then
      printf "Failed to read pid from file %s\n" [AStr (filename req)] ;;
      ret 1
    else
      let req := if no_block req =? 0 then req else set_timeout 0 req in
      let req := set_timeout (int_mul (timeout req) 10) req in
      time <- unlock_poll w pid locked (timeout req) 0 fuel ;;
      if time =? timeout req then
        printf "Timed out\n" [] ;;
        ret 1
      else ret 0.

Definition lock_file (req : lock_request) : Z := 1.

(** The getopt loop of [main], on the locals [req] and [unlock]: [inl] is a
    [return] out of [main]. *)
Fixpoint getopt_loop (opts : list getopt_result) (req : lock_request) (unlock : Z)
    : M (Z + lock_request * Z) :=
  match opts with
  | [] => ret (inr (req, unlock))
  | (opt, optarg) :: rest =>
      if Ascii.eqb opt "t" then
        let '(v, e) := strtol optarg in
        let req := set_timeout (to_int v) req in
        if negb (Ascii.eqb (deref e) NUL) || (timeout req <? 0) then
          printf "Timeout argument should be a positive integer\n" [] ;;
          ret (inl 1)
        else getopt_loop rest req unlock
      else if Ascii.eqb opt "n" then
        getopt_loop rest (set_no_block 1 req) unlock
      else if Ascii.eqb opt "u" then
        getopt_loop rest req 1
      else if Ascii.eqb opt "T" then
        if strcasecmp_eq optarg (bytes "lockf") then
          getopt_loop rest (set_type LOCKF req) unlock
        else if strcasecmp_eq optarg (bytes "flock") then
          getopt_loop rest (set_type FLOCK req) unlock
        else if strcasecmp_eq optarg (bytes "fcntl") then
          getopt_loop rest (set_type FCNTL req) unlock
        else
          printf "Invalid type: %s\n" [AStr (Some optarg)] ;;
          ret (inl 1)
      else
        printf "Unrecognised option: %c\n" [AInt (code opt)] ;;
        ret (inl 1)
  end.

Definition is_FLOCK (t : l_type) : bool :=
  match t with FLOCK => true | _ => false end.

Definition main (opts : list getopt_result) (args : list (list ascii))
    (fuel : nat) : M Z :=
  r <- getopt_loop opts req0 0 ;;
  match r with
  | inl st => ret st
  | inr (req, unlock) =>
      if negb (no_block req =? 0) && (0 <=? timeout req) then
        printf "Cannot set no-block and timeout together\n" [] ;;
        ret 1
      else
        let req := if timeout req =? -1 then set_timeout 0 req else req in
        match args with
        | [] =>
            printf "No filename given\n" [] ;;
            ret 1
        | arg :: _ =>
            let '(v, e) := strtol arg in
            let req := set_fd (to_int v) req in
            let req := if negb (Ascii.eqb (deref e) NUL)
                       then set_filename (Some arg) (set_fd 0 req) else req in
            if negb (unlock =? 0) then
              if negb (fd req =? 0) then unlock_descriptor (fd req)
              else unlock_file req fuel
            else
              let do_fork := if negb (fd req =? 0) && is_FLOCK (type req)
                             then 0 else 1 in
              if negb (do_fork =? 0) then
                signal SIGUSR1 ;;
                signal SIGUSR2 ;;
                pid <- getpid ;;
                let ppid := w_ppid w in
                cpid <- fork w ;;
                if cpid =? 0 then child_loop req pid ppid fuel
                else parent_loop w cpid (timeout req) fuel
              else
                printf "Locking file descriptor %i\n" [AInt (fd req)] ;;
                ok <- lock_descriptor req ;;
                if ok =? 0 then ret 1 else ret 0
        end
  end.

End Program.

End Flock.

(** The signal numbers of Linux on x86 and ARM. *)
#[export] Instance linux_signals : Signals :=
  {| SIGUSR1 := 10; SIGUSR2 := 12; SIGUSR_distinct := ltac:(discriminate) |}.

(** * Vocabulary of the properties *)

(** ** Runs and their traces *)

(** [m], started in [s], ends as [r] after making exactly the calls [evs]. *)
Definition runs {A} (m : M A) (s : pstate) (r : result A) (evs : list event) : Prop :=
  fst (m s) = r /\ trace (snd (m s)) = trace s ++ evs.

Definition is_kill (e : event) : bool :=
  match e with Kill _ _ => true | _ => false end.

Definition is_open (e : event) : bool :=
  match e with Open _ _ => true | _ => false end.

(** A call that asks for the lock (F_TEST and LOCK_UN do not). *)
Definition is_lock (e : event) : bool :=
  match e with
  | Lockf _ F_LOCK | Lockf _ F_TLOCK => true
  | Flock _ LOCK_EX | Flock _ LOCK_EX_NB => true
  | _ => false
  end.

Ltac run_step :=
  unfold bind, ret, when, printf, emit, getpid, set_child, open, kill, lockf, flock,
    lseek, ftruncate, write, read, deliver, exit; cbn.

(** The same, leaving the pid string and the loops folded. *)
Ltac run_calls :=
  unfold bind, ret, when, printf, emit, getpid, set_child, open, kill, lockf, flock,
    lseek, ftruncate, write, read, deliver, exit, log, set_file;
  cbn -[snprintf_int fill strlen child_wait unlock_poll parent_wait read_pid
        MAX_PID_LEN Nat.add Nat.sub firstn skipn int_mul].

(** The calls of a failed lock attempt: the only signal sent is one
    SIGUSR2 to [ppid], the path is opened once, the lock asked for at most
    once. *)
Definition failure_report {sg : Signals} (ppid : Z) (evs : list event) : Prop :=
  filter is_kill evs = [Kill ppid SIGUSR2]
  /\ List.length (filter is_open evs) = 1%nat
  /\ (List.length (filter is_lock evs) <= 1)%nat.

(** A world to try things in: the process is 100, started by the script 50;
    fork() answers [frk], open() answers 3, the lock call answers [lck],
    F_TEST answers [tst], every kill() answers [kl k], no signal arrives,
    the file holds [data]. *)
Definition sample_world (frk lck tst : Z) (kl : nat -> Z) (data : list ascii) : world :=
  {| w_pid := 100; w_ppid := 50; w_fork := frk; w_child_pid := 101;
     w_open := 3; w_lock := lck; w_lock_signal := None; w_test := tst;
     w_unlock := 0; w_kill := kl; w_signal := fun _ => None; w_file := data |}.

(** The state in which child_loop enters its idle loop, having made the
    calls [evs] from [s]: the flag is set, the file holds what snprintf left
    in [pid_str], one kill() (the report to the coordinator) was made. *)
Definition holding (s : pstate) (evs : list event) : pstate :=
  {| child := true; self := self s; handled := handled s;
     file_data := snprintf_int MAX_PID_LEN (self s);
     file_pos := List.length (snprintf_int MAX_PID_LEN (self s));
     kills := S (kills s); sleeps := sleeps s;
     trace := trace s ++ evs |}.

(** [n] rounds of the idle loop: a probe that finds the script, a sleep. *)
Fixpoint probes (script_pid : Z) (n : nat) : list event :=
  match n with
  | O => []
  | S k => Kill script_pid 0 :: Sleep 1 :: probes script_pid k
  end.

(** The state after [n] such rounds and a last probe that fails. *)
Definition after_idle (script_pid : Z) (n : nat) (s : pstate) : pstate :=
  {| child := child s; self := self s; handled := handled s;
     file_data := file_data s; file_pos := file_pos s;
     kills := kills s + n + 1; sleeps := sleeps s + n;
     trace := trace s ++ probes script_pid n ++ [Kill script_pid 0] |}.

(** The calls made while idling or waiting. *)
Definition is_idle_call (e : event) : bool :=
  match e with
  | Kill _ _ | Sleep _ | Usleep _ | Printf _ _ => true
  | _ => false
  end.

(** [s'] comes from [s] by calls of the kind [P] that leave the file alone. *)
Definition extends (P : event -> bool) (s s' : pstate) : Prop :=
  file_data s' = file_data s
  /\ exists evs, trace s' = trace s ++ evs /\ forallb P evs = true.

(** [m] only makes calls of the kind [P] and leaves the file alone. *)
Definition preserving {A} (P : event -> bool) (m : M A) : Prop :=
  forall s, extends P s (snd (m s)).

(** In this world every kill() succeeds except the one numbered [k]. *)
Definition kill_fails_at (k : nat) : nat -> Z :=
  fun i => if (i =? k)%nat then -1 else 0.

(** The state after [n] undisturbed sleeps recorded as [e]. *)
Definition slept (e : event) (n : nat) (s : pstate) : pstate :=
  {| child := child s; self := self s; handled := handled s;
     file_data := file_data s; file_pos := file_pos s;
     kills := kills s; sleeps := sleeps s + n;
     trace := trace s ++ repeat e n |}.

(** [n] rounds of the unlock loop: the signal is sent, then a short sleep. *)
Fixpoint rounds {sg : Signals} (pid : Z) (n : nat) : list event :=
  match n with
  | O => []
  | S k => Kill pid SIGUSR2 :: Usleep 1100 :: rounds pid k
  end.

Definition polled {sg : Signals} (pid : Z) (n : nat) (s : pstate) : pstate :=
  {| child := child s; self := self s; handled := handled s;
     file_data := file_data s; file_pos := file_pos s;
     kills := kills s + n; sleeps := sleeps s + n;
     trace := trace s ++ rounds pid n |}.

(** The bytes unlock_file gets from read() on a file it has just opened. *)
Definition pid_bytes (s : pstate) : list ascii := firstn MAX_PID_LEN (file_data s).

(** The calls of unlock_file up to the read, on the path [path]. *)
Definition unlock_prelude (w : world) (path : option (list ascii)) : list event :=
  [Open path O_RDONLY; Lockf (w_open w) F_TEST]
  ++ (if w_test w =? 0 then [Printf "File %s was not locked\n" [AStr path]] else [])
  ++ [Read (w_open w) MAX_PID_LEN].

(** The state of unlock_file after the read. *)
Definition probed (w : world) (path : option (list ascii)) (s : pstate) : pstate :=
  {| child := child s; self := self s; handled := handled s;
     file_data := file_data s; file_pos := List.length (pid_bytes s);
     kills := kills s; sleeps := sleeps s;
     trace := trace s ++ unlock_prelude w path |}.

(** The end of unlock_file: the loop from [time = 0], then the test of
    [time] against the budget. *)
Definition poll_and_report {sg : Signals} (w : world) (pid locked budget : Z)
    (fuel : nat) : M Z :=
  time <- unlock_poll w pid locked budget 0 fuel ;;
  if time =? budget then printf "Timed out\n" [] ;; ret 1 else ret 0.

(** The option characters getopt_long() returned. *)
Definition given (opts : list getopt_result) : list ascii := map fst opts.

(** The number a string of decimal digits stands for. *)
Definition digits_value (x : list ascii) : Z :=
  fold_left (fun a c => a * 10 + (code c - 48)) x 0.

(** A world in which the forked child, followed here, gets the process id
    [p]; the script is gone at the first probe. *)
Definition child_world (p : Z) : world :=
  {| w_pid := 100; w_ppid := 50; w_fork := 0; w_child_pid := p;
     w_open := 3; w_lock := 0; w_lock_signal := None; w_test := -1;
     w_unlock := 0; w_kill := kill_fails_at 1; w_signal := fun _ => None;
     w_file := bytes "stale content" |}.

(** The state of a process with the process id [p]. *)
Definition as_process (p : Z) (s : pstate) : pstate :=
  {| child := child s; self := p; handled := handled s;
     file_data := file_data s; file_pos := file_pos s;
     kills := kills s; sleeps := sleeps s; trace := trace s |}.

(** The exit status the handler ends the process with, by role, for one of
    the two signals, and the line it prints before. *)
Definition verdict {sg : Signals} (is_child : bool) (g : Z) : Z :=
  if is_child then (if g =? SIGUSR1 then 1 else 0)
  else (if g =? SIGUSR1 then 0 else 1).

Definition verdict_line {sg : Signals} (is_child : bool) (g : Z) : string :=
  if is_child then
    (if g =? SIGUSR1 then "Parent process signalled timeout - exiting\n"
     else "Unlocking\n")
  else
    (if g =? SIGUSR1 then "Child has successfully locked file - exiting\n"
     else "Child process failed to lock file\n").

(** The state after [n] rounds of the idle loop. *)
Definition idling (script_pid : Z) (n : nat) (s : pstate) : pstate :=
  {| child := child s; self := self s; handled := handled s;
     file_data := file_data s; file_pos := file_pos s;
     kills := kills s + n; sleeps := sleeps s + n;
     trace := trace s ++ probes script_pid n |}.

(** The calls of the idle loop on the script [script_pid]: null-signal
    probes of that pid, sleeps, and lines printed by the handler. *)
Definition is_probe_of (script_pid : Z) (e : event) : bool :=
  match e with
  | Kill p g => (p =? script_pid) && (g =? 0)
  | Sleep _ | Printf _ _ => true
  | _ => false
  end.

(** Unfold the calls and the binds, leaving the handler folded. *)
Ltac run_open_calls :=
  cbv beta iota zeta delta
    [bind ret getpid set_child open lockf flock emit printf deliver log set_file];
  cbn [child self handled file_data file_pos kills sleeps trace fst snd
       Flock.set_fd Flock.fd Flock.filename Flock.type Flock.no_block Flock.timeout].

(** What the unlock loop adds when the send numbered [k] (from 0) is the
    first to fail: [k] full rounds, the failed send, and the line about it
    if it was the very first send. *)
Definition failed_send {sg : Signals} (pid : Z) (k : nat) : list event :=
  rounds pid k ++ Kill pid SIGUSR2
  :: (if (k =? 0)%nat
      then [Printf "Failed to send signal to child process %i: %s\n" [AInt pid; AErr]]
      else []).

(** * Properties *)

(** ** Integers *)

Lemma to_int_id (x : Z) : INT_MIN <= x <= INT_MAX -> to_int x = x.
Proof.
  unfold INT_MIN, INT_MAX, to_int. intros H.
  rewrite Z.mod_small; lia.
Qed.

Lemma int_succ_id (x : Z) : INT_MIN <= x < INT_MAX -> int_succ x = x + 1.
Proof.
  unfold int_succ. intros H. apply to_int_id. unfold INT_MIN, INT_MAX in *. lia.
Qed.

(** ** The signal handler *)

Section HandlerFacts.

Context {sg : Signals}.

Lemma SIGUSR2_not_SIGUSR1 : (SIGUSR2 =? SIGUSR1) = false.
Proof. apply Z.eqb_neq. intros E. apply SIGUSR_distinct. now symmetry. Qed.

Lemma parent_handler_ok (s : pstate) :
  parent_sig_handler SIGUSR1 s
  = (Exited 0, log (Printf "Child has successfully locked file - exiting\n" []) s).
Proof. unfold parent_sig_handler. now rewrite Z.eqb_refl. Qed.

Lemma parent_handler_fail (s : pstate) :
  parent_sig_handler SIGUSR2 s
  = (Exited 1, log (Printf "Child process failed to lock file\n" []) s).
Proof.
  unfold parent_sig_handler. now rewrite SIGUSR2_not_SIGUSR1, Z.eqb_refl.
Qed.

Lemma child_handler_timeout (s : pstate) :
  child_sig_handler SIGUSR1 s
  = (Exited 1, log (Printf "Parent process signalled timeout - exiting\n" []) s).
Proof. unfold child_sig_handler. now rewrite Z.eqb_refl. Qed.

Lemma child_handler_unlock (s : pstate) :
  child_sig_handler SIGUSR2 s = (Exited 0, log (Printf "Unlocking\n" []) s).
Proof.
  unfold child_sig_handler. now rewrite SIGUSR2_not_SIGUSR1, Z.eqb_refl.
Qed.

Lemma handler_role (sig : Z) (s : pstate) :
  sig_handler sig s
  = if child s then child_sig_handler sig s else parent_sig_handler sig s.
Proof. unfold sig_handler, bind, get_child. now destruct (child s). Qed.

(** C8. The shared handler maps the two signals by role: as the parent
    (flag [child] clear) SIGUSR1 ends the process with status 0 and SIGUSR2
    with status 1; as the child SIGUSR1 ends it with status 1 and SIGUSR2
    with status 0; any other signal number, in either role, is logged by
    one printf and the handler returns, the process going on. *)
Theorem C8_sig_handler_role_mapping (s : pstate) (sig : Z) :
  (child s = false ->
     fst (sig_handler SIGUSR1 s) = Exited 0 /\ fst (sig_handler SIGUSR2 s) = Exited 1)
  /\ (child s = true ->
     fst (sig_handler SIGUSR1 s) = Exited 1 /\ fst (sig_handler SIGUSR2 s) = Exited 0)
  /\ (sig <> SIGUSR1 -> sig <> SIGUSR2 ->
     exists fmt, sig_handler sig s = (Val tt, log (Printf fmt [AInt sig]) s)).
Proof.
  repeat split; intros.
  - rewrite handler_role, H. now rewrite parent_handler_ok.
  - rewrite handler_role, H. now rewrite parent_handler_fail.
  - rewrite handler_role, H. now rewrite child_handler_timeout.
  - rewrite handler_role, H. now rewrite child_handler_unlock.
  - rewrite handler_role.
    apply Z.eqb_neq in H, H0.
    destruct (child s); unfold child_sig_handler, parent_sig_handler;
      rewrite H, H0; eexists; reflexivity.
Qed.

End HandlerFacts.

(** ** The lock holder: failure paths *)

Section ChildFailure.

Context {sg : Signals}.
Variables (w : world) (s : pstate) (ppid script_pid : Z) (fuel : nat).

Lemma child_loop_open_fails_1 (filename : list ascii) (no_block : Z) :
  w_open w < 0 ->
  runs (LockFile.child_loop w filename ppid script_pid no_block fuel) s (Val 1)
    [Open (Some filename) O_CREAT_RDWR;
     Printf "Failed to open file %s: %s\n" [AStr (Some filename); AErr];
     Kill ppid SIGUSR2].
Proof.
  intros H. apply Z.ltb_lt in H.
  unfold runs, LockFile.child_loop. run_step. rewrite H. cbn.
  now rewrite <- !app_assoc.
Qed.

Lemma child_loop_lock_fails_1 (filename : list ascii) (no_block : Z) :
  0 <= w_open w -> w_lock_signal w = None -> w_lock w = -1 ->
  runs (LockFile.child_loop w filename ppid script_pid no_block fuel) s (Val 1)
    [Open (Some filename) O_CREAT_RDWR;
     Lockf (w_open w) (if no_block =? 0 then F_LOCK else F_TLOCK);
     Printf "Failed to lock file %s (%i): %s\n"
       [AStr (Some filename); AInt (w_open w); AErr];
     Kill ppid SIGUSR2].
Proof.
  intros Ho Hs Hl. apply Z.ltb_ge in Ho.
  unfold runs, LockFile.child_loop. run_step. rewrite Ho. cbn.
  destruct (no_block =? 0); cbn; rewrite Hs, Hl; cbn;
    now rewrite <- !app_assoc.
Qed.

Lemma child_loop_open_fails_2 (req : Flock.lock_request) :
  Flock.filename req = None \/ w_open w < 0 ->
  runs (Flock.child_loop w req ppid script_pid fuel) s (Val 1)
    [Open (Flock.filename req) O_CREAT_RDWR;
     Printf "Failed to open file %s: %s\n" [AStr (Flock.filename req); AErr];
     Kill ppid SIGUSR2].
Proof.
  intros H.
  assert (E : (match Flock.filename req with Some _ => w_open w | None => -1 end <? 0) = true).
  { destruct H as [-> | H]; [reflexivity|].
    destruct (Flock.filename req); [now apply Z.ltb_lt | reflexivity]. }
  unfold runs, Flock.child_loop. run_step. rewrite E. cbn.
  now rewrite <- !app_assoc.
Qed.

Lemma child_loop_lock_fails_2 (req : Flock.lock_request) (f : list ascii) :
  Flock.filename req = Some f -> 0 <= w_open w ->
  Flock.type req <> Flock.FCNTL ->
  w_lock_signal w = None -> w_lock w = -1 ->
  runs (Flock.child_loop w req ppid script_pid fuel) s (Val 1)
    [Open (Some f) O_CREAT_RDWR;
     Printf "Locking file %s\n" [AStr (Some f)];
     match Flock.type req with
     | Flock.LOCKF => Lockf (w_open w) (if Flock.no_block req =? 0 then F_LOCK else F_TLOCK)
     | _ => Flock (w_open w) (if Flock.no_block req =? 0 then LOCK_EX else LOCK_EX_NB)
     end;
     Printf "Failed to lock file (fd = %i): %s\n" [AInt (w_open w); AErr];
     Kill ppid SIGUSR2].
Proof.
  intros Hf Ho Ht Hs Hl. apply Z.ltb_ge in Ho.
  unfold runs, Flock.child_loop, Flock.lock_descriptor. run_step.
  rewrite Hf. cbn. rewrite Ho. cbn.
  destruct (Flock.type req); try congruence;
    destruct (Flock.no_block req =? 0); cbn; rewrite Hs, Hl; cbn;
    now rewrite <- !app_assoc.
Qed.

End ChildFailure.

(** C7. When the open fails, or the lock attempt fails (would-block on a
    non-blocking attempt included), child_loop sends SIGUSR2 to the
    coordinator once and nothing else, returns 1, and has opened the path
    once and asked for the lock at most once; in both source files. *)
Theorem C7_child_failure_signals_once {sg : Signals} :
  (forall w s ppid script_pid fuel filename no_block,
      w_open w < 0 \/ (0 <= w_open w /\ w_lock_signal w = None /\ w_lock w = -1) ->
      exists evs,
        runs (LockFile.child_loop w filename ppid script_pid no_block fuel) s (Val 1) evs
        /\ failure_report ppid evs)
  /\ (forall w s ppid script_pid fuel req,
      (Flock.filename req = None \/ w_open w < 0)
      \/ (Flock.filename req <> None /\ 0 <= w_open w /\ Flock.type req <> Flock.FCNTL
          /\ w_lock_signal w = None /\ w_lock w = -1) ->
      exists evs,
        runs (Flock.child_loop w req ppid script_pid fuel) s (Val 1) evs
        /\ failure_report ppid evs).
Proof.
  split; intros.
  - destruct H as [H | (Ho & Hs & Hl)].
    + eexists. split; [now apply child_loop_open_fails_1|].
      repeat split; cbn; lia.
    + eexists. split; [now apply child_loop_lock_fails_1|].
      destruct (no_block =? 0); repeat split; cbn; lia.
  - destruct H as [H | (Hf & Ho & Ht & Hs & Hl)].
    + eexists. split; [now apply child_loop_open_fails_2|].
      repeat split; cbn; lia.
    + destruct (Flock.filename req) as [f|] eqn:Ef; [|congruence].
      eexists. split; [now apply (child_loop_lock_fails_2 w s ppid script_pid fuel req f)|].
      destruct (Flock.type req); try congruence;
        destruct (Flock.no_block req =? 0); repeat split; cbn; lia.
Qed.

(** C7 at a would-block failure of a non-blocking attempt. *)
Lemma C7_witness :
  exists evs,
    runs (LockFile.child_loop (sample_world 0 (-1) 0 (fun _ => 0) []) (bytes "lockfile")
            100 50 1 5)
         (init (sample_world 0 (-1) 0 (fun _ => 0) [])) (Val 1) evs
    /\ failure_report 100 evs.
Proof.
  apply (proj1 (C7_child_failure_signals_once (sg := linux_signals))).
  right. cbn. repeat split; lia.
Defined.

(** ** Decimal digits *)

Lemma code_digit_char (d : Z) : 0 <= d < 10 -> code (digit_char d) = 48 + d.
Proof.
  intros H. unfold code, digit_char.
  rewrite nat_ascii_embedding; lia.
Qed.

Lemma isdigit_digit_char (d : Z) : 0 <= d < 10 -> isdigit (digit_char d) = true.
Proof.
  intros H. unfold isdigit. rewrite code_digit_char by assumption.
  apply andb_true_iff. split; apply Z.leb_le; lia.
Qed.

Lemma isdigit_not_nul (c : ascii) : isdigit c = true -> is_nul c = false.
Proof.
  unfold isdigit, is_nul. intros H. apply andb_true_iff in H. destruct H as [H _].
  apply Z.leb_le in H. apply Ascii.eqb_neq. intros ->. cbn in H. lia.
Qed.

Lemma digits_le_isdigit (f : nat) : forall n,
  Forall (fun c => isdigit c = true) (digits_le f n).
Proof.
  induction f as [|f IH]; intros n; cbn [digits_le]; constructor.
  - apply isdigit_digit_char. apply Z.mod_pos_bound. lia.
  - destruct (n <? 10); [constructor | apply IH].
Qed.

Lemma format_int_no_nul (v : Z) : Forall (fun c => is_nul c = false) (format_int v).
Proof.
  assert (D : forall n, Forall (fun c => is_nul c = false) (rev (digits_le 10 n))).
  { intros n. apply Forall_rev.
    eapply Forall_impl; [|apply digits_le_isdigit]. apply isdigit_not_nul. }
  unfold format_int. destruct (v <? 0); [constructor; [reflexivity|]|]; apply D.
Qed.

Lemma snprintf_int_no_nul (size : nat) (v : Z) :
  Forall (fun c => is_nul c = false) (snprintf_int size v).
Proof.
  unfold snprintf_int.
  pose proof (format_int_no_nul v) as H.
  rewrite <- (firstn_skipn (size - 1) (format_int v)) in H.
  apply Forall_app in H. apply H.
Qed.

(** ** Buffers *)

Lemma c_string_app_nul (x r : list ascii) :
  Forall (fun c => is_nul c = false) x -> c_string (x ++ NUL :: r) = x.
Proof.
  induction 1 as [|c x Hc _ IH]; cbn [c_string app].
  - reflexivity.
  - now rewrite Hc, IH.
Qed.

Lemma c_string_no_nul (x : list ascii) :
  Forall (fun c => is_nul c = false) x -> c_string x = x.
Proof.
  induction 1 as [|c x Hc _ IH]; cbn [c_string]; [reflexivity|]. now rewrite Hc, IH.
Qed.

Lemma c_string_app_repeat (x : list ascii) (k : nat) :
  Forall (fun c => is_nul c = false) x -> c_string (x ++ repeat NUL k) = x.
Proof.
  intros H. destruct k; cbn [repeat].
  - rewrite app_nil_r. now apply c_string_no_nul.
  - now apply c_string_app_nul.
Qed.

(** What write() sends out of [pid_str]: the string snprintf left there. *)
Lemma pid_str_written (size : nat) (x : list ascii) :
  Forall (fun c => is_nul c = false) x ->
  firstn (strlen (fill size x)) (fill size x) = x.
Proof.
  intros H. unfold strlen, fill. rewrite c_string_app_repeat by assumption.
  rewrite firstn_app, Nat.sub_diag, firstn_all. cbn [firstn]. apply app_nil_r.
Qed.

Lemma write_at_start (x d : list ascii) :
  write_at 0 x (firstn 0 d ++ repeat NUL (0 - List.length d)) = x.
Proof.
  unfold write_at. cbn [firstn Nat.sub repeat app List.length].
  rewrite skipn_nil. apply app_nil_r.
Qed.

(** ** The lock holder: the lock is held *)

Section ChildLocked.

Context {sg : Signals}.
Variables (w : world) (s : pstate) (ppid script_pid : Z) (fuel : nat).

(** With the file open and the lock acquired, child_loop writes the pid
    string, reports SIGUSR1 to the coordinator and enters the idle loop. *)
Lemma child_loop_locked_1 (filename : list ascii) (no_block : Z) :
  0 <= w_open w -> w_lock_signal w = None -> w_lock w <> -1 ->
  LockFile.child_loop w filename ppid script_pid no_block fuel s
  = (child_wait w script_pid fuel ;; ret 1)
      (holding s
         [Open (Some filename) O_CREAT_RDWR;
          Lockf (w_open w) (if no_block =? 0 then F_LOCK else F_TLOCK);
          Lseek (w_open w) 0; Ftruncate (w_open w) 0;
          Write (w_open w) (snprintf_int MAX_PID_LEN (self s));
          Kill ppid SIGUSR1]).
Proof.
  intros Ho Hs Hl. apply Z.ltb_ge in Ho. apply Z.eqb_neq in Hl.
  unfold LockFile.child_loop, holding.
  destruct (no_block =? 0); run_calls; rewrite Ho; run_calls;
    rewrite Hs, Hl; run_calls;
    rewrite !pid_str_written by apply snprintf_int_no_nul;
    fold NUL; rewrite write_at_start, <- !app_assoc; reflexivity.
Qed.

(** The same in the second source file, for a lock kind that takes the lock. *)
Lemma child_loop_locked_2 (req : Flock.lock_request) (f : list ascii) :
  Flock.filename req = Some f -> 0 <= w_open w ->
  Flock.type req <> Flock.FCNTL ->
  w_lock_signal w = None -> w_lock w <> -1 ->
  Flock.child_loop w req ppid script_pid fuel s
  = (child_wait w script_pid fuel ;; ret 1)
      (holding s
         [Open (Some f) O_CREAT_RDWR;
          Printf "Locking file %s\n" [AStr (Some f)];
          match Flock.type req with
          | Flock.LOCKF =>
              Lockf (w_open w) (if Flock.no_block req =? 0 then F_LOCK else F_TLOCK)
          | _ => Flock (w_open w) (if Flock.no_block req =? 0 then LOCK_EX else LOCK_EX_NB)
          end;
          Lseek (w_open w) 0; Ftruncate (w_open w) 0;
          Write (w_open w) (snprintf_int MAX_PID_LEN (self s));
          Kill ppid SIGUSR1]).
Proof.
  intros Hf Ho Ht Hs Hl. apply Z.ltb_ge in Ho. apply Z.eqb_neq in Hl.
  unfold Flock.child_loop, Flock.lock_descriptor, holding.
  run_calls. rewrite Hf. run_calls. rewrite Ho. run_calls.
  destruct (Flock.type req); try congruence;
    destruct (Flock.no_block req =? 0); run_calls;
    rewrite Hs, Hl; run_calls;
    rewrite !pid_str_written by apply snprintf_int_no_nul;
    fold NUL; rewrite write_at_start, <- !app_assoc; reflexivity.
Qed.

(** With the fcntl kind no locking call is made at all. *)
Lemma child_loop_fcntl (req : Flock.lock_request) (f : list ascii) :
  Flock.filename req = Some f -> 0 <= w_open w ->
  Flock.type req = Flock.FCNTL ->
  Flock.child_loop w req ppid script_pid fuel s
  = (child_wait w script_pid fuel ;; ret 1)
      (holding s
         [Open (Some f) O_CREAT_RDWR;
          Printf "Locking file %s\n" [AStr (Some f)];
          Lseek (w_open w) 0; Ftruncate (w_open w) 0;
          Write (w_open w) (snprintf_int MAX_PID_LEN (self s));
          Kill ppid SIGUSR1]).
Proof.
  intros Hf Ho Ht. apply Z.ltb_ge in Ho.
  unfold Flock.child_loop, Flock.lock_descriptor, holding.
  run_calls. rewrite Hf. run_calls. rewrite Ho. run_calls. rewrite Ht. run_calls.
  rewrite !pid_str_written by apply snprintf_int_no_nul.
  fold NUL. rewrite write_at_start, <- !app_assoc. reflexivity.
Qed.

End ChildLocked.

(** ** The idle loop *)

Section Idle.

Context {sg : Signals}.
Variables (w : world) (script_pid : Z).

(** As long as the probe finds the script and no signal arrives, the loop
    goes on; it ends at the first probe that fails. *)
Lemma child_wait_gone (n : nat) : forall (fuel : nat) (s : pstate),
  (n < fuel)%nat ->
  (forall j, (j < n)%nat -> w_kill w (kills s + j) = 0) ->
  w_kill w (kills s + n) <> 0 ->
  (forall j, (j < n)%nat -> w_signal w (sleeps s + j) = None) ->
  child_wait w script_pid fuel s = (Val tt, after_idle script_pid n s).
Proof.
  induction n as [|n IH]; intros fuel s Hf Hk Hg Hs;
    (destruct fuel as [|fuel]; [lia|]); cbn [child_wait].
  - rewrite Nat.add_0_r in Hg. apply Z.eqb_neq in Hg.
    unfold bind, kill. rewrite Hg. unfold ret, after_idle. cbn [probes app].
    do 2 f_equal; lia.
  - pose proof (Hk 0%nat ltac:(lia)) as K0. rewrite Nat.add_0_r in K0.
    pose proof (Hs 0%nat ltac:(lia)) as S0. rewrite Nat.add_0_r in S0.
    unfold bind at 1. unfold kill at 1. rewrite K0. cbn [Z.eqb].
    unfold bind at 1. unfold sleep, tick. cbn [sleeps]. rewrite S0.
    cbn [deliver]. rewrite IH.
    + unfold after_idle. cbn [child self handled file_data file_pos kills sleeps trace probes].
      f_equal. f_equal; try lia. now rewrite <- !app_assoc.
    + lia.
    + intros j Hj. cbn [kills]. rewrite <- (Hk (S j)) by lia. f_equal. lia.
    + cbn [kills]. intros E. apply Hg. rewrite <- E. f_equal. lia.
    + intros j Hj. cbn [sleeps]. rewrite <- (Hs (S j)) by lia. f_equal. lia.
Qed.

End Idle.

(** ** Computations that leave the file alone *)

Section Preserving.

Context {sg : Signals}.
Variable w : world.
Variable P : event -> bool.

Lemma extends_refl (s : pstate) : extends P s s.
Proof. split; [reflexivity|]. exists []. now rewrite app_nil_r. Qed.

Lemma extends_trans (s1 s2 s3 : pstate) :
  extends P s1 s2 -> extends P s2 s3 -> extends P s1 s3.
Proof.
  intros [F1 (e1 & T1 & A1)] [F2 (e2 & T2 & A2)]. split; [congruence|].
  exists (e1 ++ e2). rewrite T2, T1, <- app_assoc. split; [reflexivity|].
  rewrite forallb_app. now rewrite A1, A2.
Qed.

Lemma extends_log (e : event) (s : pstate) : P e = true -> extends P s (log e s).
Proof.
  intros H. split; [reflexivity|]. exists [e]. split; [reflexivity|].
  cbn. now rewrite H.
Qed.

Lemma preserving_ret {A} (a : A) : preserving P (ret a).
Proof. intros s. apply extends_refl. Qed.

Lemma preserving_exit {A} (c : Z) : preserving P (@exit A c).
Proof. intros s. apply extends_refl. Qed.

Lemma preserving_out_of_fuel {A} : preserving P (@out_of_fuel A).
Proof. intros s. apply extends_refl. Qed.

Lemma preserving_bind {A B} (m : M A) (k : A -> M B) :
  preserving P m -> (forall a, preserving P (k a)) -> preserving P (bind m k).
Proof.
  intros Hm Hk s. unfold bind. specialize (Hm s).
  destruct (m s) as [[a | c |] s1]; cbn [snd] in *; try assumption.
  eapply extends_trans; [eassumption | apply Hk].
Qed.

End Preserving.

Section PreservingCalls.

Context {sg : Signals}.
Variable w : world.

Lemma preserving_printf (fmt : string) (args : list parg) :
  preserving is_idle_call (printf fmt args).
Proof. intros s. now apply extends_log. Qed.

Lemma preserving_kill (pid sig : Z) : preserving is_idle_call (kill w pid sig).
Proof.
  intros s. split; [reflexivity|]. exists [Kill pid sig]. now split.
Qed.

Lemma preserving_handler (sig : Z) : preserving is_idle_call (sig_handler sig).
Proof.
  intros s. rewrite handler_role.
  destruct (child s); unfold child_sig_handler, parent_sig_handler;
    destruct (sig =? SIGUSR1); try destruct (sig =? SIGUSR2);
    first [ apply preserving_printf
          | apply preserving_bind;
            [apply preserving_printf | intros; apply preserving_exit] ].
Qed.

Lemma preserving_deliver (sig : option Z) : preserving is_idle_call (deliver sig).
Proof.
  intros s. unfold deliver. destruct sig as [g|]; [|apply extends_refl].
  destruct (mem g (handled s)); [apply preserving_handler | apply extends_refl].
Qed.

Lemma preserving_tick (e : event) :
  is_idle_call e = true -> preserving is_idle_call (tick w e).
Proof.
  intros He s. unfold tick.
  eapply extends_trans; [|apply preserving_deliver].
  split; [reflexivity|]. exists [e]. split; [reflexivity|]. cbn. now rewrite He.
Qed.

Lemma preserving_child_wait (script_pid : Z) (fuel : nat) :
  preserving is_idle_call (child_wait w script_pid fuel).
Proof.
  induction fuel as [|fuel IH]; cbn [child_wait].
  - apply preserving_out_of_fuel.
  - apply preserving_bind; [apply preserving_kill|]. intros r.
    destruct (r =? 0); [|apply preserving_ret].
    apply preserving_bind; [now apply preserving_tick | intros; apply IH].
Qed.

Lemma preserving_parent_wait (timeout : Z) (fuel : nat) : forall time,
  preserving is_idle_call (parent_wait w timeout time fuel).
Proof.
  induction fuel as [|fuel IH]; intros time; cbn [parent_wait].
  - apply preserving_out_of_fuel.
  - destruct (timeout =? 0); [|destruct (time <? timeout)];
      try apply preserving_ret;
      (apply preserving_bind; [now apply preserving_tick | intros; apply IH]).
Qed.

Lemma preserving_unlock_poll (pid locked timeout : Z) (fuel : nat) : forall time,
  preserving is_idle_call (unlock_poll w pid locked timeout time fuel).
Proof.
  induction fuel as [|fuel IH]; intros time; cbn [unlock_poll].
  - apply preserving_out_of_fuel.
  - destruct ((time <? timeout) || (timeout =? 0)); [|apply preserving_ret].
    apply preserving_bind; [apply preserving_kill|]. intros r.
    destruct (r <? 0).
    + apply preserving_bind; [|intros; apply preserving_ret].
      unfold when. destruct (int_succ time =? 1);
        [apply preserving_printf | apply preserving_ret].
    + destruct (locked =? 0); [apply preserving_ret|].
      apply preserving_bind; [now apply preserving_tick | intros; apply IH].
Qed.

End PreservingCalls.

Lemma idle_calls_no_lock (evs : list event) :
  forallb is_idle_call evs = true -> filter is_lock evs = [].
Proof.
  induction evs as [|e evs IH]; cbn; [reflexivity|].
  intros H. apply andb_true_iff in H. destruct H as [He H].
  destruct e; try discriminate; cbn; auto.
Qed.

(** ** The lock holder: what it reports and how it ends *)

Lemma idle_then_return {sg : Signals} (w : world) (script_pid : Z) (fuel : nat)
    (s : pstate) (evs : list event) :
  exists evs',
    trace (snd ((child_wait w script_pid fuel ;; ret 1) (holding s evs)))
    = trace s ++ evs ++ evs'
    /\ forallb is_idle_call evs' = true
    /\ file_data (snd ((child_wait w script_pid fuel ;; ret 1) (holding s evs)))
       = snprintf_int MAX_PID_LEN (self s).
Proof.
  assert (H : preserving is_idle_call (child_wait w script_pid fuel ;; ret 1)).
  { apply preserving_bind; [apply preserving_child_wait | intros; apply preserving_ret]. }
  destruct (H (holding s evs)) as [F (evs' & T & A)].
  exists evs'. rewrite T, F. cbn [holding trace file_data].
  now rewrite <- app_assoc.
Qed.

(** C9. With the fcntl lock kind, lock_descriptor makes no call at all and
    returns 1; so child_loop, once the file is open, writes its pid, sends
    SIGUSR1 (locked OK) to the coordinator and idles, and no call that asks
    for a lock appears anywhere in its run. *)
Theorem C9_fcntl_takes_no_lock {sg : Signals} (w : world) (s : pstate)
    (req : Flock.lock_request) :
  Flock.type req = Flock.FCNTL ->
  Flock.lock_descriptor w req s = (Val 1, s)
  /\ forall ppid script_pid fuel f,
       Flock.filename req = Some f -> 0 <= w_open w ->
       exists evs,
         trace (snd (Flock.child_loop w req ppid script_pid fuel s)) = trace s ++ evs
         /\ filter is_lock evs = []
         /\ In (Kill ppid SIGUSR1) evs.
Proof.
  intros Ht. split.
  - unfold Flock.lock_descriptor. now rewrite Ht.
  - intros ppid script_pid fuel f Hf Ho.
    rewrite (child_loop_fcntl w s ppid script_pid fuel req f Hf Ho Ht).
    match goal with |- context [holding s ?e] =>
      destruct (idle_then_return w script_pid fuel s e) as (evs' & T & A & _) end.
    eexists. split; [exact T|]. split.
    + rewrite filter_app, (idle_calls_no_lock evs' A). reflexivity.
    + apply in_or_app. left. cbn. tauto.
Qed.

(** C9 for a request of kind fcntl on the path "lockfile". *)
Lemma C9_witness :
  Flock.lock_descriptor (sample_world 0 0 0 (fun _ => 0) [])
    (Flock.set_type Flock.FCNTL (Flock.set_filename (Some (bytes "lockfile")) Flock.req0))
    (init (sample_world 0 0 0 (fun _ => 0) []))
  = (Val 1, init (sample_world 0 0 0 (fun _ => 0) [])).
Proof.
  apply (C9_fcntl_takes_no_lock (sg := linux_signals)). reflexivity.
Defined.

(** C3, as the code has it.  Once the lock is held and the idle loop
    entered, if the script is found by the first [n] probes and gone at the
    next, and no signal arrives meanwhile, the loop ends at that probe and
    child_loop returns 1: the lock holder exits with status 1. *)
Theorem C3_script_gone_exit_status_1 {sg : Signals} (w : world) (s : pstate)
    (ppid script_pid : Z) (fuel n : nat) :
  0 <= w_open w -> w_lock_signal w = None -> w_lock w <> -1 ->
  (n < fuel)%nat ->
  (forall j, (j < n)%nat -> w_kill w (S (kills s) + j) = 0) ->
  w_kill w (S (kills s) + n) <> 0 ->
  (forall j, (j < n)%nat -> w_signal w (sleeps s + j) = None) ->
  (forall filename no_block,
     exists evs,
       runs (LockFile.child_loop w filename ppid script_pid no_block fuel) s (Val 1)
         (evs ++ Kill ppid SIGUSR1 :: probes script_pid n ++ [Kill script_pid 0]))
  /\ (forall req f, Flock.filename req = Some f ->
     exists evs,
       runs (Flock.child_loop w req ppid script_pid fuel) s (Val 1)
         (evs ++ Kill ppid SIGUSR1 :: probes script_pid n ++ [Kill script_pid 0])).
Proof.
  intros Ho Hs Hl Hf Hk Hg Hn.
  assert (W : forall evs,
    runs (child_wait w script_pid fuel ;; ret 1) (holding s (evs ++ [Kill ppid SIGUSR1]))
      (Val 1) (probes script_pid n ++ [Kill script_pid 0])).
  { intros evs. unfold runs, bind.
    rewrite (child_wait_gone w script_pid n fuel) by assumption.
    split; reflexivity. }
  assert (R : forall (m : M Z) evs,
    m s = (child_wait w script_pid fuel ;; ret 1) (holding s (evs ++ [Kill ppid SIGUSR1])) ->
    runs m s (Val 1) (evs ++ Kill ppid SIGUSR1 :: probes script_pid n ++ [Kill script_pid 0])).
  { intros m evs E. destruct (W evs) as [W1 W2]. unfold runs. rewrite E.
    split; [exact W1|]. rewrite W2. cbn [holding trace].
    rewrite <- !app_assoc. reflexivity. }
  split.
  - intros filename no_block. eexists. apply R.
    rewrite (child_loop_locked_1 w s ppid script_pid fuel filename no_block Ho Hs Hl).
    do 2 f_equal.
    change [?a; ?b; ?c; ?d; ?e; Kill ppid SIGUSR1]
      with ([a; b; c; d; e] ++ [Kill ppid SIGUSR1]). reflexivity.
  - intros req f Ef.
    destruct (Flock.type req) eqn:Et.
    + eexists. apply R.
      rewrite (child_loop_locked_2 w s ppid script_pid fuel req f Ef Ho) by congruence.
      rewrite Et. do 2 f_equal.
      change [?a; ?b; ?c; ?d; ?e; ?g; Kill ppid SIGUSR1]
        with ([a; b; c; d; e; g] ++ [Kill ppid SIGUSR1]). reflexivity.
    + eexists. apply R.
      rewrite (child_loop_fcntl w s ppid script_pid fuel req f Ef Ho Et).
      do 2 f_equal.
      change [?a; ?b; ?c; ?d; ?e; Kill ppid SIGUSR1]
        with ([a; b; c; d; e] ++ [Kill ppid SIGUSR1]). reflexivity.
    + eexists. apply R.
      rewrite (child_loop_locked_2 w s ppid script_pid fuel req f Ef Ho) by congruence.
      rewrite Et. do 2 f_equal.
      change [?a; ?b; ?c; ?d; ?e; ?g; Kill ppid SIGUSR1]
        with ([a; b; c; d; e; g] ++ [Kill ppid SIGUSR1]). reflexivity.
Qed.

(** C3 where the script is found twice and gone at the third probe. *)
Lemma C3_witness :
  exists evs,
    runs (LockFile.child_loop (sample_world 0 0 0 (kill_fails_at 3) []) (bytes "lockfile")
            100 50 0 5)
         (init (sample_world 0 0 0 (kill_fails_at 3) [])) (Val 1)
         (evs ++ Kill 100 SIGUSR1 :: probes 50 2 ++ [Kill 50 0]).
Proof.
  apply (proj1 (C3_script_gone_exit_status_1 (sg := linux_signals)
                  (sample_world 0 0 0 (kill_fails_at 3) [])
                  (init (sample_world 0 0 0 (kill_fails_at 3) []))
                  100 50 5 2
                  ltac:(cbn; lia) eq_refl ltac:(cbn; lia) ltac:(lia)
                  ltac:(intros [|[|j]] Hj; cbn; [reflexivity | reflexivity | lia])
                  ltac:(cbn; lia)
                  ltac:(intros; reflexivity))).
Defined.

(** C3 as stated fails: the program is started as [flock lockfile], the
    process followed is the forked child; it takes the lock, reports to the
    coordinator, and its first probe finds the script gone.  It ends with
    status 1, not with the success status 0. *)
Lemma C3_counterexample :
  runs (LockFile.main (sample_world 0 0 0 (kill_fails_at 1) []) [] [bytes "lockfile"] 5)
       (init (sample_world 0 0 0 (kill_fails_at 1) [])) (Val 1)
       [Signal SIGUSR1; Signal SIGUSR2; Fork;
        Open (Some (bytes "lockfile")) O_CREAT_RDWR; Lockf 3 F_LOCK;
        Lseek 3 0; Ftruncate 3 0; Write 3 (bytes "101");
        Kill 100 SIGUSR1; Kill 50 0]
  /\ status (fst (LockFile.main (sample_world 0 0 0 (kill_fails_at 1) []) []
                    [bytes "lockfile"] 5
                    (init (sample_world 0 0 0 (kill_fails_at 1) [])))) <> Some 0.
Proof.
  split; [split; reflexivity|]. cbn. discriminate.
Qed.

(** ** The coordinator's wait *)

Section ParentWait.

Context {sg : Signals}.
Variable w : world.

Lemma slept_0 (e : event) (s : pstate) : slept e 0 s = s.
Proof.
  destruct s. unfold slept. cbn. now rewrite Nat.add_0_r, app_nil_r.
Qed.

(** With a timeout set and no signal arriving, the loop sleeps once for
    each unit still to go and ends. *)
Lemma parent_wait_times_out (timeout : Z) (n : nat) : forall (time : Z) (fuel : nat) (s : pstate),
  0 <= time -> time + Z.of_nat n = timeout -> 0 < timeout <= INT_MAX ->
  (n < fuel)%nat ->
  (forall j, (j < n)%nat -> w_signal w (sleeps s + j) = None) ->
  parent_wait w timeout time fuel s = (Val tt, slept (Sleep 1) n s).
Proof.
  induction n as [|n IH]; intros time fuel s Ht En Hto Hf Hs;
    (destruct fuel as [|fuel]; [lia|]); cbn [parent_wait];
    (replace (timeout =? 0) with false by (symmetry; apply Z.eqb_neq; lia)).
  - replace (time <? timeout) with false by (symmetry; apply Z.ltb_ge; lia).
    now rewrite slept_0.
  - replace (time <? timeout) with true by (symmetry; apply Z.ltb_lt; lia).
    pose proof (Hs 0%nat ltac:(lia)) as S0. rewrite Nat.add_0_r in S0.
    unfold bind at 1. unfold sleep, tick. rewrite S0. cbn [deliver].
    rewrite int_succ_id by (unfold INT_MIN, INT_MAX in *; lia).
    rewrite IH; try lia.
    + unfold slept. cbn [child self handled file_data file_pos kills sleeps trace repeat].
      f_equal. f_equal; try lia. now rewrite <- app_assoc.
    + intros j Hj. cbn [sleeps]. rewrite <- (Hs (S j)) by lia. f_equal. lia.
Qed.

End ParentWait.

(** C1, as the code has it.  With a timeout set and no signal arriving
    before it elapses, parent_loop sleeps [timeout] times, sends SIGUSR1 to
    the lock holder, and returns 0, which is success, where the claim asks
    for the failure status 1. *)
Theorem C1_parent_timeout_returns_0 {sg : Signals} (w : world) (s : pstate)
    (cpid timeout : Z) (fuel : nat) :
  0 < timeout <= INT_MAX ->
  (Z.to_nat timeout < fuel)%nat ->
  (forall j, (j < Z.to_nat timeout)%nat -> w_signal w (sleeps s + j) = None) ->
  runs (parent_loop w cpid timeout fuel) s (Val 0)
    (repeat (Sleep 1) (Z.to_nat timeout) ++ [Kill cpid SIGUSR1]).
Proof.
  intros Ht Hf Hs. unfold runs, parent_loop, bind.
  rewrite (parent_wait_times_out w timeout (Z.to_nat timeout)); try lia; try assumption.
  cbn. split; [reflexivity|]. now rewrite <- app_assoc.
Qed.

(** C1 for a timeout of 5 and the lock holder 101. *)
Lemma C1_witness :
  runs (parent_loop (sample_world 101 0 0 (fun _ => 0) []) 101 5 10)
       (init (sample_world 101 0 0 (fun _ => 0) [])) (Val 0)
       (repeat (Sleep 1) (Z.to_nat 5) ++ [Kill 101 SIGUSR1]).
Proof.
  apply (C1_parent_timeout_returns_0 (sg := linux_signals)).
  - unfold INT_MAX. lia.
  - cbn. lia.
  - intros; reflexivity.
Defined.

(** The whole program on [flock -t 5 lockfile], followed in the
    coordinator while the lock holder stays blocked: the exit status is 0,
    in both source files. *)
Lemma coordinator_timeout_exit_status :
  status (fst (LockFile.main (sample_world 101 0 0 (fun _ => 0) [])
                 [("t"%char, bytes "5")] [bytes "lockfile"] 10
                 (init (sample_world 101 0 0 (fun _ => 0) [])))) = Some 0
  /\ status (fst (Flock.main (sample_world 101 0 0 (fun _ => 0) [])
                 [("t"%char, bytes "5")] [bytes "lockfile"] 10
                 (init (sample_world 101 0 0 (fun _ => 0) [])))) = Some 0
  /\ trace (snd (LockFile.main (sample_world 101 0 0 (fun _ => 0) [])
                 [("t"%char, bytes "5")] [bytes "lockfile"] 10
                 (init (sample_world 101 0 0 (fun _ => 0) []))))
     = [Signal SIGUSR1; Signal SIGUSR2; Fork; Sleep 1; Sleep 1; Sleep 1; Sleep 1;
        Sleep 1; Kill 101 SIGUSR1].
Proof. repeat split. Qed.

(** ** The unlock requester's polling loop *)

Section UnlockPoll.

Context {sg : Signals}.
Variable w : world.

Lemma polled_0 (pid : Z) (s : pstate) : polled pid 0 s = s.
Proof.
  destruct s. unfold polled. cbn. now rewrite !Nat.add_0_r, app_nil_r.
Qed.

Lemma int_succ_moves (x : Z) : INT_MIN <= x <= INT_MAX -> int_succ x <> x.
Proof.
  unfold int_succ, to_int, INT_MIN, INT_MAX. intros H.
  destruct (Z.eq_dec x 2147483647) as [-> | N]; [discriminate|].
  rewrite Z.mod_small; lia.
Qed.

(** On a locked file, with every send succeeding and no handler installed,
    the loop sends the signal once for each unit of the budget still to go
    and leaves [time] one past the budget. *)
Lemma unlock_poll_exhausts (pid locked timeout : Z) (n : nat) :
  forall (time : Z) (fuel : nat) (s : pstate),
  locked <> 0 -> handled s = [] ->
  0 <= time -> time + Z.of_nat n = timeout -> 0 < timeout <= INT_MAX ->
  (n < fuel)%nat ->
  (forall j, (j < n)%nat -> 0 <= w_kill w (kills s + j)) ->
  unlock_poll w pid locked timeout time fuel s
  = (Val (int_succ timeout), polled pid n s).
Proof.
  induction n as [|n IH]; intros time fuel s Hl Hh Ht En Hto Hf Hk;
    (destruct fuel as [|fuel]; [lia|]); cbn [unlock_poll];
    (replace (timeout =? 0) with false by (symmetry; apply Z.eqb_neq; lia));
    rewrite orb_false_r.
  - replace (time <? timeout) with false by (symmetry; apply Z.ltb_ge; lia).
    rewrite polled_0. unfold ret. do 3 f_equal. lia.
  - replace (time <? timeout) with true by (symmetry; apply Z.ltb_lt; lia).
    pose proof (Hk 0%nat ltac:(lia)) as K0. rewrite Nat.add_0_r in K0.
    apply Z.ltb_ge in K0. apply Z.eqb_neq in Hl.
    unfold bind at 1. unfold kill at 1. rewrite K0, Hl.
    unfold bind at 1. unfold usleep, tick. cbn [sleeps].
    unfold deliver. cbn [handled]. rewrite Hh.
    replace (match w_signal w (sleeps s) with Some _ => _ | None => _ end)
      with (@Val unit tt,
            {| child := child s; self := self s; handled := [];
               file_data := file_data s; file_pos := file_pos s;
               kills := S (kills s); sleeps := S (sleeps s);
               trace := (trace s ++ [Kill pid SIGUSR2]) ++ [Usleep (1000 + 100)] |})
      by (destruct (w_signal w (sleeps s)); reflexivity).
    rewrite int_succ_id by (unfold INT_MIN, INT_MAX in *; lia).
    rewrite IH; try lia; try reflexivity.
    + unfold polled.
      cbn [child self handled file_data file_pos kills sleeps trace rounds].
      f_equal. rewrite Hh. f_equal; try lia. now rewrite <- !app_assoc.
    + intros j Hj. cbn [kills].
      replace (S (kills s) + j)%nat with (kills s + S j)%nat by lia.
      apply Hk. lia.
Qed.

End UnlockPoll.

(** ** The unlock requester *)

Section UnlockFile.

Context {sg : Signals}.
Variables (w : world) (s : pstate) (fuel : nat).

(** unlock_file on a file that opens: either no pid is found and it returns
    1 after telling so, or it goes on to poll the pid it read. *)
Lemma unlock_file_reads_1 (filename : list ascii) (timeout no_block : Z) :
  0 <= w_open w ->
  LockFile.unlock_file w filename timeout no_block fuel s
  = if read_pid (pid_bytes s) =? 0 then
      (Val 1, log (Printf "Failed to read pid from file %s\n" [AStr (Some filename)])
                  (probed w (Some filename) s))
    else
      poll_and_report w (read_pid (pid_bytes s)) (w_test w) (int_mul timeout 10) fuel
        (probed w (Some filename) s).
Proof.
  intros Ho. apply Z.ltb_ge in Ho.
  unfold LockFile.unlock_file, poll_and_report, probed, unlock_prelude, pid_bytes.
  run_calls. rewrite Ho. run_calls.
  destruct (w_test w =? 0); run_calls; cbn [skipn Nat.add];
    destruct (read_pid (firstn MAX_PID_LEN (file_data s)) =? 0);
    unfold log; cbn [child self handled file_data file_pos kills sleeps trace];
    rewrite <- ?app_assoc; reflexivity.
Qed.

Lemma unlock_file_reads_2 (req : Flock.lock_request) (f : list ascii) :
  Flock.filename req = Some f -> 0 <= w_open w ->
  Flock.unlock_file w req fuel s
  = if read_pid (pid_bytes s) =? 0 then
      (Val 1, log (Printf "Failed to read pid from file %s\n" [AStr (Some f)])
                  (probed w (Some f) s))
    else
      poll_and_report w (read_pid (pid_bytes s)) (w_test w)
        (int_mul (if Flock.no_block req =? 0 then Flock.timeout req else 0) 10) fuel
        (probed w (Some f) s).
Proof.
  intros Hf Ho. apply Z.ltb_ge in Ho.
  unfold Flock.unlock_file, poll_and_report, probed, unlock_prelude, pid_bytes.
  run_calls. rewrite Hf. run_calls. rewrite Ho. run_calls.
  destruct (w_test w =? 0); run_calls; cbn [skipn Nat.add];
    destruct (read_pid (firstn MAX_PID_LEN (file_data s)) =? 0);
    destruct (Flock.no_block req =? 0);
    unfold log; cbn [child self handled file_data file_pos kills sleeps trace];
    rewrite <- ?app_assoc; reflexivity.
Qed.

End UnlockFile.

Lemma poll_and_report_exhausted {sg : Signals} (w : world) (s : pstate)
    (pid locked budget : Z) (fuel : nat) :
  locked <> 0 -> handled s = [] -> 0 < budget <= INT_MAX ->
  (Z.to_nat budget < fuel)%nat ->
  (forall j, (j < Z.to_nat budget)%nat -> 0 <= w_kill w (kills s + j)) ->
  poll_and_report w pid locked budget fuel s
  = (Val 0, polled pid (Z.to_nat budget) s).
Proof.
  intros Hl Hh Hb Hf Hk. unfold poll_and_report, bind.
  rewrite (unlock_poll_exhausts w pid locked budget (Z.to_nat budget)); try lia; try assumption.
  replace (int_succ budget =? budget) with false; [reflexivity|].
  symmetry. apply Z.eqb_neq. apply int_succ_moves. unfold INT_MIN, INT_MAX in *. lia.
Qed.

(** C2, as the code has it.  On a locked file, with a timeout set and every
    send succeeding, the loop uses up its budget of [timeout * 10] sends
    and unlock_file then returns 0: [time] has gone one past the budget, so
    the test for the timeout does not hold.  The claim asks for a nonzero
    return here. *)
Theorem C2_unlock_budget_exhausted_returns_0 {sg : Signals} (w : world) (s : pstate)
    (fuel : nat) (timeout : Z) :
  0 <= w_open w -> w_test w <> 0 -> read_pid (pid_bytes s) <> 0 ->
  handled s = [] ->
  0 < timeout -> timeout * 10 <= INT_MAX ->
  (Z.to_nat (timeout * 10) < fuel)%nat ->
  (forall j, (j < Z.to_nat (timeout * 10))%nat -> 0 <= w_kill w (kills s + j)) ->
  (forall filename no_block,
     runs (LockFile.unlock_file w filename timeout no_block fuel) s (Val 0)
       (unlock_prelude w (Some filename)
        ++ rounds (read_pid (pid_bytes s)) (Z.to_nat (timeout * 10))))
  /\ (forall req f,
     Flock.filename req = Some f -> Flock.no_block req = 0 ->
     Flock.timeout req = timeout ->
     runs (Flock.unlock_file w req fuel) s (Val 0)
       (unlock_prelude w (Some f)
        ++ rounds (read_pid (pid_bytes s)) (Z.to_nat (timeout * 10)))).
Proof.
  intros Ho Hl Hp Hh Ht Hm Hf Hk.
  assert (Em : int_mul timeout 10 = timeout * 10).
  { apply to_int_id. unfold INT_MIN, INT_MAX in *. lia. }
  apply Z.eqb_neq in Hp.
  assert (R : forall path,
    poll_and_report w (read_pid (pid_bytes s)) (w_test w) (timeout * 10) fuel
      (probed w path s)
    = (Val 0, polled (read_pid (pid_bytes s)) (Z.to_nat (timeout * 10)) (probed w path s))).
  { intros path. apply poll_and_report_exhausted; try assumption; lia. }
  split.
  - intros filename no_block. unfold runs.
    rewrite (unlock_file_reads_1 w s fuel filename timeout no_block Ho), Hp, Em, R.
    split; [reflexivity|]. cbn [snd polled probed trace]. now rewrite <- app_assoc.
  - intros req f Ef En Et. unfold runs.
    rewrite (unlock_file_reads_2 w s fuel req f Ef Ho), Hp, En, Et. cbn [Z.eqb].
    rewrite Em, R.
    split; [reflexivity|]. cbn [snd polled probed trace]. now rewrite <- app_assoc.
Qed.

(** C2 for [flock -u -t 1 lockfile] on a locked file that holds "4711". *)
Lemma C2_witness :
  runs (LockFile.unlock_file (sample_world 0 0 (-1) (fun _ => 0) (bytes "4711"))
          (bytes "lockfile") 1 0 20)
       (init (sample_world 0 0 (-1) (fun _ => 0) (bytes "4711"))) (Val 0)
       (unlock_prelude (sample_world 0 0 (-1) (fun _ => 0) (bytes "4711"))
          (Some (bytes "lockfile"))
        ++ rounds 4711 10).
Proof.
  refine (proj1 (C2_unlock_budget_exhausted_returns_0 (sg := linux_signals)
                   (sample_world 0 0 (-1) (fun _ => 0) (bytes "4711"))
                   (init (sample_world 0 0 (-1) (fun _ => 0) (bytes "4711")))
                   20 1 _ _ _ _ _ _ _ _) (bytes "lockfile") 0).
  - cbn. lia.
  - cbn. lia.
  - vm_compute. discriminate.
  - reflexivity.
  - lia.
  - unfold INT_MAX. lia.
  - cbn. lia.
  - intros. cbn. lia.
Defined.

(** The other edge of the same test: when the send that uses up the budget
    is the one that fails, the loop breaks with [time] equal to the budget
    and unlock_file reports a timeout, although the loop stopped on a
    failed send. *)
Lemma unlock_last_send_fails_reports_timeout :
  runs (LockFile.unlock_file (sample_world 0 0 (-1) (kill_fails_at 9) (bytes "4711"))
          (bytes "lockfile") 1 0 20)
       (init (sample_world 0 0 (-1) (kill_fails_at 9) (bytes "4711"))) (Val 1)
       (unlock_prelude (sample_world 0 0 (-1) (kill_fails_at 9) (bytes "4711"))
          (Some (bytes "lockfile"))
        ++ rounds 4711 9 ++ [Kill 4711 SIGUSR2; Printf "Timed out\n" []]).
Proof. split; reflexivity. Qed.

(** ** The check of the flags in main *)

Section Flags.

Context {sg : Signals}.
Variable w : world.

(** In the second source file [req.timeout] starts at 0 and is only ever
    set to a value that is not negative: after the option loop it is never
    -1. *)
Lemma getopt_loop_2_spec (opts : list getopt_result) :
  forall (req : Flock.lock_request) (unlock : Z) (s : pstate),
  0 <= Flock.timeout req ->
  (exists fmt args,
      Flock.getopt_loop opts req unlock s = (Val (inl 1), log (Printf fmt args) s))
  \/ (exists req' unlock',
      Flock.getopt_loop opts req unlock s = (Val (inr (req', unlock')), s)
      /\ 0 <= Flock.timeout req'
      /\ (Flock.no_block req <> 0 \/ In "n"%char (given opts) -> Flock.no_block req' <> 0)).
Proof.
  induction opts as [|[opt optarg] opts IH]; intros req unlock s Ht.
  - right. exists req, unlock. cbn. intuition.
  - cbn [Flock.getopt_loop given map fst In].
    destruct (Ascii.eqb_spec opt "t") as [-> | Nt].
    { destruct (strtol optarg) as [v e].
      destruct (negb (Ascii.eqb (deref e) NUL) || (Flock.timeout (Flock.set_timeout (to_int v) req) <? 0)) eqn:E.
      - left. eexists _, _. reflexivity.
      - apply orb_false_iff in E. destruct E as [_ E]. apply Z.ltb_ge in E.
        destruct (IH (Flock.set_timeout (to_int v) req) unlock s E)
          as [L | (r' & u' & E1 & T1 & N1)]; [now left|].
        right. exists r', u'. repeat split; try assumption.
        intros [H | [H | H]]; [apply N1; now left | discriminate | apply N1; now right]. }
    destruct (Ascii.eqb_spec opt "n") as [-> | Nn].
    { destruct (IH (Flock.set_no_block 1 req) unlock s Ht)
        as [L | (r' & u' & E1 & T1 & N1)]; [now left|].
      right. exists r', u'. repeat split; try assumption.
      intros _. apply N1. left. cbn. discriminate. }
    destruct (Ascii.eqb_spec opt "u") as [-> | Nu].
    { destruct (IH req 1 s Ht) as [L | (r' & u' & E1 & T1 & N1)]; [now left|].
      right. exists r', u'. repeat split; try assumption.
      intros [H | [H | H]]; [apply N1; now left | discriminate | apply N1; now right]. }
    destruct (Ascii.eqb_spec opt "T") as [-> | NT].
    { assert (K : forall ty,
        (exists fmt args,
          Flock.getopt_loop opts (Flock.set_type ty req) unlock s
          = (Val (inl 1), log (Printf fmt args) s))
        \/ (exists req' unlock',
          Flock.getopt_loop opts (Flock.set_type ty req) unlock s
          = (Val (inr (req', unlock')), s)
          /\ 0 <= Flock.timeout req'
          /\ (Flock.no_block req <> 0 \/ "T"%char = "n"%char \/ In "n"%char (given opts)
              -> Flock.no_block req' <> 0))).
      { intros ty. destruct (IH (Flock.set_type ty req) unlock s Ht)
          as [L | (r' & u' & E1 & T1 & N1)]; [now left|].
        right. exists r', u'. repeat split; try assumption.
        intros [H | [H | H]]; [apply N1; now left | discriminate | apply N1; now right]. }
      destruct (strcasecmp_eq optarg (bytes "lockf")); [apply K|].
      destruct (strcasecmp_eq optarg (bytes "flock")); [apply K|].
      destruct (strcasecmp_eq optarg (bytes "fcntl")); [apply K|].
      left. eexists _, _. reflexivity. }
    left. eexists _, _. reflexivity.
Qed.

End Flags.

(** C4, as the second source file has it.  Whenever the no-block option is
    among the options, main returns 1 having only printed one line, before
    any fork, open or signal: with an explicit timeout as the claim says, but
    also without one, since [req.timeout] starts at 0, not at -1, and the
    test [req.no_block && req.timeout >= 0] then always holds. *)
Theorem C4_no_block_always_rejected {sg : Signals} (w : world)
    (opts : list getopt_result) (args : list (list ascii)) (fuel : nat) (s : pstate) :
  In "n"%char (given opts) ->
  exists fmt a, Flock.main w opts args fuel s = (Val 1, log (Printf fmt a) s).
Proof.
  intros Hn. unfold Flock.main, bind.
  destruct (getopt_loop_2_spec opts Flock.req0 0 s ltac:(cbn; lia))
    as [(fmt & a & E) | (r' & u' & E & T & N)]; rewrite E.
  - eexists _, _. reflexivity.
  - assert (N' : Flock.no_block r' <> 0) by (apply N; now right).
    apply Z.eqb_neq in N'. apply Z.leb_le in T. rewrite N', T. cbn.
    eexists _, _. reflexivity.
Qed.

(** C4 on [flock -n lockfile]. *)
Lemma C4_witness :
  exists fmt a,
    Flock.main (sample_world 0 0 0 (fun _ => 0) []) [("n"%char, [])] [bytes "lockfile"] 5
      (init (sample_world 0 0 0 (fun _ => 0) []))
    = (Val 1, log (Printf fmt a) (init (sample_world 0 0 0 (fun _ => 0) []))).
Proof.
  apply (C4_no_block_always_rejected (sg := linux_signals)). cbn. now left.
Defined.

(** In lock_file.c [timeout] starts at -1 and keeps that value unless a
    timeout option is given. *)
Lemma getopt_loop_1_spec (opts : list getopt_result) :
  forall (l : LockFile.options) (s : pstate),
  (exists fmt args,
      LockFile.getopt_loop opts l s = (Val (inl 1), log (Printf fmt args) s))
  \/ (exists l',
      LockFile.getopt_loop opts l s = (Val (inr l'), s)
      /\ (In "t"%char (given opts) -> 0 <= LockFile.timeout l')
      /\ (~ In "t"%char (given opts) -> LockFile.timeout l' = LockFile.timeout l)
      /\ (LockFile.no_block l <> 0 \/ In "n"%char (given opts) -> LockFile.no_block l' <> 0)).
Proof.
  induction opts as [|[opt optarg] opts IH]; intros l s.
  - right. exists l. cbn. intuition.
  - cbn [LockFile.getopt_loop given map fst In].
    destruct (Ascii.eqb_spec opt "t") as [-> | Nt].
    { destruct (strtol optarg) as [v e].
      destruct (negb (Ascii.eqb (deref e) NUL) || (to_int v <? 0)) eqn:E.
      - left. eexists _, _. reflexivity.
      - apply orb_false_iff in E. destruct E as [_ E]. apply Z.ltb_ge in E.
        match goal with |- context [LockFile.getopt_loop opts ?l1 s] =>
          destruct (IH l1 s) as [L | (l' & E1 & T1 & T2 & N1)] end; [now left|].
        right. exists l'. cbn [LockFile.timeout LockFile.no_block] in *.
        repeat split; try assumption.
        + intros _. destruct (in_dec ascii_dec "t"%char (given opts)) as [I | I];
            [now apply T1 | rewrite (T2 I); exact E].
        + intros H. exfalso. apply H. now left.
        + intros [H | [H | H]]; [apply N1; now left | discriminate | apply N1; now right]. }
    destruct (Ascii.eqb_spec opt "n") as [-> | Nn].
    { match goal with |- context [LockFile.getopt_loop opts ?l1 s] =>
        destruct (IH l1 s) as [L | (l' & E1 & T1 & T2 & N1)] end; [now left|].
      right. exists l'. cbn [LockFile.timeout LockFile.no_block] in *.
      repeat split; try assumption.
      + intros [H | H]; [discriminate | now apply T1].
      + intros H. apply T2. intros I. apply H. now right.
      + intros _. apply N1. left. discriminate. }
    destruct (Ascii.eqb_spec opt "u") as [-> | Nu].
    { match goal with |- context [LockFile.getopt_loop opts ?l1 s] =>
        destruct (IH l1 s) as [L | (l' & E1 & T1 & T2 & N1)] end; [now left|].
      right. exists l'. cbn [LockFile.timeout LockFile.no_block] in *.
      repeat split; try assumption.
      + intros [H | H]; [discriminate | now apply T1].
      + intros H. apply T2. intros I. apply H. now right.
      + intros [H | [H | H]]; [apply N1; now left | discriminate | apply N1; now right]. }
    left. eexists _, _. reflexivity.
Qed.

(** X17. The check of the flags in lock_file.c: with the no-block option and
    a timeout option main returns 1 having only printed one line; with the
    no-block option and no timeout option, all options being accepted, the
    check is passed and main goes on to the file name. *)
Lemma lock_file_flag_check {sg : Signals} (w : world) (opts : list getopt_result)
    (args : list (list ascii)) (fuel : nat) (s : pstate) :
  In "n"%char (given opts) ->
  (In "t"%char (given opts) ->
     exists fmt a, LockFile.main w opts args fuel s = (Val 1, log (Printf fmt a) s))
  /\ (~ In "t"%char (given opts) ->
     forall l',
       LockFile.getopt_loop opts
         {| LockFile.timeout := -1; LockFile.no_block := 0; LockFile.unlock := 0 |} s
       = (Val (inr l'), s) ->
       LockFile.main w opts args fuel s
       = match args with
         | [] => (Val 1, log (Printf "No filename given\n" []) s)
         | filename :: _ =>
             if negb (LockFile.unlock l' =? 0) then
               LockFile.unlock_file w filename 0 (LockFile.no_block l') fuel s
             else
               (signal SIGUSR1 ;; signal SIGUSR2 ;;
                pid <- getpid ;;
                cpid <- fork w ;;
                if cpid =? 0
                then LockFile.child_loop w filename pid (w_ppid w) (LockFile.no_block l') fuel
                else parent_loop w cpid 0 fuel) s
         end).
Proof.
  intros Hn. split.
  - intros Ht. unfold LockFile.main, bind.
    destruct (getopt_loop_1_spec opts
                {| LockFile.timeout := -1; LockFile.no_block := 0; LockFile.unlock := 0 |} s)
      as [(fmt & a & E) | (l' & E & T1 & _ & N)]; rewrite E.
    + eexists _, _. reflexivity.
    + assert (N' : LockFile.no_block l' <> 0) by (apply N; now right).
      apply Z.eqb_neq in N'. specialize (T1 Ht). apply Z.leb_le in T1.
      rewrite N', T1. cbn. eexists _, _. reflexivity.
  - intros Ht l' E. unfold LockFile.main. unfold bind at 1. rewrite E.
    destruct (getopt_loop_1_spec opts
                {| LockFile.timeout := -1; LockFile.no_block := 0; LockFile.unlock := 0 |} s)
      as [(fmt & a & E') | (l'' & E' & _ & T2 & _)]; [congruence|].
    assert (l'' = l') by congruence. subst l''.
    specialize (T2 Ht). cbn [LockFile.timeout] in T2. rewrite T2.
    change (0 <=? -1) with false. rewrite andb_false_r.
    change (-1 =? -1) with true. cbn iota.
    destruct args as [|filename rest]; [reflexivity|].
    destruct (negb (LockFile.unlock l' =? 0)); reflexivity.
Qed.

(** [flock -n lockfile] in the two source files: the second one refuses it,
    lock_file.c goes on to fork and to a non-blocking lock attempt. *)
Lemma no_block_alone_in_both_files :
  Flock.main (sample_world 0 0 0 (kill_fails_at 1) []) [("n"%char, [])] [bytes "lockfile"] 5
    (init (sample_world 0 0 0 (kill_fails_at 1) []))
  = (Val 1, log (Printf "Cannot set no-block and timeout together\n" [])
                (init (sample_world 0 0 0 (kill_fails_at 1) [])))
  /\ runs (LockFile.main (sample_world 0 0 0 (kill_fails_at 1) []) [("n"%char, [])]
            [bytes "lockfile"] 5)
       (init (sample_world 0 0 0 (kill_fails_at 1) [])) (Val 1)
       [Signal SIGUSR1; Signal SIGUSR2; Fork;
        Open (Some (bytes "lockfile")) O_CREAT_RDWR; Lockf 3 F_TLOCK;
        Lseek 3 0; Ftruncate 3 0; Write 3 (bytes "101");
        Kill 100 SIGUSR1; Kill 50 0].
Proof. split; [reflexivity | split; reflexivity]. Qed.

(** ** What snprintf leaves of the pid *)

Lemma digits_le_more_fuel (f : nat) : forall m,
  0 <= m < 10 ^ Z.of_nat (S f) ->
  digits_le (S (S f)) m = digits_le (S f) m.
Proof.
  induction f as [|f IH]; intros m Hm.
  - change (10 ^ Z.of_nat 1) with 10 in Hm. cbn [digits_le].
    replace (m <? 10) with true by (symmetry; apply Z.ltb_lt; lia). reflexivity.
  - change (digits_le (S (S (S f))) m)
      with (digit_char (m mod 10) :: if m <? 10 then [] else digits_le (S (S f)) (m / 10)).
    change (digits_le (S (S f)) m)
      with (digit_char (m mod 10) :: if m <? 10 then [] else digits_le (S f) (m / 10)).
    destruct (m <? 10) eqn:E; [reflexivity|]. f_equal. apply IH.
    rewrite Nat2Z.inj_succ, Z.pow_succ_r in Hm by lia.
    split; [apply Z.div_pos; lia | apply Z.div_lt_upper_bound; lia].
Qed.

Lemma digits_le_length (f : nat) : forall m,
  10 ^ Z.of_nat f <= m < 10 ^ Z.of_nat (S f) ->
  List.length (digits_le (S f) m) = S f.
Proof.
  induction f as [|f IH]; intros m Hm.
  - change (10 ^ Z.of_nat 0) with 1 in Hm. change (10 ^ Z.of_nat 1) with 10 in Hm.
    cbn [digits_le].
    replace (m <? 10) with true by (symmetry; apply Z.ltb_lt; lia). reflexivity.
  - change (digits_le (S (S f)) m)
      with (digit_char (m mod 10) :: if m <? 10 then [] else digits_le (S f) (m / 10)).
    assert (P : 0 < 10 ^ Z.of_nat f) by (apply Z.pow_pos_nonneg; lia).
    rewrite !Nat2Z.inj_succ, !Z.pow_succ_r in Hm by lia.
    replace (m <? 10) with false by (symmetry; apply Z.ltb_ge; lia).
    cbn [List.length]. f_equal. apply IH.
    rewrite Nat2Z.inj_succ, Z.pow_succ_r by lia.
    split; [apply Z.div_le_lower_bound; lia | apply Z.div_lt_upper_bound; lia].
Qed.

Lemma digits_le_short (f : nat) : forall (g : nat) (m : Z),
  0 <= m < 10 ^ Z.of_nat (S f) ->
  (List.length (digits_le g m) <= S f)%nat.
Proof.
  induction f as [|f IH]; intros g m Hm; destruct g as [|g]; cbn [digits_le List.length]; try lia.
  - change (10 ^ Z.of_nat 1) with 10 in Hm.
    replace (m <? 10) with true by (symmetry; apply Z.ltb_lt; lia). cbn. lia.
  - destruct (m <? 10); cbn [List.length]; [lia|].
    apply le_n_S. apply IH.
    rewrite Nat2Z.inj_succ, Z.pow_succ_r in Hm by lia.
    split; [apply Z.div_pos; lia | apply Z.div_lt_upper_bound; lia].
Qed.

(** A pid of at most nine digits is stored whole. *)
Lemma snprintf_pid_whole (pid : Z) :
  0 <= pid < 1000000000 -> snprintf_int MAX_PID_LEN pid = format_int pid.
Proof.
  intros H. unfold snprintf_int, format_int.
  replace (pid <? 0) with false by (symmetry; apply Z.ltb_ge; lia).
  apply firstn_all2. rewrite length_rev.
  change (MAX_PID_LEN - 1)%nat with 9%nat.
  apply (digits_le_short 8). exact H.
Qed.

(** A pid of ten digits loses its last digit: the size given to snprintf
    is MAX_PID_LEN, of which one place is for the NUL. *)
Lemma snprintf_pid_cut (pid : Z) :
  1000000000 <= pid <= INT_MAX ->
  snprintf_int MAX_PID_LEN pid = format_int (pid / 10)
  /\ snprintf_int MAX_PID_LEN pid <> format_int pid.
Proof.
  intros H. unfold INT_MAX in H.
  assert (D : 100000000 <= pid / 10 < 1000000000).
  { split; [apply Z.div_le_lower_bound; lia | apply Z.div_lt_upper_bound; lia]. }
  assert (D0 : 0 <= pid / 10 < 10 ^ Z.of_nat 9)
    by (change (10 ^ Z.of_nat 9) with 1000000000; lia).
  assert (D1 : 10 ^ Z.of_nat 8 <= pid / 10 < 10 ^ Z.of_nat 9)
    by (change (10 ^ Z.of_nat 8) with 100000000;
        change (10 ^ Z.of_nat 9) with 1000000000; lia).
  assert (D2 : 10 ^ Z.of_nat 9 <= pid < 10 ^ Z.of_nat 10)
    by (change (10 ^ Z.of_nat 9) with 1000000000;
        change (10 ^ Z.of_nat 10) with 10000000000; lia).
  assert (L9 : List.length (rev (digits_le 9 (pid / 10))) = 9%nat)
    by (rewrite length_rev; apply (digits_le_length 8 _ D1)).
  assert (E : snprintf_int MAX_PID_LEN pid = format_int (pid / 10)).
  { unfold snprintf_int, format_int.
    replace (pid <? 0) with false by (symmetry; apply Z.ltb_ge; lia).
    replace (pid / 10 <? 0) with false by (symmetry; apply Z.ltb_ge; lia).
    change (digits_le 10 pid)
      with (digit_char (pid mod 10) :: if pid <? 10 then [] else digits_le 9 (pid / 10)).
    replace (pid <? 10) with false by (symmetry; apply Z.ltb_ge; lia).
    rewrite (digits_le_more_fuel 8 _ D0).
    cbn [rev]. change (MAX_PID_LEN - 1)%nat with 9%nat.
    rewrite firstn_app, L9, Nat.sub_diag, firstn_all2 by lia.
    cbn [firstn]. apply app_nil_r. }
  split; [exact E|]. rewrite E. intros C.
  apply (f_equal (@List.length ascii)) in C. unfold format_int in C.
  replace (pid <? 0) with false in C by (symmetry; apply Z.ltb_ge; lia).
  replace (pid / 10 <? 0) with false in C by (symmetry; apply Z.ltb_ge; lia).
  rewrite (digits_le_more_fuel 8 _ D0), L9 in C.
  rewrite length_rev, (digits_le_length 9 _ D2) in C.
  discriminate.
Qed.

(** ** strtol on digits *)

Lemma scan_digits_app (x : list ascii) : forall (acc : Z) (y : list ascii),
  forallb isdigit x = true -> isdigit (deref y) = false ->
  scan_digits acc (x ++ y) = (fold_left (fun a c => a * 10 + (code c - 48)) x acc, y).
Proof.
  induction x as [|c x IH]; intros acc y Hx Hy.
  - cbn [app fold_left]. destruct y as [|d y]; [reflexivity|].
    cbn [scan_digits]. cbn [deref] in Hy. now rewrite Hy.
  - cbn [forallb] in Hx. apply andb_true_iff in Hx. destruct Hx as [Hc Hx].
    cbn [app scan_digits fold_left]. rewrite Hc. now apply IH.
Qed.

Lemma isdigit_code (c : ascii) : isdigit c = true -> 48 <= code c <= 57.
Proof.
  unfold isdigit. intros H. apply andb_true_iff in H. destruct H as [A B].
  apply Z.leb_le in A, B. lia.
Qed.

Lemma digit_not_space (c : ascii) : isdigit c = true -> isspace c = false.
Proof.
  intros H. apply isdigit_code in H. unfold isspace.
  apply orb_false_iff. split; [apply Z.eqb_neq; lia|].
  apply andb_false_iff. right. apply Z.leb_gt. lia.
Qed.

Lemma digit_not_sign (c : ascii) :
  isdigit c = true -> Ascii.eqb c "-" = false /\ Ascii.eqb c "+" = false.
Proof.
  intros H. split; apply Ascii.eqb_neq; intros ->; discriminate.
Qed.

Lemma fold_digits_bounds (x : list ascii) : forall acc,
  forallb isdigit x = true -> 0 <= acc ->
  acc <= fold_left (fun a c => a * 10 + (code c - 48)) x acc
  /\ fold_left (fun a c => a * 10 + (code c - 48)) x acc
     < (acc + 1) * 10 ^ Z.of_nat (List.length x).
Proof.
  induction x as [|c x IH]; intros acc Hx Ha.
  - cbn. lia.
  - cbn [forallb] in Hx. apply andb_true_iff in Hx. destruct Hx as [Hc Hx].
    apply isdigit_code in Hc. cbn [fold_left List.length].
    destruct (IH (acc * 10 + (code c - 48)) Hx ltac:(lia)) as [L U].
    rewrite Nat2Z.inj_succ, Z.pow_succ_r by lia.
    assert (P : 0 < 10 ^ Z.of_nat (List.length x)) by (apply Z.pow_pos_nonneg; lia).
    split; [lia|]. nia.
Qed.

(** On a string that starts with digits, strtol reads those digits and
    stops at the first character that is not one. *)
Lemma strtol_digits (x y : list ascii) :
  x <> [] -> forallb isdigit x = true -> isdigit (deref y) = false ->
  strtol (x ++ y) = (clamp_long (digits_value x), y).
Proof.
  intros Hn Hx Hy. destruct x as [|c x]; [congruence|].
  pose proof Hx as Hx'. cbn [forallb] in Hx'. apply andb_true_iff in Hx'.
  destruct Hx' as [Hc _].
  destruct (digit_not_sign c Hc) as [M Pl].
  unfold strtol. cbn [app skip_space]. rewrite (digit_not_space c Hc), M, Pl.
  cbn [deref]. rewrite Hc.
  change (c :: x ++ y) with ((c :: x) ++ y).
  rewrite scan_digits_app by assumption. reflexivity.
Qed.

(** With a minus sign in front, the value is negated. *)
Lemma strtol_minus_digits (x y : list ascii) :
  x <> [] -> forallb isdigit x = true -> isdigit (deref y) = false ->
  strtol ("-"%char :: x ++ y) = (clamp_long (- digits_value x), y).
Proof.
  intros Hn Hx Hy. destruct x as [|c x]; [congruence|].
  pose proof Hx as Hx'. cbn [forallb] in Hx'. apply andb_true_iff in Hx'.
  destruct Hx' as [Hc _].
  unfold strtol. cbn [skip_space].
  change (isspace "-") with false. cbn iota.
  change (Ascii.eqb "-" "-") with true. cbn iota.
  cbn [app deref]. rewrite Hc.
  change (c :: x ++ y) with ((c :: x) ++ y).
  rewrite scan_digits_app by assumption. reflexivity.
Qed.

(** What "%i" prints is read back by strtol as the same number. *)
Lemma digits_value_digits_le (f : nat) : forall n,
  0 <= n < 10 ^ Z.of_nat f -> digits_value (rev (digits_le f n)) = n.
Proof.
  induction f as [|f IH]; intros n Hn.
  - change (10 ^ Z.of_nat 0) with 1 in Hn. cbn. lia.
  - cbn [digits_le rev]. unfold digits_value. rewrite fold_left_app. cbn [fold_left].
    rewrite code_digit_char by (apply Z.mod_pos_bound; lia).
    destruct (n <? 10) eqn:E.
    + apply Z.ltb_lt in E. cbn [rev fold_left]. rewrite Z.mod_small by lia. lia.
    + apply Z.ltb_ge in E. fold (digits_value (rev (digits_le f (n / 10)))).
      rewrite IH.
      * pose proof (Z.div_mod n 10 ltac:(lia)). lia.
      * rewrite Nat2Z.inj_succ, Z.pow_succ_r in Hn by lia.
        split; [apply Z.div_pos; lia | apply Z.div_lt_upper_bound; lia].
Qed.

Lemma strtol_format_int (n : Z) :
  0 <= n < 10000000000 -> strtol (format_int n) = (n, []).
Proof.
  intros H. unfold format_int.
  replace (n <? 0) with false by (symmetry; apply Z.ltb_ge; lia).
  rewrite <- (app_nil_r (rev (digits_le 10 n))).
  rewrite strtol_digits.
  - rewrite (digits_value_digits_le 10) by (change (10 ^ Z.of_nat 10) with 10000000000; lia).
    f_equal. unfold clamp_long, LONG_MIN, LONG_MAX.
    replace (n <? -9223372036854775808) with false by (symmetry; apply Z.ltb_ge; lia).
    replace (9223372036854775807 <? n) with false by (symmetry; apply Z.ltb_ge; lia).
    reflexivity.
  - cbn [digits_le rev]. intros C. apply app_eq_nil in C. destruct C; discriminate.
  - apply forallb_forall. apply Forall_forall. apply Forall_rev. apply digits_le_isdigit.
  - reflexivity.
Qed.

(** ** The pid in the file *)

Section PidStored.

Context {sg : Signals}.
Variables (w : world) (s : pstate) (ppid script_pid : Z) (fuel : nat).
Hypothesis open_ok : 0 <= w_open w.
Hypothesis lock_quiet : w_lock_signal w = None.
Hypothesis lock_ok : w_lock w <> -1.

(** Once the lock is taken, the file holds what snprintf left in [pid_str],
    and nothing else, however the idle loop ends. *)
Lemma child_loop_stores_1 (filename : list ascii) (no_block : Z) :
  file_data (snd (LockFile.child_loop w filename ppid script_pid no_block fuel s))
  = snprintf_int MAX_PID_LEN (self s).
Proof.
  rewrite child_loop_locked_1 by assumption.
  match goal with |- context [holding s ?e] =>
    destruct (idle_then_return w script_pid fuel s e) as (_ & _ & _ & F) end.
  exact F.
Qed.

Lemma child_loop_stores_2 (req : Flock.lock_request) (f : list ascii) :
  Flock.filename req = Some f ->
  file_data (snd (Flock.child_loop w req ppid script_pid fuel s))
  = snprintf_int MAX_PID_LEN (self s).
Proof.
  intros Ef. destruct (Flock.type req) eqn:Et.
  - rewrite (child_loop_locked_2 w s ppid script_pid fuel req f) by (assumption || congruence).
    match goal with |- context [holding s ?e] =>
      destruct (idle_then_return w script_pid fuel s e) as (_ & _ & _ & F) end.
    exact F.
  - rewrite (child_loop_fcntl w s ppid script_pid fuel req f) by assumption.
    match goal with |- context [holding s ?e] =>
      destruct (idle_then_return w script_pid fuel s e) as (_ & _ & _ & F) end.
    exact F.
  - rewrite (child_loop_locked_2 w s ppid script_pid fuel req f) by (assumption || congruence).
    match goal with |- context [holding s ?e] =>
      destruct (idle_then_return w script_pid fuel s e) as (_ & _ & _ & F) end.
    exact F.
Qed.

(** For a pid of at most nine digits the file holds its decimal digits, and
    unlock_file reads the same pid back from them. *)
Lemma pid_stored_whole (filename : list ascii) (no_block : Z) :
  0 < self s < 1000000000 ->
  file_data (snd (LockFile.child_loop w filename ppid script_pid no_block fuel s))
  = format_int (self s)
  /\ read_pid (format_int (self s)) = self s.
Proof.
  intros H. rewrite child_loop_stores_1, snprintf_pid_whole by lia.
  split; [reflexivity|].
  assert (L : (List.length (format_int (self s)) <= 9)%nat).
  { unfold format_int.
    replace (self s <? 0) with false by (symmetry; apply Z.ltb_ge; lia).
    rewrite length_rev. apply (digits_le_short 8).
    change (10 ^ Z.of_nat 9) with 1000000000. lia. }
  assert (N : (0 < List.length (format_int (self s)))%nat).
  { unfold format_int.
    replace (self s <? 0) with false by (symmetry; apply Z.ltb_ge; lia).
    cbn [digits_le rev]. rewrite length_app. cbn. lia. }
  unfold read_pid. apply Nat.ltb_lt in N. rewrite N.
  unfold fill. rewrite c_string_app_repeat by apply format_int_no_nul.
  rewrite strtol_format_int by lia. cbn [deref].
  change (negb (Ascii.eqb NUL NUL)) with false. cbn [andb].
  apply to_int_id. unfold INT_MIN, INT_MAX. lia.
Qed.

End PidStored.

(** After a successful lock the file holds what snprintf left in [pid_str],
    and snprintf is given the size MAX_PID_LEN, one place of which is for
    the NUL: for an [int] of ten digits the file would hold the first nine
    only, the decimal digits of [pid / 10].  No such pid is handed out by
    the system; for pids of up to nine digits the file holds the pid. *)
Lemma ten_digit_pid_is_cut {sg : Signals} (w : world) (s : pstate)
    (ppid script_pid : Z) (fuel : nat) :
  0 <= w_open w -> w_lock_signal w = None -> w_lock w <> -1 ->
  1000000000 <= self s <= INT_MAX ->
  (forall filename no_block,
     file_data (snd (LockFile.child_loop w filename ppid script_pid no_block fuel s))
     = format_int (self s / 10))
  /\ (forall req f, Flock.filename req = Some f ->
     file_data (snd (Flock.child_loop w req ppid script_pid fuel s))
     = format_int (self s / 10))
  /\ format_int (self s / 10) <> format_int (self s).
Proof.
  intros Ho Hs Hl Hp. destruct (snprintf_pid_cut (self s) Hp) as [E N].
  repeat split.
  - intros. rewrite child_loop_stores_1 by assumption. exact E.
  - intros req f Ef. rewrite (child_loop_stores_2 w s ppid script_pid fuel Ho Hs Hl req f Ef).
    exact E.
  - now rewrite <- E.
Qed.

(** The same at the value 1234567890: the file would hold "123456789". *)
Lemma ten_digit_pid_is_cut_witness :
  file_data (snd (LockFile.child_loop (child_world 1234567890) (bytes "lockfile") 100 50 0 5
                    (as_process 1234567890 (init (child_world 1234567890)))))
  = format_int (1234567890 / 10).
Proof.
  refine (proj1 (ten_digit_pid_is_cut (sg := linux_signals) (child_world 1234567890)
                   (as_process 1234567890 (init (child_world 1234567890)))
                   100 50 5 _ _ _ _) (bytes "lockfile") 0).
  - cbn. lia.
  - reflexivity.
  - cbn. lia.
  - cbn. unfold INT_MAX. lia.
Defined.

(** The whole program, followed in a child whose pid is 1234567890: the
    file ends up holding "123456789", in both source files. *)
Lemma ten_digit_pid_in_main :
  file_data (snd (LockFile.main (child_world 1234567890) [] [bytes "lockfile"] 5
                    (init (child_world 1234567890)))) = bytes "123456789"
  /\ file_data (snd (Flock.main (child_world 1234567890) [] [bytes "lockfile"] 5
                    (init (child_world 1234567890)))) = bytes "123456789"
  /\ format_int 1234567890 = bytes "1234567890".
Proof. repeat split. Qed.




(** ** The pid parse of unlock_file *)

Lemma c_string_digits_app (x r : list ascii) :
  forallb isdigit x = true -> c_string (x ++ r) = x ++ c_string r.
Proof.
  induction x as [|c x IH]; intros H; [reflexivity|].
  cbn [forallb] in H. apply andb_true_iff in H. destruct H as [Hc Hx].
  cbn [app c_string]. rewrite (isdigit_not_nul c Hc). f_equal. now apply IH.
Qed.

Lemma deref_c_string (r : list ascii) : deref (c_string r) = deref r.
Proof.
  destruct r as [|c r]; [reflexivity|]. cbn [c_string deref].
  destruct (is_nul c) eqn:E; [|reflexivity].
  unfold is_nul in E. apply Ascii.eqb_eq in E. now subst.
Qed.

Lemma deref_app_repeat (y : list ascii) (k : nat) :
  deref (y ++ repeat NUL k) = deref y.
Proof.
  destruct y as [|c y]; [|reflexivity]. destruct k; reflexivity.
Qed.

(** The parse of bytes that start with digits: the digits are the pid when
    the byte after them is NUL (or there is none) or a newline, and no pid
    is found otherwise.  Nothing after that byte is looked at. *)
Lemma read_pid_digits (x y : list ascii) :
  x <> [] -> forallb isdigit x = true -> isdigit (deref y) = false ->
  read_pid (x ++ y)
  = if Ascii.eqb (deref y) NUL || Ascii.eqb (deref y) NL
    then to_int (clamp_long (digits_value x)) else 0.
Proof.
  intros Hn Hx Hy. unfold read_pid.
  assert (L : (0 <? List.length (x ++ y))%nat = true).
  { apply Nat.ltb_lt. destruct x; [congruence|]. cbn. lia. }
  rewrite L. unfold fill. rewrite <- app_assoc, c_string_digits_app by assumption.
  rewrite strtol_digits; try assumption.
  - rewrite deref_c_string, deref_app_repeat.
    destruct (Ascii.eqb (deref y) NUL), (Ascii.eqb (deref y) NL); reflexivity.
  - now rewrite deref_c_string, deref_app_repeat.
Qed.

Lemma digits_value_long (x : list ascii) :
  0 < digits_value x <= INT_MAX ->
  to_int (clamp_long (digits_value x)) = digits_value x.
Proof.
  unfold INT_MAX. intros H. unfold clamp_long, LONG_MIN, LONG_MAX.
  replace (digits_value x <? -9223372036854775808) with false
    by (symmetry; apply Z.ltb_ge; lia).
  replace (9223372036854775807 <? digits_value x) with false
    by (symmetry; apply Z.ltb_ge; lia).
  apply to_int_id. unfold INT_MIN, INT_MAX. lia.
Qed.

(** C6, as the code has it.  When the bytes read start with the digits of
    a pid (not zero, an int), the parse yields that pid if the byte right
    after the digits is NUL (the digits end the bytes read) or a newline,
    whatever follows that newline; with any other byte there no pid is
    found, and unlock_file returns 1 having sent no signal. *)
Theorem C6_pid_parse_checks_one_byte {sg : Signals} (w : world) (s : pstate)
    (fuel : nat) (x y : list ascii) :
  pid_bytes s = x ++ y ->
  x <> [] -> forallb isdigit x = true -> isdigit (deref y) = false ->
  0 < digits_value x <= INT_MAX ->
  0 <= w_open w ->
  (deref y = NUL \/ deref y = NL -> read_pid (pid_bytes s) = digits_value x)
  /\ (deref y <> NUL -> deref y <> NL ->
      read_pid (pid_bytes s) = 0
      /\ (forall filename timeout no_block,
            runs (LockFile.unlock_file w filename timeout no_block fuel) s (Val 1)
              (unlock_prelude w (Some filename)
               ++ [Printf "Failed to read pid from file %s\n" [AStr (Some filename)]]))
      /\ (forall req f, Flock.filename req = Some f ->
            runs (Flock.unlock_file w req fuel) s (Val 1)
              (unlock_prelude w (Some f)
               ++ [Printf "Failed to read pid from file %s\n" [AStr (Some f)]]))).
Proof.
  intros Eb Hn Hx Hy Hv Ho.
  pose proof (read_pid_digits x y Hn Hx Hy) as R. rewrite <- Eb in R.
  split.
  - intros [E | E]; rewrite R, E.
    + change (Ascii.eqb NUL NUL) with true. cbn [orb]. now apply digits_value_long.
    + change (Ascii.eqb NL NL) with true. rewrite orb_true_r. now apply digits_value_long.
  - intros N1 N2. apply Ascii.eqb_neq in N1, N2. rewrite N1, N2 in R. cbn [orb] in R.
    split; [exact R|]. split.
    + intros filename timeout no_block. unfold runs.
      rewrite (unlock_file_reads_1 w s fuel filename timeout no_block Ho), R.
      cbn [Z.eqb fst snd log probed trace]. split; [reflexivity|].
      now rewrite <- app_assoc.
    + intros req f Ef. unfold runs.
      rewrite (unlock_file_reads_2 w s fuel req f Ef Ho), R.
      cbn [Z.eqb fst snd log probed trace]. split; [reflexivity|].
      now rewrite <- app_assoc.
Qed.

(** C6 on a file that holds "4711 " (a blank after the digits): no pid. *)
Lemma C6_witness :
  read_pid (pid_bytes (init (sample_world 0 0 (-1) (fun _ => 0) (bytes "4711 ")))) = 0.
Proof.
  refine (proj1 (proj2 (C6_pid_parse_checks_one_byte (sg := linux_signals)
                   (sample_world 0 0 (-1) (fun _ => 0) (bytes "4711 "))
                   (init (sample_world 0 0 (-1) (fun _ => 0) (bytes "4711 ")))
                   5 (bytes "4711") (bytes " ") _ _ _ _ _ _) _ _)).
  - reflexivity.
  - discriminate.
  - reflexivity.
  - reflexivity.
  - vm_compute. split; [reflexivity | discriminate].
  - cbn. lia.
  - discriminate.
  - discriminate.
Defined.

(** C6 as stated fails: the file holds "123", a newline, "abc".  The claim
    has this treated as no pid found, with status 1 and no signal; the parse
    yields 123, and unlock_file (the file being unlocked) sends SIGUSR2 to
    123 and returns 0. *)
Lemma C6_counterexample :
  read_pid (bytes "123" ++ NL :: bytes "abc") = 123
  /\ runs (LockFile.unlock_file
            (sample_world 0 0 0 (fun _ => 0) (bytes "123" ++ NL :: bytes "abc"))
            (bytes "lockfile") 0 0 5)
         (init (sample_world 0 0 0 (fun _ => 0) (bytes "123" ++ NL :: bytes "abc")))
         (Val 0)
         [Open (Some (bytes "lockfile")) O_RDONLY; Lockf 3 F_TEST;
          Printf "File %s was not locked\n" [AStr (Some (bytes "lockfile"))];
          Read 3 MAX_PID_LEN; Kill 123 SIGUSR2]
  /\ status (fst (LockFile.unlock_file
            (sample_world 0 0 0 (fun _ => 0) (bytes "123" ++ NL :: bytes "abc"))
            (bytes "lockfile") 0 0 5
            (init (sample_world 0 0 0 (fun _ => 0) (bytes "123" ++ NL :: bytes "abc")))))
     <> Some 1.
Proof.
  split; [reflexivity|]. split; [split; reflexivity|]. cbn. discriminate.
Qed.

(** ** The first signal of unlock_file *)

(** With a budget that is not negative, the loop is entered and its first
    call sends SIGUSR2 to the pid. *)
Lemma poll_first_send {sg : Signals} (w : world) (pid locked budget : Z)
    (fuel : nat) (s : pstate) :
  0 <= budget ->
  exists evs,
    trace (snd (poll_and_report w pid locked budget (S fuel) s))
    = trace s ++ Kill pid SIGUSR2 :: evs.
Proof.
  intros Hb.
  assert (C : (0 <? budget) || (budget =? 0) = true).
  { destruct (Z.eq_dec budget 0) as [-> | N]; [reflexivity|].
    apply orb_true_iff. left. apply Z.ltb_lt. lia. }
  set (k2 := fun r : Z =>
    if r <? 0 then
      when (int_succ 0 =? 1)
        (printf "Failed to send signal to child process %i: %s\n" [AInt pid; AErr]) ;;
      ret (int_succ 0)
    else if locked =? 0 then ret (int_succ 0)
    else usleep w (1000 + 100) ;; unlock_poll w pid locked budget (int_succ 0) fuel).
  set (k3 := fun time : Z =>
    if time =? budget then printf "Timed out\n" [] ;; ret 1 else ret 0).
  assert (E : poll_and_report w pid locked budget (S fuel) s
              = bind (k2 (w_kill w (kills s))) k3 (snd (kill w pid SIGUSR2 s))).
  { unfold poll_and_report. cbn [unlock_poll]. rewrite C. reflexivity. }
  assert (P : preserving is_idle_call (bind (k2 (w_kill w (kills s))) k3)).
  { apply preserving_bind.
    - unfold k2. destruct (w_kill w (kills s) <? 0).
      + apply preserving_bind; [|intros; apply preserving_ret].
        unfold when. destruct (int_succ 0 =? 1);
          [apply preserving_printf | apply preserving_ret].
      + destruct (locked =? 0); [apply preserving_ret|].
        apply preserving_bind;
          [now apply preserving_tick | intros; apply preserving_unlock_poll].
    - intros time. unfold k3. destruct (time =? budget); [|apply preserving_ret].
      apply preserving_bind; [apply preserving_printf | intros; apply preserving_ret]. }
  destruct (P (snd (kill w pid SIGUSR2 s))) as [_ (evs & T & _)].
  exists evs. rewrite E, T. cbn [kill snd trace]. now rewrite <- app_assoc.
Qed.

(** The parse finds no pid exactly when nothing was read, or the byte at
    [end] is neither NUL nor a newline, or the number is 0 as an int. *)
Lemma read_pid_zero_iff (b : list ascii) (v : Z) (e : list ascii) :
  strtol (c_string (fill (MAX_PID_LEN + 1) b)) = (v, e) ->
  (read_pid b = 0
   <-> b = [] \/ (deref e <> NUL /\ deref e <> NL) \/ to_int v = 0).
Proof.
  intros E. unfold read_pid. rewrite E.
  destruct b as [|c b].
  - cbn. tauto.
  - replace (0 <? List.length (c :: b))%nat with true
      by (symmetry; apply Nat.ltb_lt; cbn; lia).
    destruct (Ascii.eqb_spec (deref e) NUL) as [A | A];
      destruct (Ascii.eqb_spec (deref e) NL) as [B | B]; cbn [negb andb];
      split; intros H; try tauto;
      try (destruct H as [H | [[H1 H2] | H]]; congruence).
Qed.

(** C10. A number that strtol reads as negative (and that is an int) passes
    the validation, which only turns down 0 and a bad byte after the
    number: it becomes the pid, and the first thing the loop does is
    kill(pid, SIGUSR2) with that negative pid. *)
Theorem C10_negative_pid_is_signalled {sg : Signals} (w : world) (s : pstate)
    (fuel : nat) (timeout v : Z) (e : list ascii) :
  0 <= w_open w ->
  pid_bytes s <> [] ->
  strtol (c_string (fill (MAX_PID_LEN + 1) (pid_bytes s))) = (v, e) ->
  INT_MIN <= v < 0 ->
  deref e = NUL \/ deref e = NL ->
  0 <= timeout -> timeout * 10 <= INT_MAX ->
  read_pid (pid_bytes s) = v
  /\ (forall filename no_block,
        exists evs,
          trace (snd (LockFile.unlock_file w filename timeout no_block (S fuel) s))
          = trace s ++ unlock_prelude w (Some filename) ++ Kill v SIGUSR2 :: evs)
  /\ (forall req f, Flock.filename req = Some f -> Flock.timeout req = timeout ->
        exists evs,
          trace (snd (Flock.unlock_file w req (S fuel) s))
          = trace s ++ unlock_prelude w (Some f) ++ Kill v SIGUSR2 :: evs).
Proof.
  intros Ho Hb E Hv He Ht Hm.
  assert (Ev : to_int v = v) by (apply to_int_id; unfold INT_MIN, INT_MAX in *; lia).
  assert (R : read_pid (pid_bytes s) = v).
  { unfold read_pid. rewrite E.
    replace (0 <? List.length (pid_bytes s))%nat with true
      by (symmetry; apply Nat.ltb_lt; destruct (pid_bytes s); [congruence | cbn; lia]).
    destruct He as [-> | ->].
    - change (negb (Ascii.eqb NUL NUL)) with false. cbn [andb]. exact Ev.
    - change (negb (Ascii.eqb NL NL)) with false. rewrite andb_false_r. exact Ev. }
  assert (Z0 : (v =? 0) = false) by (apply Z.eqb_neq; lia).
  assert (Em : int_mul timeout 10 = timeout * 10)
    by (apply to_int_id; unfold INT_MIN, INT_MAX in *; lia).
  split; [exact R|]. split.
  - intros filename no_block.
    rewrite (unlock_file_reads_1 w s (S fuel) filename timeout no_block Ho), R, Z0, Em.
    destruct (poll_first_send w v (w_test w) (timeout * 10) fuel
                (probed w (Some filename) s) ltac:(lia)) as (evs & T).
    exists evs. rewrite T. cbn [probed trace]. now rewrite <- app_assoc.
  - intros req f Ef Et.
    rewrite (unlock_file_reads_2 w s (S fuel) req f Ef Ho), R, Z0, Et.
    assert (B : 0 <= int_mul (if Flock.no_block req =? 0 then timeout else 0) 10).
    { destruct (Flock.no_block req =? 0); [rewrite Em; lia | cbn; lia]. }
    destruct (poll_first_send w v (w_test w) _ fuel (probed w (Some f) s) B) as (evs & T).
    exists evs. rewrite T. cbn [probed trace]. now rewrite <- app_assoc.
Qed.

(** C10 on a file that holds "-1": the signal goes to the pid -1. *)
Lemma C10_witness :
  read_pid (pid_bytes (init (sample_world 0 0 (-1) (fun _ => 0) (bytes "-1")))) = -1.
Proof.
  refine (proj1 (C10_negative_pid_is_signalled (sg := linux_signals)
                   (sample_world 0 0 (-1) (fun _ => 0) (bytes "-1"))
                   (init (sample_world 0 0 (-1) (fun _ => 0) (bytes "-1")))
                   5 1 (-1) [] _ _ _ _ _ _ _)).
  - cbn. lia.
  - discriminate.
  - reflexivity.
  - unfold INT_MIN. lia.
  - left. reflexivity.
  - lia.
  - unfold INT_MAX. lia.
Defined.

(** [flock -u lockfile] on an unlocked file that holds "-1", and on one
    that holds "-4711" and a newline. *)
Lemma negative_pid_in_main :
  trace (snd (LockFile.main (sample_world 0 0 0 (fun _ => 0) (bytes "-1"))
                [("u"%char, [])] [bytes "lockfile"] 5
                (init (sample_world 0 0 0 (fun _ => 0) (bytes "-1")))))
  = [Open (Some (bytes "lockfile")) O_RDONLY; Lockf 3 F_TEST;
     Printf "File %s was not locked\n" [AStr (Some (bytes "lockfile"))];
     Read 3 MAX_PID_LEN; Kill (-1) SIGUSR2]
  /\ trace (snd (Flock.main (sample_world 0 0 0 (fun _ => 0) (bytes "-4711" ++ [NL]))
                [("u"%char, [])] [bytes "lockfile"] 5
                (init (sample_world 0 0 0 (fun _ => 0) (bytes "-4711" ++ [NL])))))
  = [Open (Some (bytes "lockfile")) O_RDONLY; Lockf 3 F_TEST;
     Printf "File %s was not locked\n" [AStr (Some (bytes "lockfile"))];
     Read 3 MAX_PID_LEN; Kill (-4711) SIGUSR2].
Proof. split; reflexivity. Qed.

(** Every file of the shape minus sign, digits, then nothing or a newline
    is read as the negative number. *)
Lemma read_pid_minus_digits (x y : list ascii) :
  x <> [] -> forallb isdigit x = true ->
  deref y = NUL \/ deref y = NL ->
  0 < digits_value x <= INT_MAX ->
  read_pid ("-"%char :: x ++ y) = - digits_value x.
Proof.
  intros Hn Hx Hy Hv.
  assert (Hd : isdigit (deref y) = false) by (destruct Hy as [-> | ->]; reflexivity).
  unfold read_pid. cbn [List.length]. cbn [Nat.ltb Nat.leb].
  unfold fill. change (("-"%char :: x ++ y) ++ ?r) with ("-"%char :: (x ++ y) ++ r).
  cbn [c_string]. change (is_nul "-") with false. cbn iota.
  rewrite <- app_assoc, c_string_digits_app by assumption.
  rewrite strtol_minus_digits; try assumption.
  - rewrite deref_c_string, deref_app_repeat.
    assert (C : clamp_long (- digits_value x) = - digits_value x).
    { unfold INT_MAX in Hv. unfold clamp_long, LONG_MIN, LONG_MAX.
      replace (- digits_value x <? -9223372036854775808) with false
        by (symmetry; apply Z.ltb_ge; lia).
      replace (9223372036854775807 <? - digits_value x) with false
        by (symmetry; apply Z.ltb_ge; lia).
      reflexivity. }
    rewrite C, to_int_id by (unfold INT_MIN, INT_MAX in *; lia).
    destruct Hy as [-> | ->]; reflexivity.
  - now rewrite deref_c_string, deref_app_repeat.
Qed.

(** C8 for the signal 1 (SIGHUP), a signal other than the two. *)
Lemma C8_witness :
  exists fmt,
    sig_handler (sg := linux_signals) 1 (init (sample_world 0 0 0 (fun _ => 0) []))
    = (Val tt, log (Printf fmt [AInt 1]) (init (sample_world 0 0 0 (fun _ => 0) []))).
Proof.
  apply (proj2 (proj2 (C8_sig_handler_role_mapping (sg := linux_signals)
                         (init (sample_world 0 0 0 (fun _ => 0) [])) 1)));
    cbn; discriminate.
Defined.

(** ** The C library models on examples *)

Example format_int_examples :
  format_int 4711 = bytes "4711" /\ format_int (-12) = bytes "-12"
  /\ format_int 0 = bytes "0" /\ format_int INT_MAX = bytes "2147483647".
Proof. repeat split. Qed.

Example strtol_examples :
  strtol (bytes " +42x") = (42, bytes "x") /\ strtol (bytes "-7") = (-7, [])
  /\ strtol (bytes "abc") = (0, bytes "abc") /\ strtol (bytes "-") = (0, bytes "-")
  /\ strtol (bytes "99999999999999999999") = (LONG_MAX, []).
Proof. repeat split. Qed.

Example read_pid_examples :
  read_pid (bytes "4711") = 4711 /\ read_pid (bytes "4711" ++ [NL]) = 4711
  /\ read_pid (bytes "4711x") = 0 /\ read_pid (bytes "0") = 0 /\ read_pid [] = 0
  /\ read_pid (bytes " 42") = 42.
Proof. repeat split. Qed.

(** * Further properties of the two programs *)

(** ** Signals that end a wait *)

Lemma handler_exits {sg : Signals} (g : Z) (s : pstate) :
  g = SIGUSR1 \/ g = SIGUSR2 ->
  sig_handler g s
  = (Exited (verdict (child s) g), log (Printf (verdict_line (child s) g) []) s).
Proof.
  intros H. rewrite handler_role. unfold verdict, verdict_line.
  destruct H as [-> | ->]; destruct (child s);
    rewrite ?Z.eqb_refl, ?SIGUSR2_not_SIGUSR1.
  - apply child_handler_timeout.
  - apply parent_handler_ok.
  - apply child_handler_unlock.
  - apply parent_handler_fail.
Qed.

Section ParentSignals.

Context {sg : Signals}.
Variable w : world.

Lemma parent_wait_forever (fuel : nat) : forall (time : Z) (s : pstate),
  (forall j, (j < fuel)%nat -> w_signal w (sleeps s + j) = None) ->
  parent_wait w 0 time fuel s = (OutOfFuel, slept (Sleep 1) fuel s).
Proof.
  induction fuel as [|fuel IH]; intros time s Hs; cbn [parent_wait].
  - now rewrite slept_0.
  - cbn [Z.eqb].
    pose proof (Hs 0%nat ltac:(lia)) as S0. rewrite Nat.add_0_r in S0.
    unfold bind at 1. unfold sleep, tick. rewrite S0. cbn [deliver].
    rewrite IH.
    + unfold slept. cbn [child self handled file_data file_pos kills sleeps trace repeat].
      f_equal. f_equal; try lia. now rewrite <- app_assoc.
    + intros j Hj. cbn [sleeps]. rewrite <- (Hs (S j)) by lia. f_equal. lia.
Qed.

Lemma parent_wait_signalled (timeout g : Z) (k : nat) :
  forall (time : Z) (fuel : nat) (s : pstate),
  timeout = 0 \/ (0 <= time /\ time + Z.of_nat k < timeout <= INT_MAX) ->
  (k < fuel)%nat ->
  (forall j, (j < k)%nat -> w_signal w (sleeps s + j) = None) ->
  w_signal w (sleeps s + k) = Some g ->
  mem g (handled s) = true ->
  g = SIGUSR1 \/ g = SIGUSR2 ->
  parent_wait w timeout time fuel s
  = (Exited (verdict (child s) g),
     log (Printf (verdict_line (child s) g) []) (slept (Sleep 1) (S k) s)).
Proof.
  induction k as [|k IH]; intros time fuel s Ht Hf Hq Hg Hm Hu;
    (destruct fuel as [|fuel]; [lia|]); cbn [parent_wait].
  - rewrite Nat.add_0_r in Hg.
    assert (E : (sleep w 1 ;; parent_wait w timeout time fuel) s
                = (Exited (verdict (child s) g),
                   log (Printf (verdict_line (child s) g) []) (slept (Sleep 1) 1 s))
             /\ (sleep w 1 ;; parent_wait w timeout (int_succ time) fuel) s
                = (Exited (verdict (child s) g),
                   log (Printf (verdict_line (child s) g) []) (slept (Sleep 1) 1 s))).
    { unfold bind, sleep, tick. rewrite Hg. unfold deliver. cbn [handled].
      rewrite Hm, handler_exits by assumption.
      unfold slept, log. cbn [child self handled file_data file_pos kills sleeps trace repeat].
      replace (sleeps s + 1)%nat with (S (sleeps s)) by lia. now split. }
    destruct E as [E1 E2].
    destruct (timeout =? 0) eqn:T0; [exact E1|].
    apply Z.eqb_neq in T0. destruct Ht as [Ht | Ht]; [congruence|].
    replace (time <? timeout) with true by (symmetry; apply Z.ltb_lt; lia). exact E2.
  - pose proof (Hq 0%nat ltac:(lia)) as S0. rewrite Nat.add_0_r in S0.
    assert (Q : forall j, (j < k)%nat ->
                w_signal w (sleeps (slept (Sleep 1) 1 s) + j) = None).
    { intros j Hj. cbn [slept sleeps]. rewrite <- (Hq (S j)) by lia. f_equal. lia. }
    assert (G : w_signal w (sleeps (slept (Sleep 1) 1 s) + k) = Some g).
    { cbn [slept sleeps]. rewrite <- Hg. f_equal. lia. }
    assert (R : forall time',
      timeout = 0 \/ (0 <= time' /\ time' + Z.of_nat k < timeout <= INT_MAX) ->
      (sleep w 1 ;; parent_wait w timeout time' fuel) s
      = (Exited (verdict (child s) g),
         log (Printf (verdict_line (child s) g) []) (slept (Sleep 1) (S (S k)) s))).
    { intros time' Ht'. unfold bind at 1. unfold sleep, tick. rewrite S0. cbn [deliver].
      change {| child := child s; self := self s; handled := handled s;
                file_data := file_data s; file_pos := file_pos s;
                kills := kills s; sleeps := S (sleeps s);
                trace := trace s ++ [Sleep 1] |}
        with (let s1 := {| child := child s; self := self s; handled := handled s;
                file_data := file_data s; file_pos := file_pos s;
                kills := kills s; sleeps := S (sleeps s);
                trace := trace s ++ [Sleep 1] |} in s1).
      cbn zeta.
      rewrite (IH time' fuel); try assumption; try lia.
      - unfold slept, log.
        cbn [child self handled file_data file_pos kills sleeps trace repeat].
        f_equal. f_equal; try lia. rewrite <- !app_assoc. reflexivity.
      - intros j Hj. cbn [sleeps]. rewrite <- (Hq (S j)) by lia. f_equal. lia.
      - cbn [sleeps]. rewrite <- Hg. f_equal. lia. }
    destruct (timeout =? 0) eqn:T0.
    + apply R. left. now apply Z.eqb_eq.
    + apply Z.eqb_neq in T0. destruct Ht as [Ht | Ht]; [congruence|].
      replace (time <? timeout) with true by (symmetry; apply Z.ltb_lt; lia).
      rewrite int_succ_id by (unfold INT_MIN, INT_MAX in *; lia).
      apply R. right. lia.
Qed.

End ParentSignals.

(** X1. With timeout 0 the coordinator never gives up by itself: as long as
    no signal arrives, parent_loop is still sleeping after any number of
    rounds, and it has sent nothing. *)
Theorem parent_loop_waits_forever {sg : Signals} (w : world) (s : pstate)
    (cpid : Z) (fuel : nat) :
  (forall j, w_signal w (sleeps s + j) = None) ->
  runs (parent_loop w cpid 0 fuel) s OutOfFuel (repeat (Sleep 1) fuel).
Proof.
  intros Hs. unfold runs, parent_loop, bind.
  rewrite parent_wait_forever by (intros; apply Hs). now split.
Qed.

Lemma parent_loop_waits_forever_witness :
  runs (parent_loop (sample_world 101 0 0 (fun _ => 0) []) 101 0 7)
       (init (sample_world 101 0 0 (fun _ => 0) [])) OutOfFuel (repeat (Sleep 1) 7).
Proof.
  apply (parent_loop_waits_forever (sg := linux_signals)). intros; reflexivity.
Defined.

(** X2. A report from the lock holder ends the coordinator at once.  If the
    first signal arrives during the sleep numbered [k], before the timeout
    (or with no timeout), and it is SIGUSR1 or SIGUSR2 with the handler
    installed, the process exits from the handler, with status 0 for
    SIGUSR1 and 1 for SIGUSR2, and the SIGUSR1 of the timeout path is never
    sent to the lock holder. *)
Theorem parent_loop_ends_on_report {sg : Signals} (w : world) (s : pstate)
    (cpid timeout g : Z) (k fuel : nat) :
  child s = false ->
  timeout = 0 \/ Z.of_nat k < timeout <= INT_MAX ->
  (k < fuel)%nat ->
  (forall j, (j < k)%nat -> w_signal w (sleeps s + j) = None) ->
  w_signal w (sleeps s + k) = Some g ->
  mem g (handled s) = true ->
  g = SIGUSR1 \/ g = SIGUSR2 ->
  runs (parent_loop w cpid timeout fuel) s
    (Exited (if g =? SIGUSR1 then 0 else 1))
    (repeat (Sleep 1) (S k) ++ [Printf (verdict_line false g) []]).
Proof.
  intros Hc Ht Hf Hq Hg Hm Hu. unfold runs, parent_loop, bind.
  rewrite (parent_wait_signalled w timeout g k 0 fuel s); try assumption.
  - rewrite Hc. cbn [fst snd log slept trace verdict]. split; [reflexivity|].
    now rewrite <- app_assoc.
  - destruct Ht as [Ht | Ht]; [now left | right; lia].
Qed.

(** X2 where the lock holder reports failure during the third sleep of a
    coordinator that would wait 5. *)
Lemma parent_loop_ends_on_report_witness :
  runs (parent_loop
          {| w_pid := 100; w_ppid := 50; w_fork := 101; w_child_pid := 101;
             w_open := 3; w_lock := 0; w_lock_signal := None; w_test := 0;
             w_unlock := 0; w_kill := fun _ => 0;
             w_signal := fun i => if (i =? 2)%nat then Some 12 else None;
             w_file := [] |} 101 5 10)
       {| child := false; self := 100; handled := [12; 10]; file_data := [];
          file_pos := 0; kills := 0; sleeps := 0; trace := [] |}
       (Exited (if 12 =? SIGUSR1 then 0 else 1))
       (repeat (Sleep 1) 3 ++ [Printf (verdict_line false 12) []]).
Proof.
  apply (parent_loop_ends_on_report (sg := linux_signals)).
  - reflexivity.
  - right. unfold INT_MAX. cbn. lia.
  - lia.
  - intros [|[|j]] Hj; try reflexivity; lia.
  - reflexivity.
  - reflexivity.
  - right. reflexivity.
Defined.

Section ChildSignals.

Context {sg : Signals}.
Variables (w : world) (script_pid : Z).

Lemma child_wait_signalled (g : Z) (k : nat) : forall (fuel : nat) (s : pstate),
  (k < fuel)%nat ->
  (forall j, (j <= k)%nat -> w_kill w (kills s + j) = 0) ->
  (forall j, (j < k)%nat -> w_signal w (sleeps s + j) = None) ->
  w_signal w (sleeps s + k) = Some g ->
  mem g (handled s) = true ->
  g = SIGUSR1 \/ g = SIGUSR2 ->
  child_wait w script_pid fuel s
  = (Exited (verdict (child s) g),
     log (Printf (verdict_line (child s) g) []) (idling script_pid (S k) s)).
Proof.
  induction k as [|k IH]; intros fuel s Hf Hk Hq Hg Hm Hu;
    (destruct fuel as [|fuel]; [lia|]); cbn [child_wait];
    pose proof (Hk 0%nat ltac:(lia)) as K0; rewrite Nat.add_0_r in K0;
    unfold bind at 1; unfold kill at 1; rewrite K0; cbn [Z.eqb];
    unfold bind at 1; unfold sleep, tick; cbn [sleeps].
  - rewrite Nat.add_0_r in Hg. rewrite Hg. unfold deliver. cbn [handled].
    rewrite Hm, handler_exits by assumption.
    unfold idling, log. cbn [child self handled file_data file_pos kills sleeps trace probes].
    f_equal. f_equal; try lia. now rewrite <- !app_assoc.
  - pose proof (Hq 0%nat ltac:(lia)) as S0. rewrite Nat.add_0_r in S0.
    rewrite S0. cbn [deliver].
    rewrite IH; try assumption; try lia.
    + unfold idling, log.
      cbn [child self handled file_data file_pos kills sleeps trace probes].
      f_equal. f_equal; try lia. now rewrite <- !app_assoc.
    + intros j Hj. cbn [kills].
      replace (S (kills s) + j)%nat with (kills s + S j)%nat by lia. apply Hk. lia.
    + intros j Hj. cbn [sleeps].
      replace (S (sleeps s) + j)%nat with (sleeps s + S j)%nat by lia. apply Hq. lia.
    + cbn [sleeps]. rewrite <- Hg. f_equal. lia.
Qed.

End ChildSignals.

(** X3. A lock holder that idles ends on a signal, by what the signal
    asks.  With the lock held, the script alive at every probe so far, and
    the first signal arriving during the sleep numbered [k]: on SIGUSR2
    (unlock) the process exits with status 0, on SIGUSR1 (the coordinator
    timed out) with status 1, from the handler; in both source files. *)
Theorem lock_holder_ends_on_signal {sg : Signals} (w : world) (s : pstate)
    (ppid script_pid g : Z) (k fuel : nat) :
  0 <= w_open w -> w_lock_signal w = None -> w_lock w <> -1 ->
  (k < fuel)%nat ->
  (forall j, (j <= k)%nat -> w_kill w (S (kills s) + j) = 0) ->
  (forall j, (j < k)%nat -> w_signal w (sleeps s + j) = None) ->
  w_signal w (sleeps s + k) = Some g ->
  mem g (handled s) = true ->
  g = SIGUSR1 \/ g = SIGUSR2 ->
  (forall filename no_block,
     exists evs,
       runs (LockFile.child_loop w filename ppid script_pid no_block fuel) s
         (Exited (if g =? SIGUSR1 then 1 else 0))
         (evs ++ probes script_pid (S k) ++ [Printf (verdict_line true g) []]))
  /\ (forall req f, Flock.filename req = Some f ->
     exists evs,
       runs (Flock.child_loop w req ppid script_pid fuel) s
         (Exited (if g =? SIGUSR1 then 1 else 0))
         (evs ++ probes script_pid (S k) ++ [Printf (verdict_line true g) []])).
Proof.
  intros Ho Hs Hl Hf Hk Hq Hg Hm Hu.
  assert (R : forall (m : M Z) evs,
    m s = (child_wait w script_pid fuel ;; ret 1) (holding s evs) ->
    runs m s (Exited (if g =? SIGUSR1 then 1 else 0))
      (evs ++ probes script_pid (S k) ++ [Printf (verdict_line true g) []])).
  { intros m evs E. unfold runs. rewrite E. unfold bind.
    rewrite (child_wait_signalled w script_pid g k fuel (holding s evs)); try assumption.
    cbn [fst snd holding child log idling trace verdict]. split; [reflexivity|].
    now rewrite <- !app_assoc. }
  split.
  - intros filename no_block. eexists. apply R.
    apply child_loop_locked_1; assumption.
  - intros req f Ef. destruct (Flock.type req) eqn:Et.
    + eexists. apply R. apply (child_loop_locked_2 w s ppid script_pid fuel req f);
        (assumption || congruence).
    + eexists. apply R. now apply (child_loop_fcntl w s ppid script_pid fuel req f).
    + eexists. apply R. apply (child_loop_locked_2 w s ppid script_pid fuel req f);
        (assumption || congruence).
Qed.

(** X3 for an unlock request (SIGUSR2 is 12) during the second sleep. *)
Lemma lock_holder_ends_on_signal_witness :
  exists evs,
    runs (LockFile.child_loop
            {| w_pid := 100; w_ppid := 50; w_fork := 0; w_child_pid := 101;
               w_open := 3; w_lock := 0; w_lock_signal := None; w_test := 0;
               w_unlock := 0; w_kill := fun _ => 0;
               w_signal := fun i => if (i =? 1)%nat then Some 12 else None;
               w_file := [] |} (bytes "lockfile") 100 50 0 10)
         {| child := false; self := 101; handled := [12; 10]; file_data := [];
            file_pos := 0; kills := 0; sleeps := 0; trace := [] |}
         (Exited (if 12 =? SIGUSR1 then 1 else 0))
         (evs ++ probes 50 2 ++ [Printf (verdict_line true 12) []]).
Proof.
  refine (proj1 (lock_holder_ends_on_signal (sg := linux_signals) _ _ 100 50 12 1 10
                   _ _ _ _ _ _ _ _ _) (bytes "lockfile") 0).
  - cbn. lia.
  - reflexivity.
  - cbn. lia.
  - lia.
  - intros; reflexivity.
  - intros [|j] Hj; [reflexivity | lia].
  - reflexivity.
  - reflexivity.
  - right. reflexivity.
Defined.

(** X4. A signal that reaches the lock holder while it waits in the locking
    call ends it there: on SIGUSR1 (the coordinator timed out) it exits with
    status 1, on SIGUSR2 with status 0, the file is left as it was and no
    signal is sent to anyone. *)
Theorem lock_holder_interrupted_in_lock {sg : Signals} (w : world) (s : pstate)
    (ppid script_pid g : Z) (fuel : nat) :
  0 <= w_open w ->
  w_lock_signal w = Some g -> mem g (handled s) = true ->
  g = SIGUSR1 \/ g = SIGUSR2 ->
  (forall filename no_block,
     runs (LockFile.child_loop w filename ppid script_pid no_block fuel) s
       (Exited (if g =? SIGUSR1 then 1 else 0))
       [Open (Some filename) O_CREAT_RDWR;
        Lockf (w_open w) (if no_block =? 0 then F_LOCK else F_TLOCK);
        Printf (verdict_line true g) []]
     /\ file_data (snd (LockFile.child_loop w filename ppid script_pid no_block fuel s))
        = file_data s)
  /\ (forall req f, Flock.filename req = Some f -> Flock.type req <> Flock.FCNTL ->
     exists lock_call,
       runs (Flock.child_loop w req ppid script_pid fuel) s
         (Exited (if g =? SIGUSR1 then 1 else 0))
         [Open (Some f) O_CREAT_RDWR; Printf "Locking file %s\n" [AStr (Some f)];
          lock_call; Printf (verdict_line true g) []]
       /\ is_lock lock_call = true
       /\ file_data (snd (Flock.child_loop w req ppid script_pid fuel s)) = file_data s).
Proof.
  intros Ho Hs Hm Hu. apply Z.ltb_ge in Ho.
  assert (V : forall st, child st = true ->
    sig_handler g st
    = (Exited (if g =? SIGUSR1 then 1 else 0), log (Printf (verdict_line true g) []) st)).
  { intros st Hc. rewrite handler_exits by assumption. now rewrite Hc. }
  split.
  - intros filename no_block. unfold runs, LockFile.child_loop.
    run_open_calls. rewrite Ho.
    destruct (no_block =? 0); run_open_calls; rewrite Hs; run_open_calls;
      rewrite Hm, V by reflexivity; run_open_calls;
      rewrite <- !app_assoc; repeat split.
  - intros req f Ef Et. unfold runs, Flock.child_loop, Flock.lock_descriptor.
    run_open_calls. rewrite Ef, Ho. run_open_calls.
    destruct (Flock.type req); try congruence;
      destruct (Flock.no_block req =? 0); run_open_calls; rewrite Hs; run_open_calls;
      rewrite Hm, V by reflexivity; run_open_calls;
      rewrite <- !app_assoc; eexists; repeat split.
Qed.

(** X4 for the timeout signal (SIGUSR1 is 10) during a blocking lockf. *)
Lemma lock_holder_interrupted_in_lock_witness :
  fst (LockFile.child_loop
         {| w_pid := 100; w_ppid := 50; w_fork := 0; w_child_pid := 101;
            w_open := 3; w_lock := 0; w_lock_signal := Some 10; w_test := 0;
            w_unlock := 0; w_kill := fun _ => 0; w_signal := fun _ => None;
            w_file := bytes "4711" |} (bytes "lockfile") 100 50 0 10
         {| child := false; self := 101; handled := [12; 10]; file_data := bytes "4711";
            file_pos := 0; kills := 0; sleeps := 0; trace := [] |})
  = Exited (if 10 =? SIGUSR1 then 1 else 0).
Proof.
  refine (proj1 (proj1 (proj1 (lock_holder_interrupted_in_lock (sg := linux_signals)
                   _ _ 100 50 10 10 _ _ _ _) (bytes "lockfile") 0))).
  - cbn. lia.
  - reflexivity.
  - reflexivity.
  - left. reflexivity.
Defined.

(** ** More on the unlock requester *)

Section UnlockMore.

Context {sg : Signals}.
Variable w : world.

Lemma unlock_poll_send_fails (pid locked budget : Z) (k : nat) :
  forall (time : Z) (fuel : nat) (s : pstate),
  locked <> 0 -> handled s = [] ->
  0 <= time -> time + Z.of_nat k < INT_MAX ->
  budget = 0 \/ time + Z.of_nat k < budget ->
  (k < fuel)%nat ->
  (forall j, (j < k)%nat -> 0 <= w_kill w (kills s + j)) ->
  w_kill w (kills s + k) < 0 ->
  exists s',
    unlock_poll w pid locked budget time fuel s = (Val (time + Z.of_nat k + 1), s')
    /\ trace s'
       = trace s ++ rounds pid k ++ Kill pid SIGUSR2
         :: (if time + Z.of_nat k + 1 =? 1
             then [Printf "Failed to send signal to child process %i: %s\n"
                     [AInt pid; AErr]]
             else []).
Proof.
  induction k as [|k IH]; intros time fuel s Hl Hh Ht Hi Hb Hf Hk Hx;
    (destruct fuel as [|fuel]; [lia|]); cbn [unlock_poll];
    (replace ((time <? budget) || (budget =? 0)) with true
       by (symmetry; apply orb_true_iff;
           destruct Hb as [-> | Hb]; [now right | left; apply Z.ltb_lt; lia]));
    rewrite int_succ_id by (unfold INT_MIN, INT_MAX in *; lia).
  - rewrite Nat.add_0_r in Hx. apply Z.ltb_lt in Hx.
    unfold bind at 1. unfold kill at 1. rewrite Hx.
    replace (time + Z.of_nat 0 + 1) with (time + 1) by lia.
    unfold when. destruct (time + 1 =? 1); cbn; eexists; (split; [reflexivity|]);
      cbn; rewrite <- ?app_assoc; reflexivity.
  - pose proof (Hk 0%nat ltac:(lia)) as K0. rewrite Nat.add_0_r in K0.
    apply Z.ltb_ge in K0. apply Z.eqb_neq in Hl.
    unfold bind at 1. unfold kill at 1. rewrite K0, Hl.
    unfold bind at 1. unfold usleep, tick. cbn [sleeps].
    unfold deliver. cbn [handled]. rewrite Hh.
    replace (match w_signal w (sleeps s) with Some _ => _ | None => _ end)
      with (@Val unit tt,
            {| child := child s; self := self s; handled := [];
               file_data := file_data s; file_pos := file_pos s;
               kills := S (kills s); sleeps := S (sleeps s);
               trace := (trace s ++ [Kill pid SIGUSR2]) ++ [Usleep (1000 + 100)] |})
      by (destruct (w_signal w (sleeps s)); reflexivity).
    match goal with |- context [unlock_poll w pid locked budget (time + 1) fuel ?s1] =>
      destruct (IH (time + 1) fuel s1) as (s' & F & T) end; try reflexivity; try lia.
    + intros j Hj. cbn [kills].
      replace (S (kills s) + j)%nat with (kills s + S j)%nat by lia. apply Hk. lia.
    + cbn [kills]. replace (S (kills s) + k)%nat with (kills s + S k)%nat by lia. exact Hx.
    + exists s'. split.
      * rewrite F. do 2 f_equal. lia.
      * rewrite T. cbn [trace rounds].
        replace (time + 1 + Z.of_nat k + 1) with (time + Z.of_nat (S k) + 1) by lia.
        now rewrite <- !app_assoc.
Qed.

Lemma unlock_poll_forever (pid locked : Z) (fuel : nat) :
  forall (time : Z) (s : pstate),
  locked <> 0 -> handled s = [] ->
  (forall j, (j < fuel)%nat -> 0 <= w_kill w (kills s + j)) ->
  unlock_poll w pid locked 0 time fuel s = (OutOfFuel, polled pid fuel s).
Proof.
  induction fuel as [|fuel IH]; intros time s Hl Hh Hk; cbn [unlock_poll].
  - now rewrite polled_0.
  - rewrite orb_true_r.
    pose proof (Hk 0%nat ltac:(lia)) as K0. rewrite Nat.add_0_r in K0.
    apply Z.ltb_ge in K0. pose proof Hl as Hl'. apply Z.eqb_neq in Hl'.
    unfold bind at 1. unfold kill at 1. rewrite K0, Hl'.
    unfold bind at 1. unfold usleep, tick. cbn [sleeps].
    unfold deliver. cbn [handled]. rewrite Hh.
    replace (match w_signal w (sleeps s) with Some _ => _ | None => _ end)
      with (@Val unit tt,
            {| child := child s; self := self s; handled := [];
               file_data := file_data s; file_pos := file_pos s;
               kills := S (kills s); sleeps := S (sleeps s);
               trace := (trace s ++ [Kill pid SIGUSR2]) ++ [Usleep (1000 + 100)] |})
      by (destruct (w_signal w (sleeps s)); reflexivity).
    rewrite IH; try assumption; try reflexivity.
    + unfold polled.
      cbn [child self handled file_data file_pos kills sleeps trace rounds].
      f_equal. rewrite Hh. f_equal; try lia. now rewrite <- !app_assoc.
    + intros j Hj. cbn [kills].
      replace (S (kills s) + j)%nat with (kills s + S j)%nat by lia. apply Hk. lia.
Qed.

End UnlockMore.

(** X5. When the file cannot be opened, unlock_file returns 1 after printing
    one line: no lock test, no read, no signal.  In the second source file
    this is also what happens with no path at all (a NULL file name). *)
Theorem unlock_file_open_fails {sg : Signals} (w : world) (s : pstate) (fuel : nat) :
  (forall filename timeout no_block,
     w_open w < 0 ->
     runs (LockFile.unlock_file w filename timeout no_block fuel) s (Val 1)
       [Open (Some filename) O_RDONLY;
        Printf "Failed to open file %s: %s\n" [AStr (Some filename); AErr]])
  /\ (forall req,
     Flock.filename req = None \/ w_open w < 0 ->
     runs (Flock.unlock_file w req fuel) s (Val 1)
       [Open (Flock.filename req) O_RDONLY;
        Printf "Failed to open file %s: %s\n" [AStr (Flock.filename req); AErr]]).
Proof.
  split.
  - intros filename timeout no_block H. apply Z.ltb_lt in H.
    unfold runs, LockFile.unlock_file. run_open_calls. rewrite H. run_open_calls.
    now rewrite <- !app_assoc.
  - intros req H.
    assert (E : (match Flock.filename req with Some _ => w_open w | None => -1 end <? 0)
                = true).
    { destruct H as [-> | H]; [reflexivity|].
      destruct (Flock.filename req); [now apply Z.ltb_lt | reflexivity]. }
    unfold runs, Flock.unlock_file. run_open_calls. rewrite E. run_open_calls.
    now rewrite <- !app_assoc.
Qed.

Lemma unlock_file_open_fails_witness :
  runs (Flock.unlock_file (sample_world 0 0 0 (fun _ => 0) []) Flock.req0 5)
       (init (sample_world 0 0 0 (fun _ => 0) [])) (Val 1)
       [Open None O_RDONLY; Printf "Failed to open file %s: %s\n" [AStr None; AErr]].
Proof.
  apply (proj2 (unlock_file_open_fails (sg := linux_signals) _ _ 5) Flock.req0).
  left. reflexivity.
Defined.

Lemma poll_once_unlocked {sg : Signals} (w : world) (s : pstate) (pid budget : Z)
    (fuel : nat) :
  0 <= budget -> budget <> 1 ->
  runs (poll_and_report w pid 0 budget (S fuel)) s (Val 0)
    (Kill pid SIGUSR2
     :: (if w_kill w (kills s) <? 0
         then [Printf "Failed to send signal to child process %i: %s\n" [AInt pid; AErr]]
         else [])).
Proof.
  intros Hb Hn.
  assert (C : (0 <? budget) || (budget =? 0) = true).
  { destruct (Z.eq_dec budget 0) as [-> | N]; [reflexivity|].
    apply orb_true_iff. left. apply Z.ltb_lt. lia. }
  assert (B : (1 =? budget) = false) by (apply Z.eqb_neq; lia).
  unfold runs, poll_and_report. cbn [unlock_poll]. rewrite C.
  change (int_succ 0) with 1.
  unfold bind, kill, when, printf, emit, ret.
  destruct (w_kill w (kills s) <? 0); cbn -[Z.eqb]; rewrite ?Z.eqb_refl;
    cbn -[Z.eqb]; rewrite B; cbn;
    rewrite <- ?app_assoc; split; reflexivity.
Qed.

(** X6. On a file that is not locked, unlock_file sends the signal exactly
    once, whatever the timeout, and returns 0, also when that one send
    fails. *)
Theorem unlock_unlocked_file_sends_once {sg : Signals} (w : world) (s : pstate)
    (fuel : nat) (timeout : Z) :
  0 <= w_open w -> w_test w = 0 -> read_pid (pid_bytes s) <> 0 ->
  0 <= timeout -> timeout * 10 <= INT_MAX ->
  (forall filename no_block,
     runs (LockFile.unlock_file w filename timeout no_block (S fuel)) s (Val 0)
       (unlock_prelude w (Some filename)
        ++ Kill (read_pid (pid_bytes s)) SIGUSR2
        :: (if w_kill w (kills s) <? 0
            then [Printf "Failed to send signal to child process %i: %s\n"
                    [AInt (read_pid (pid_bytes s)); AErr]]
            else [])))
  /\ (forall req f, Flock.filename req = Some f -> Flock.timeout req = timeout ->
     runs (Flock.unlock_file w req (S fuel)) s (Val 0)
       (unlock_prelude w (Some f)
        ++ Kill (read_pid (pid_bytes s)) SIGUSR2
        :: (if w_kill w (kills s) <? 0
            then [Printf "Failed to send signal to child process %i: %s\n"
                    [AInt (read_pid (pid_bytes s)); AErr]]
            else []))).
Proof.
  intros Ho Ht Hp H0 Hm. apply Z.eqb_neq in Hp.
  assert (Em : int_mul timeout 10 = timeout * 10)
    by (apply to_int_id; unfold INT_MIN, INT_MAX in *; lia).
  assert (R : forall path budget, 0 <= budget -> budget <> 1 ->
    runs (poll_and_report w (read_pid (pid_bytes s)) (w_test w) budget (S fuel))
      (probed w path s) (Val 0)
      (Kill (read_pid (pid_bytes s)) SIGUSR2
       :: (if w_kill w (kills s) <? 0
           then [Printf "Failed to send signal to child process %i: %s\n"
                   [AInt (read_pid (pid_bytes s)); AErr]]
           else []))).
  { intros path budget B1 B2. rewrite Ht.
    apply (poll_once_unlocked w (probed w path s)); assumption. }
  split.
  - intros filename no_block. unfold runs.
    rewrite (unlock_file_reads_1 w s (S fuel) filename timeout no_block Ho), Hp, Em.
    destruct (R (Some filename) (timeout * 10)) as [F T]; try lia.
    split; [exact F|]. rewrite T. cbn [probed trace]. now rewrite <- app_assoc.
  - intros req f Ef Et. unfold runs.
    rewrite (unlock_file_reads_2 w s (S fuel) req f Ef Ho), Hp, Et.
    assert (B : 0 <= int_mul (if Flock.no_block req =? 0 then timeout else 0) 10
                /\ int_mul (if Flock.no_block req =? 0 then timeout else 0) 10 <> 1).
    { destruct (Flock.no_block req =? 0); [rewrite Em; lia | cbn; lia]. }
    destruct (R (Some f) _ (proj1 B) (proj2 B)) as [F T].
    split; [exact F|]. rewrite T. cbn [probed trace]. now rewrite <- app_assoc.
Qed.

(** X6 for [flock -u -t 3 lockfile] on an unlocked file left by holder 4711
    that no longer exists. *)
Lemma unlock_unlocked_file_sends_once_witness :
  runs (LockFile.unlock_file (sample_world 0 0 0 (fun _ => -1) (bytes "4711"))
          (bytes "lockfile") 3 0 5)
       (init (sample_world 0 0 0 (fun _ => -1) (bytes "4711"))) (Val 0)
       (unlock_prelude (sample_world 0 0 0 (fun _ => -1) (bytes "4711"))
          (Some (bytes "lockfile"))
        ++ [Kill 4711 SIGUSR2;
            Printf "Failed to send signal to child process %i: %s\n" [AInt 4711; AErr]]).
Proof.
  refine (proj1 (unlock_unlocked_file_sends_once (sg := linux_signals)
                   (sample_world 0 0 0 (fun _ => -1) (bytes "4711"))
                   (init (sample_world 0 0 0 (fun _ => -1) (bytes "4711")))
                   4 3 _ _ _ _ _) (bytes "lockfile") 0).
  - cbn. lia.
  - reflexivity.
  - vm_compute. discriminate.
  - lia.
  - unfold INT_MAX. lia.
Defined.

(** X7. On a locked file, a send that fails ends the polling.  If the send
    numbered [k] (from 0) is the first to fail, within the budget, then
    unlock_file stops there; it returns 0, unless that send was the last one
    the budget allowed ([k + 1 = timeout * 10]), in which case it prints
    "Timed out" and returns 1.  The failure itself is only told about when
    it was the very first send. *)
Theorem unlock_send_failure_outcome {sg : Signals} (w : world) (s : pstate)
    (fuel k : nat) (timeout : Z) :
  0 <= w_open w -> w_test w <> 0 -> read_pid (pid_bytes s) <> 0 ->
  handled s = [] ->
  0 <= timeout -> timeout * 10 <= INT_MAX ->
  timeout = 0 \/ Z.of_nat k < timeout * 10 ->
  Z.of_nat k < INT_MAX ->
  (k < fuel)%nat ->
  (forall j, (j < k)%nat -> 0 <= w_kill w (kills s + j)) ->
  w_kill w (kills s + k) < 0 ->
  (forall filename no_block,
     runs (LockFile.unlock_file w filename timeout no_block fuel) s
       (Val (if Z.of_nat k + 1 =? timeout * 10 then 1 else 0))
       (unlock_prelude w (Some filename)
        ++ failed_send (read_pid (pid_bytes s)) k
        ++ (if Z.of_nat k + 1 =? timeout * 10 then [Printf "Timed out\n" []] else [])))
  /\ (forall req f,
     Flock.filename req = Some f -> Flock.no_block req = 0 ->
     Flock.timeout req = timeout ->
     runs (Flock.unlock_file w req fuel) s
       (Val (if Z.of_nat k + 1 =? timeout * 10 then 1 else 0))
       (unlock_prelude w (Some f)
        ++ failed_send (read_pid (pid_bytes s)) k
        ++ (if Z.of_nat k + 1 =? timeout * 10 then [Printf "Timed out\n" []] else []))).
Proof.
  intros Ho Hl Hp Hh H0 Hm Hb Hi Hf Hk Hx.
  assert (Em : int_mul timeout 10 = timeout * 10)
    by (apply to_int_id; unfold INT_MIN, INT_MAX in *; lia).
  apply Z.eqb_neq in Hp.
  assert (R : forall path,
    runs (poll_and_report w (read_pid (pid_bytes s)) (w_test w) (timeout * 10) fuel)
      (probed w path s)
      (Val (if Z.of_nat k + 1 =? timeout * 10 then 1 else 0))
      (failed_send (read_pid (pid_bytes s)) k
       ++ (if Z.of_nat k + 1 =? timeout * 10 then [Printf "Timed out\n" []] else []))).
  { intros path. unfold runs, poll_and_report, bind.
    destruct (unlock_poll_send_fails w (read_pid (pid_bytes s)) (w_test w) (timeout * 10)
                k 0 fuel (probed w path s)) as (s' & E & T);
      try assumption; try lia.
    rewrite E. cbn [Z.add] in *.
    assert (F : (Z.of_nat k + 1 =? 1) = (k =? 0)%nat).
    { destruct k; [reflexivity|]. symmetry.
      replace (Z.of_nat (S k) + 1 =? 1) with false by (symmetry; apply Z.eqb_neq; lia).
      reflexivity. }
    rewrite F in T. unfold failed_send.
    destruct (Z.of_nat k + 1 =? timeout * 10);
      unfold printf, emit, ret; cbn [fst snd log trace]; rewrite T;
      rewrite <- ?app_assoc; cbn [app]; rewrite ?app_nil_r; split; reflexivity. }
  split.
  - intros filename no_block. unfold runs.
    rewrite (unlock_file_reads_1 w s fuel filename timeout no_block Ho), Hp, Em.
    destruct (R (Some filename)) as [F T]. split; [exact F|].
    rewrite T. cbn [probed trace]. now rewrite <- !app_assoc.
  - intros req f Ef En Et. unfold runs.
    rewrite (unlock_file_reads_2 w s fuel req f Ef Ho), Hp, En, Et. cbn [Z.eqb].
    rewrite Em. destruct (R (Some f)) as [F T]. split; [exact F|].
    rewrite T. cbn [probed trace]. now rewrite <- !app_assoc.
Qed.

(** X7 where the holder 4711 goes away after three signals, well within
    the budget of a timeout of 1. *)
Lemma unlock_send_failure_outcome_witness :
  runs (LockFile.unlock_file (sample_world 0 0 (-1) (kill_fails_at 3) (bytes "4711"))
          (bytes "lockfile") 1 0 20)
       (init (sample_world 0 0 (-1) (kill_fails_at 3) (bytes "4711")))
       (Val (if Z.of_nat 3 + 1 =? 1 * 10 then 1 else 0))
       (unlock_prelude (sample_world 0 0 (-1) (kill_fails_at 3) (bytes "4711"))
          (Some (bytes "lockfile"))
        ++ failed_send 4711 3
        ++ (if Z.of_nat 3 + 1 =? 1 * 10 then [Printf "Timed out\n" []] else [])).
Proof.
  refine (proj1 (unlock_send_failure_outcome (sg := linux_signals)
                   (sample_world 0 0 (-1) (kill_fails_at 3) (bytes "4711"))
                   (init (sample_world 0 0 (-1) (kill_fails_at 3) (bytes "4711")))
                   20 3 1 _ _ _ _ _ _ _ _ _ _ _) (bytes "lockfile") 0).
  - cbn. lia.
  - cbn. lia.
  - vm_compute. discriminate.
  - reflexivity.
  - lia.
  - unfold INT_MAX. lia.
  - right. cbn. lia.
  - unfold INT_MAX. cbn. lia.
  - lia.
  - intros [|[|[|j]]] Hj; cbn; lia.
  - cbn. lia.
Defined.

(** X8. With timeout 0 (and, in the second source file, whenever no_block
    is set) the unlock budget is unbounded: on a locked file, as long as
    every send succeeds, unlock_file is still polling after any number of
    rounds. *)
Theorem unlock_polls_forever {sg : Signals} (w : world) (s : pstate) (fuel : nat) :
  0 <= w_open w -> w_test w <> 0 -> read_pid (pid_bytes s) <> 0 ->
  handled s = [] ->
  (forall j, 0 <= w_kill w (kills s + j)) ->
  (forall filename no_block,
     runs (LockFile.unlock_file w filename 0 no_block fuel) s OutOfFuel
       (unlock_prelude w (Some filename) ++ rounds (read_pid (pid_bytes s)) fuel))
  /\ (forall req f,
     Flock.filename req = Some f ->
     Flock.no_block req <> 0 \/ Flock.timeout req = 0 ->
     runs (Flock.unlock_file w req fuel) s OutOfFuel
       (unlock_prelude w (Some f) ++ rounds (read_pid (pid_bytes s)) fuel)).
Proof.
  intros Ho Hl Hp Hh Hk. apply Z.eqb_neq in Hp.
  assert (R : forall path,
    runs (poll_and_report w (read_pid (pid_bytes s)) (w_test w) 0 fuel)
      (probed w path s) OutOfFuel (rounds (read_pid (pid_bytes s)) fuel)).
  { intros path. unfold runs, poll_and_report, bind.
    rewrite unlock_poll_forever; try assumption; [now split|].
    intros; apply Hk. }
  split.
  - intros filename no_block. unfold runs.
    rewrite (unlock_file_reads_1 w s fuel filename 0 no_block Ho), Hp.
    change (int_mul 0 10) with 0.
    destruct (R (Some filename)) as [F T]. split; [exact F|].
    rewrite T. cbn [probed trace]. now rewrite <- !app_assoc.
  - intros req f Ef Hn. unfold runs.
    rewrite (unlock_file_reads_2 w s fuel req f Ef Ho), Hp.
    assert (B : int_mul (if Flock.no_block req =? 0 then Flock.timeout req else 0) 10 = 0).
    { destruct Hn as [Hn | Hn].
      - apply Z.eqb_neq in Hn. now rewrite Hn.
      - rewrite Hn. now destruct (Flock.no_block req =? 0). }
    rewrite B. destruct (R (Some f)) as [F T]. split; [exact F|].
    rewrite T. cbn [probed trace]. now rewrite <- !app_assoc.
Qed.

Lemma unlock_polls_forever_witness :
  runs (LockFile.unlock_file (sample_world 0 0 (-1) (fun _ => 0) (bytes "4711"))
          (bytes "lockfile") 0 0 25)
       (init (sample_world 0 0 (-1) (fun _ => 0) (bytes "4711"))) OutOfFuel
       (unlock_prelude (sample_world 0 0 (-1) (fun _ => 0) (bytes "4711"))
          (Some (bytes "lockfile")) ++ rounds 4711 25).
Proof.
  refine (proj1 (unlock_polls_forever (sg := linux_signals)
                   (sample_world 0 0 (-1) (fun _ => 0) (bytes "4711"))
                   (init (sample_world 0 0 (-1) (fun _ => 0) (bytes "4711")))
                   25 _ _ _ _ _) (bytes "lockfile") 0).
  - cbn. lia.
  - cbn. lia.
  - vm_compute. discriminate.
  - reflexivity.
  - intros. cbn. lia.
Defined.

(** ** More on main *)

(** X9. With no path argument main returns 1 after printing exactly one
    line, whatever the options are: nothing is forked, opened, locked or
    signalled.  In both source files. *)
Theorem main_without_path {sg : Signals} (w : world) (opts : list getopt_result)
    (fuel : nat) (s : pstate) :
  (exists fmt a, LockFile.main w opts [] fuel s = (Val 1, log (Printf fmt a) s))
  /\ (exists fmt a, Flock.main w opts [] fuel s = (Val 1, log (Printf fmt a) s)).
Proof.
  split.
  - unfold LockFile.main, bind.
    destruct (getopt_loop_1_spec opts
                {| LockFile.timeout := -1; LockFile.no_block := 0; LockFile.unlock := 0 |} s)
      as [(fmt & a & E) | (l' & E & _)]; rewrite E.
    + eexists _, _. reflexivity.
    + destruct (negb (LockFile.no_block l' =? 0) && (0 <=? LockFile.timeout l'));
        eexists _, _; reflexivity.
  - unfold Flock.main, bind.
    destruct (getopt_loop_2_spec opts Flock.req0 0 s ltac:(cbn; lia))
      as [(fmt & a & E) | (r' & u' & E & _)]; rewrite E.
    + eexists _, _. reflexivity.
    + destruct (negb (Flock.no_block r' =? 0) && (0 <=? Flock.timeout r'));
        eexists _, _; reflexivity.
Qed.

(** The option loop of the second source file sets neither the file name
    nor the descriptor, and leaves a timeout that is not negative. *)
Lemma getopt_loop_2_fields (opts : list getopt_result) :
  forall (req req' : Flock.lock_request) (unlock unlock' : Z) (s s' : pstate),
  Flock.getopt_loop opts req unlock s = (Val (inr (req', unlock')), s') ->
  Flock.filename req' = Flock.filename req /\ Flock.fd req' = Flock.fd req /\ s' = s.
Proof.
  induction opts as [|[opt optarg] opts IH]; intros req req' unlock unlock' s s' E.
  - cbn in E. inversion E. subst. auto.
  - cbn [Flock.getopt_loop] in E.
    destruct (Ascii.eqb opt "t").
    { destruct (strtol optarg) as [v e].
      destruct (negb (Ascii.eqb (deref e) NUL)
                || (Flock.timeout (Flock.set_timeout (to_int v) req) <? 0));
        [discriminate|]. apply IH in E. exact E. }
    destruct (Ascii.eqb opt "n"); [apply IH in E; exact E|].
    destruct (Ascii.eqb opt "u"); [apply IH in E; exact E|].
    destruct (Ascii.eqb opt "T"); [|discriminate].
    destruct (strcasecmp_eq optarg (bytes "lockf")); [apply IH in E; exact E|].
    destruct (strcasecmp_eq optarg (bytes "flock")); [apply IH in E; exact E|].
    destruct (strcasecmp_eq optarg (bytes "fcntl")); [apply IH in E; exact E|].
    discriminate.
Qed.

Section FlockMainNumeric.

Context {sg : Signals}.
Variables (w : world) (s : pstate) (fuel : nat).
Variables (opts : list getopt_result) (arg : list ascii) (rest : list (list ascii)).
Variables (req : Flock.lock_request) (unlock v : Z) (e : list ascii).

Hypothesis options_ok :
  Flock.getopt_loop opts Flock.req0 0 s = (Val (inr (req, unlock)), s).
Hypothesis blocking : Flock.no_block req = 0.
Hypothesis arg_number : strtol arg = (v, e).
Hypothesis arg_whole : deref e = NUL.

(** main of the second source file, once the options are read and the
    argument is a number: the request keeps a NULL file name and gets the
    number as its descriptor. *)
Lemma flock_main_numeric :
  Flock.main w opts (arg :: rest) fuel s
  = (let req1 := Flock.set_fd (to_int v) req in
     if negb (unlock =? 0) then
       if negb (Flock.fd req1 =? 0) then Flock.unlock_descriptor w (Flock.fd req1)
       else Flock.unlock_file w req1 fuel
     else
       if negb ((if negb (Flock.fd req1 =? 0) && Flock.is_FLOCK (Flock.type req1)
                 then 0 else 1) =? 0)
       then
         signal SIGUSR1 ;; signal SIGUSR2 ;;
         pid <- getpid ;;
         cpid <- fork w ;;
         if cpid =? 0 then Flock.child_loop w req1 pid (w_ppid w) fuel
         else parent_loop w cpid (Flock.timeout req1) fuel
       else
         printf "Locking file descriptor %i\n" [AInt (Flock.fd req1)] ;;
         ok <- Flock.lock_descriptor w req1 ;;
         if ok =? 0 then ret 1 else ret 0) s
  /\ Flock.filename req = None.
Proof.
  destruct (getopt_loop_2_fields _ _ _ _ _ _ _ options_ok) as (Fn & _ & _).
  split; [|exact Fn].
  destruct (getopt_loop_2_spec opts Flock.req0 0 s ltac:(cbn; lia))
    as [(fmt & a & E') | (r' & u' & E' & T & _)];
    rewrite options_ok in E'; [discriminate|].
  inversion E'; subst r' u'.
  unfold Flock.main. unfold bind at 1. rewrite options_ok, blocking.
  cbn [Z.eqb negb andb].
  replace (Flock.timeout req =? -1) with false by (symmetry; apply Z.eqb_neq; lia).
  rewrite arg_number, arg_whole.
  change (negb (Ascii.eqb NUL NUL)) with false. cbn iota.
  cbn zeta. destruct (negb (unlock =? 0)); [reflexivity|].
  destruct (negb (Flock.fd (Flock.set_fd (to_int v) req) =? 0)
            && Flock.is_FLOCK (Flock.type (Flock.set_fd (to_int v) req)));
    reflexivity.
Qed.

End FlockMainNumeric.

(** X10. Unlocking a descriptor (second source file, unlock option, the
    argument a number other than 0): main makes the one call
    flock(fd, LOCK_UN) and returns what unlock_descriptor returns, which is
    1 when the call succeeded and 0 when it failed, the reverse of the
    statuses of every other path. *)
Theorem unlock_descriptor_status {sg : Signals} (w : world) (s : pstate) (fuel : nat)
    (opts : list getopt_result) (arg : list ascii) (rest : list (list ascii))
    (req : Flock.lock_request) (unlock v : Z) (e : list ascii) :
  Flock.getopt_loop opts Flock.req0 0 s = (Val (inr (req, unlock)), s) ->
  Flock.no_block req = 0 ->
  strtol arg = (v, e) -> deref e = NUL ->
  unlock <> 0 -> to_int v <> 0 ->
  runs (Flock.main w opts (arg :: rest) fuel) s
    (Val (if w_unlock w =? -1 then 0 else 1))
    [Flock (to_int v) LOCK_UN;
     if w_unlock w =? -1
     then Printf "Failed to unlock file (fd = %i): %s\n" [AInt (to_int v); AErr]
     else Printf "Unlocked file descriptor %i\n" [AInt (to_int v)]].
Proof.
  intros Eo Hb Ea He Hu Hv.
  destruct (flock_main_numeric w s fuel opts arg rest req unlock v e Eo Hb Ea He) as [E _].
  unfold runs. rewrite E. cbn zeta. cbn [Flock.set_fd Flock.fd].
  apply Z.eqb_neq in Hu, Hv. rewrite Hu, Hv. cbn [negb].
  unfold Flock.unlock_descriptor. run_open_calls.
  destruct (w_unlock w =? -1); run_open_calls; rewrite <- !app_assoc; split; reflexivity.
Qed.

(** X10 on [flock -u 5] with the unlock succeeding: the status is 1. *)
Lemma unlock_descriptor_status_witness :
  runs (Flock.main (sample_world 0 0 0 (fun _ => 0) []) [("u"%char, [])] [bytes "5"] 5)
       (init (sample_world 0 0 0 (fun _ => 0) []))
       (Val (if w_unlock (sample_world 0 0 0 (fun _ => 0) []) =? -1 then 0 else 1))
       [Flock (to_int 5) LOCK_UN;
        if w_unlock (sample_world 0 0 0 (fun _ => 0) []) =? -1
        then Printf "Failed to unlock file (fd = %i): %s\n" [AInt (to_int 5); AErr]
        else Printf "Unlocked file descriptor %i\n" [AInt (to_int 5)]].
Proof.
  apply (unlock_descriptor_status (sg := linux_signals) _ _ 5 [("u"%char, [])]
           (bytes "5") [] Flock.req0 1 5 []);
    try reflexivity; discriminate.
Defined.

(** X11. Locking a descriptor with the flock kind (second source file, the
    argument a number other than 0, kind flock, no unlock option): main does
    not fork and installs no handler; it makes the one call
    flock(fd, LOCK_EX) and returns 0 when the lock was given and 1 when
    not. *)
Theorem lock_descriptor_without_fork {sg : Signals} (w : world) (s : pstate) (fuel : nat)
    (opts : list getopt_result) (arg : list ascii) (rest : list (list ascii))
    (req : Flock.lock_request) (v : Z) (e : list ascii) :
  Flock.getopt_loop opts Flock.req0 0 s = (Val (inr (req, 0)), s) ->
  Flock.no_block req = 0 ->
  strtol arg = (v, e) -> deref e = NUL ->
  to_int v <> 0 -> Flock.type req = Flock.FLOCK ->
  handled s = [] ->
  runs (Flock.main w opts (arg :: rest) fuel) s
    (Val (if w_lock w =? -1 then 1 else 0))
    (Printf "Locking file descriptor %i\n" [AInt (to_int v)]
     :: Flock (to_int v) LOCK_EX
     :: (if w_lock w =? -1
         then [Printf "Failed to lock file (fd = %i): %s\n" [AInt (to_int v); AErr]]
         else [])).
Proof.
  intros Eo Hb Ea He Hv Ht Hh.
  destruct (flock_main_numeric w s fuel opts arg rest req 0 v e Eo Hb Ea He) as [E _].
  unfold runs. rewrite E. cbn zeta. cbn [Flock.set_fd Flock.fd Flock.type Z.eqb negb].
  apply Z.eqb_neq in Hv. rewrite Hv, Ht. cbn [negb andb Flock.is_FLOCK Z.eqb].
  unfold Flock.lock_descriptor, Flock.set_fd. cbn [Flock.type Flock.no_block Flock.fd].
  rewrite Ht, Hb. cbn [Z.eqb]. run_open_calls. rewrite Hh.
  assert (D : forall st : pstate,
    match w_lock_signal w with
    | Some g => if mem g [] then sig_handler g st else (Val tt, st)
    | None => (Val tt, st)
    end = (Val tt, st)).
  { intros st. destruct (w_lock_signal w); reflexivity. }
  rewrite D. destruct (w_lock w =? -1); run_open_calls;
    rewrite <- !app_assoc; split; reflexivity.
Qed.

(** X11 on [flock 5]. *)
Lemma lock_descriptor_without_fork_witness :
  runs (Flock.main (sample_world 0 0 0 (fun _ => 0) []) [] [bytes "5"] 5)
       (init (sample_world 0 0 0 (fun _ => 0) []))
       (Val (if w_lock (sample_world 0 0 0 (fun _ => 0) []) =? -1 then 1 else 0))
       (Printf "Locking file descriptor %i\n" [AInt (to_int 5)]
        :: Flock (to_int 5) LOCK_EX
        :: (if w_lock (sample_world 0 0 0 (fun _ => 0) []) =? -1
            then [Printf "Failed to lock file (fd = %i): %s\n" [AInt (to_int 5); AErr]]
            else [])).
Proof.
  apply (lock_descriptor_without_fork (sg := linux_signals) _ _ 5 [] (bytes "5") []
           Flock.req0 5 []);
    try reflexivity; discriminate.
Defined.

(** X12. A number as the argument leaves the file name NULL (second source
    file).  Whenever main then forks (the number is 0, or the kind is not
    flock), the child's open of the NULL name fails: the lock holder sends
    SIGUSR2 to the coordinator and returns 1 without ever asking for a
    lock. *)
Theorem numeric_argument_child_fails {sg : Signals} (w : world) (s : pstate) (fuel : nat)
    (opts : list getopt_result) (arg : list ascii) (rest : list (list ascii))
    (req : Flock.lock_request) (v : Z) (e : list ascii) :
  Flock.getopt_loop opts Flock.req0 0 s = (Val (inr (req, 0)), s) ->
  Flock.no_block req = 0 ->
  strtol arg = (v, e) -> deref e = NUL ->
  to_int v = 0 \/ Flock.type req <> Flock.FLOCK ->
  w_fork w = 0 ->
  runs (Flock.main w opts (arg :: rest) fuel) s (Val 1)
    [Signal SIGUSR1; Signal SIGUSR2; Fork; Open None O_CREAT_RDWR;
     Printf "Failed to open file %s: %s\n" [AStr None; AErr];
     Kill (self s) SIGUSR2].
Proof.
  intros Eo Hb Ea He Hv Hf.
  destruct (flock_main_numeric w s fuel opts arg rest req 0 v e Eo Hb Ea He) as [E Fn].
  unfold runs. rewrite E. cbn zeta. cbn [Flock.set_fd Flock.fd Flock.type Z.eqb negb].
  assert (D : negb (to_int v =? 0) && Flock.is_FLOCK (Flock.type req) = false).
  { destruct Hv as [-> | Hv]; [reflexivity|].
    apply andb_false_iff. right. destruct (Flock.type req); try reflexivity; congruence. }
  rewrite D. cbn [Z.eqb negb].
  unfold Flock.child_loop, signal, fork, kill, Flock.set_fd.
  run_open_calls. rewrite Hf, Fn. cbn.
  rewrite <- !app_assoc. split; reflexivity.
Qed.

(** X12 on [flock -T lockf 5], followed in the child. *)
Lemma numeric_argument_child_fails_witness :
  runs (Flock.main (sample_world 0 0 0 (fun _ => 0) []) [("T"%char, bytes "lockf")]
          [bytes "5"] 5)
       (init (sample_world 0 0 0 (fun _ => 0) [])) (Val 1)
       [Signal SIGUSR1; Signal SIGUSR2; Fork; Open None O_CREAT_RDWR;
        Printf "Failed to open file %s: %s\n" [AStr None; AErr];
        Kill (self (init (sample_world 0 0 0 (fun _ => 0) []))) SIGUSR2].
Proof.
  apply (numeric_argument_child_fails (sg := linux_signals) _ _ 5
           [("T"%char, bytes "lockf")] (bytes "5") []
           (Flock.set_type Flock.LOCKF Flock.req0) 5 []);
    try reflexivity.
  right. discriminate.
Defined.

(** ** The pid from lock to unlock *)

Lemma format_int_short (n : Z) :
  0 <= n < 1000000000 -> (List.length (format_int n) <= 9)%nat.
Proof.
  intros H. unfold format_int.
  replace (n <? 0) with false by (symmetry; apply Z.ltb_ge; lia).
  rewrite length_rev. apply (digits_le_short 8).
  change (10 ^ Z.of_nat 9) with 1000000000. lia.
Qed.

(** X13. What the lock holder writes is what the unlock requester reads.
    For a holder whose pid has at most nine digits, once the lock is taken
    the bytes unlock_file would read from the file parse to exactly that
    pid, whatever the file held before and however the idle loop goes on;
    in both source files. *)
Theorem pid_round_trip {sg : Signals} (w : world) (s : pstate)
    (ppid script_pid : Z) (fuel : nat) :
  0 <= w_open w -> w_lock_signal w = None -> w_lock w <> -1 ->
  0 < self s < 1000000000 ->
  (forall filename no_block,
     read_pid (pid_bytes (snd (LockFile.child_loop w filename ppid script_pid
                                 no_block fuel s))) = self s)
  /\ (forall req f, Flock.filename req = Some f ->
     read_pid (pid_bytes (snd (Flock.child_loop w req ppid script_pid fuel s)))
     = self s).
Proof.
  intros Ho Hs Hl Hp.
  assert (R : read_pid (firstn MAX_PID_LEN (snprintf_int MAX_PID_LEN (self s))) = self s).
  { rewrite snprintf_pid_whole by lia.
    rewrite firstn_all2
      by (pose proof (format_int_short (self s) ltac:(lia)); unfold MAX_PID_LEN; lia).
    apply (pid_stored_whole w s ppid script_pid fuel Ho Hs Hl [] 0 Hp). }
  split.
  - intros filename no_block. unfold pid_bytes.
    rewrite child_loop_stores_1 by assumption. exact R.
  - intros req f Ef. unfold pid_bytes.
    rewrite (child_loop_stores_2 w s ppid script_pid fuel Ho Hs Hl req f Ef). exact R.
Qed.

(** X13 for the holder 4711 on a file with stale content. *)
Lemma pid_round_trip_witness :
  read_pid (pid_bytes (snd (LockFile.child_loop (child_world 4711) (bytes "lockfile")
                              100 50 0 5
                              (as_process 4711 (init (child_world 4711))))))
  = 4711.
Proof.
  refine (proj1 (pid_round_trip (sg := linux_signals) (child_world 4711)
                   (as_process 4711 (init (child_world 4711))) 100 50 5 _ _ _ _)
            (bytes "lockfile") 0).
  - cbn. lia.
  - reflexivity.
  - cbn. lia.
  - cbn. lia.
Defined.

(** ** The coordinator, from the command line *)

(** X14. [flock -t T path] in the coordinator.  For every timeout T from 1
    to INT_MAX given in decimal, with no signal arriving in time, main
    installs the handler for both signals, forks, sleeps T times, sends
    SIGUSR1 to whatever fork() returned and returns 0.  fork() is not
    checked: when it failed, the signal goes to the pid -1. *)
Theorem main_coordinator_times_out {sg : Signals} (w : world) (s : pstate)
    (T : Z) (path : list ascii) (rest : list (list ascii)) (fuel : nat) :
  0 < T <= INT_MAX ->
  w_fork w <> 0 ->
  (Z.to_nat T < fuel)%nat ->
  (forall j, (j < Z.to_nat T)%nat -> w_signal w (sleeps s + j) = None) ->
  runs (LockFile.main w [("t"%char, format_int T)] (path :: rest) fuel) s (Val 0)
    ([Signal SIGUSR1; Signal SIGUSR2; Fork]
     ++ repeat (Sleep 1) (Z.to_nat T) ++ [Kill (w_fork w) SIGUSR1])
  /\ (deref (snd (strtol path)) <> NUL ->
      runs (Flock.main w [("t"%char, format_int T)] (path :: rest) fuel) s (Val 0)
        ([Signal SIGUSR1; Signal SIGUSR2; Fork]
         ++ repeat (Sleep 1) (Z.to_nat T) ++ [Kill (w_fork w) SIGUSR1])).
Proof.
  intros Ht Hf Hfu Hq.
  assert (Es : strtol (format_int T) = (T, [])).
  { apply strtol_format_int. unfold INT_MAX in Ht. lia. }
  assert (Ei : to_int T = T) by (apply to_int_id; unfold INT_MIN, INT_MAX in *; lia).
  assert (Tn : (T <? 0) = false) by (apply Z.ltb_ge; lia).
  assert (T1 : (T =? -1) = false) by (apply Z.eqb_neq; lia).
  apply Z.eqb_neq in Hf.
  assert (W : forall st, sleeps st = sleeps s ->
    runs (parent_loop w (w_fork w) T fuel) st (Val 0)
      (repeat (Sleep 1) (Z.to_nat T) ++ [Kill (w_fork w) SIGUSR1])).
  { intros st Est. unfold runs, parent_loop, bind.
    rewrite (parent_wait_times_out w T (Z.to_nat T)); try lia.
    - cbn. split; [reflexivity|]. now rewrite <- app_assoc.
    - intros j Hj. rewrite Est. now apply Hq. }
  set (st := {| child := child s; self := self s;
                handled := SIGUSR2 :: SIGUSR1 :: handled s;
                file_data := file_data s; file_pos := file_pos s;
                kills := kills s; sleeps := sleeps s;
                trace := ((trace s ++ [Signal SIGUSR1]) ++ [Signal SIGUSR2]) ++ [Fork] |}).
  assert (R : forall m : M Z, m s = parent_loop w (w_fork w) T fuel st ->
    runs m s (Val 0)
      ([Signal SIGUSR1; Signal SIGUSR2; Fork]
       ++ repeat (Sleep 1) (Z.to_nat T) ++ [Kill (w_fork w) SIGUSR1])).
  { intros m E. unfold runs. rewrite E. destruct (W st eq_refl) as [F Tr].
    split; [exact F|]. rewrite Tr. unfold st. cbn [trace].
    now rewrite <- !app_assoc. }
  split.
  - apply R. unfold LockFile.main. cbn [LockFile.getopt_loop].
    change (Ascii.eqb "t" "t") with true. cbn iota. rewrite Es. cbn [deref].
    change (negb (Ascii.eqb NUL NUL)) with false. rewrite Ei, Tn. cbn [orb].
    unfold bind at 1. cbn [LockFile.getopt_loop ret LockFile.no_block LockFile.timeout
                            LockFile.unlock Z.eqb negb andb].
    rewrite T1. cbn iota.
    unfold bind, signal, getpid, fork.
    cbn [child self handled file_data file_pos kills sleeps trace].
    rewrite Hf. reflexivity.
  - intros Hp. apply R. unfold Flock.main. cbn [Flock.getopt_loop].
    change (Ascii.eqb "t" "t") with true. cbn iota. rewrite Es. cbn [deref].
    change (negb (Ascii.eqb NUL NUL)) with false.
    unfold Flock.set_timeout at 1. cbn [Flock.timeout]. rewrite Ei, Tn. cbn [orb].
    unfold bind at 1.
    cbn [Flock.getopt_loop ret Flock.set_timeout Flock.req0 Flock.no_block Flock.timeout
         Z.eqb negb andb].
    rewrite ?Ei, T1. cbn iota.
    destruct (strtol path) as [v e]. cbn [snd] in Hp.
    apply Ascii.eqb_neq in Hp. rewrite Hp. cbn [negb].
    unfold Flock.set_filename, Flock.set_fd.
    cbn [Flock.fd Flock.type Flock.timeout Flock.filename Flock.no_block Z.eqb negb andb
         Flock.is_FLOCK].
    unfold bind, signal, getpid, fork.
    cbn [child self handled file_data file_pos kills sleeps trace].
    rewrite Hf. reflexivity.
Qed.

(** X14 on [flock -t 5 lockfile] where fork() failed. *)
Lemma main_coordinator_times_out_witness :
  runs (LockFile.main (sample_world (-1) 0 0 (fun _ => 0) [])
          [("t"%char, format_int 5)] [bytes "lockfile"] 10)
       (init (sample_world (-1) 0 0 (fun _ => 0) [])) (Val 0)
       ([Signal SIGUSR1; Signal SIGUSR2; Fork]
        ++ repeat (Sleep 1) (Z.to_nat 5)
        ++ [Kill (w_fork (sample_world (-1) 0 0 (fun _ => 0) [])) SIGUSR1]).
Proof.
  apply (main_coordinator_times_out (sg := linux_signals)).
  - unfold INT_MAX. lia.
  - discriminate.
  - cbn. lia.
  - intros; reflexivity.
Defined.

(** ** What the lock holder sends *)

Section Discipline.

Context {sg : Signals}.
Variable w : world.
Variable P : event -> bool.
Hypothesis P_printf : forall fmt args, P (Printf fmt args) = true.
Hypothesis P_sleep : forall n, P (Sleep n) = true.

Lemma keeps_printf (fmt : string) (args : list parg) : preserving P (printf fmt args).
Proof. intros s. apply extends_log. apply P_printf. Qed.

Lemma keeps_handler (sig : Z) : preserving P (sig_handler sig).
Proof.
  intros s. rewrite handler_role.
  destruct (child s); unfold child_sig_handler, parent_sig_handler;
    destruct (sig =? SIGUSR1); try destruct (sig =? SIGUSR2);
    first [ apply keeps_printf
          | apply preserving_bind;
            [apply keeps_printf | intros; apply preserving_exit] ].
Qed.

Lemma keeps_sleep (secs : Z) : preserving P (sleep w secs).
Proof.
  intros s. unfold sleep, tick.
  eapply extends_trans.
  2:{ unfold deliver. destruct (w_signal w (sleeps s)) as [g|]; [|apply extends_refl].
      cbn [handled]. destruct (mem g (handled s)); [apply keeps_handler | apply extends_refl]. }
  split; [reflexivity|]. exists [Sleep secs]. split; [reflexivity|].
  cbn. now rewrite P_sleep.
Qed.

Lemma keeps_child_wait (script_pid : Z) (fuel : nat) :
  P (Kill script_pid 0) = true ->
  preserving P (child_wait w script_pid fuel).
Proof.
  intros Hk. induction fuel as [|fuel IH]; cbn [child_wait].
  - apply preserving_out_of_fuel.
  - apply preserving_bind.
    + intros s. split; [reflexivity|]. exists [Kill script_pid 0]. split; [reflexivity|].
      cbn. now rewrite Hk.
    + intros r. destruct (r =? 0); [|apply preserving_ret].
      apply preserving_bind; [apply keeps_sleep | intros; apply IH].
Qed.

End Discipline.

Lemma idle_only_probes {sg : Signals} (w : world) (script_pid : Z) (fuel : nat)
    (s : pstate) (evs : list event) :
  exists post,
    trace (snd ((child_wait w script_pid fuel ;; ret 1) (holding s evs)))
    = trace s ++ evs ++ post
    /\ forallb (is_probe_of script_pid) post = true.
Proof.
  assert (H : preserving (is_probe_of script_pid) (child_wait w script_pid fuel ;; ret 1)).
  { apply preserving_bind; [|intros; apply preserving_ret].
    apply keeps_child_wait; try reflexivity.
    cbn. now rewrite !Z.eqb_refl. }
  destruct (H (holding s evs)) as [_ (post & T & A)].
  exists post. rewrite T. cbn [holding trace]. now rewrite <- app_assoc.
Qed.

(** X15. A lock holder that got the lock tells the coordinator only after
    the pid is in the file, and sends nothing else.  In its run no signal
    is sent before the write of the pid string; the write is followed at
    once by the one SIGUSR1 to the coordinator; and everything after that is
    null-signal probes of the script, sleeps, and lines of the handler: no
    SIGUSR2, no second report.  In both source files. *)
Theorem lock_holder_reports_after_write {sg : Signals} (w : world) (s : pstate)
    (ppid script_pid : Z) (fuel : nat) :
  0 <= w_open w -> w_lock_signal w = None -> w_lock w <> -1 ->
  (forall filename no_block,
     exists pre post,
       trace (snd (LockFile.child_loop w filename ppid script_pid no_block fuel s))
       = trace s ++ pre
         ++ [Write (w_open w) (snprintf_int MAX_PID_LEN (self s)); Kill ppid SIGUSR1]
         ++ post
       /\ filter is_kill pre = []
       /\ forallb (is_probe_of script_pid) post = true)
  /\ (forall req f, Flock.filename req = Some f ->
     exists pre post,
       trace (snd (Flock.child_loop w req ppid script_pid fuel s))
       = trace s ++ pre
         ++ [Write (w_open w) (snprintf_int MAX_PID_LEN (self s)); Kill ppid SIGUSR1]
         ++ post
       /\ filter is_kill pre = []
       /\ forallb (is_probe_of script_pid) post = true).
Proof.
  intros Ho Hs Hl.
  assert (R : forall (m : M Z) pre,
    m s = (child_wait w script_pid fuel ;; ret 1)
            (holding s (pre ++ [Write (w_open w) (snprintf_int MAX_PID_LEN (self s));
                                Kill ppid SIGUSR1])) ->
    filter is_kill pre = [] ->
    exists pre' post,
      trace (snd (m s))
      = trace s ++ pre'
        ++ [Write (w_open w) (snprintf_int MAX_PID_LEN (self s)); Kill ppid SIGUSR1]
        ++ post
      /\ filter is_kill pre' = []
      /\ forallb (is_probe_of script_pid) post = true).
  { intros m pre E K. rewrite E.
    destruct (idle_only_probes w script_pid fuel s
                (pre ++ [Write (w_open w) (snprintf_int MAX_PID_LEN (self s));
                         Kill ppid SIGUSR1])) as (post & T & A).
    exists pre, post. rewrite T. rewrite <- !app_assoc. auto. }
  split.
  - intros filename no_block.
    apply (R _ [Open (Some filename) O_CREAT_RDWR;
                Lockf (w_open w) (if no_block =? 0 then F_LOCK else F_TLOCK);
                Lseek (w_open w) 0; Ftruncate (w_open w) 0]); [|reflexivity].
    now apply child_loop_locked_1.
  - intros req f Ef. destruct (Flock.type req) eqn:Et.
    + apply (R _ [Open (Some f) O_CREAT_RDWR; Printf "Locking file %s\n" [AStr (Some f)];
                  Flock (w_open w) (if Flock.no_block req =? 0 then LOCK_EX else LOCK_EX_NB);
                  Lseek (w_open w) 0; Ftruncate (w_open w) 0]);
        [|destruct (Flock.no_block req =? 0); reflexivity].
      rewrite (child_loop_locked_2 w s ppid script_pid fuel req f) by (assumption || congruence).
      rewrite Et. reflexivity.
    + apply (R _ [Open (Some f) O_CREAT_RDWR; Printf "Locking file %s\n" [AStr (Some f)];
                  Lseek (w_open w) 0; Ftruncate (w_open w) 0]); [|reflexivity].
      now rewrite (child_loop_fcntl w s ppid script_pid fuel req f).
    + apply (R _ [Open (Some f) O_CREAT_RDWR; Printf "Locking file %s\n" [AStr (Some f)];
                  Lockf (w_open w) (if Flock.no_block req =? 0 then F_LOCK else F_TLOCK);
                  Lseek (w_open w) 0; Ftruncate (w_open w) 0]);
        [|destruct (Flock.no_block req =? 0); reflexivity].
      rewrite (child_loop_locked_2 w s ppid script_pid fuel req f) by (assumption || congruence).
      rewrite Et. reflexivity.
Qed.

Lemma lock_holder_reports_after_write_witness :
  exists pre post,
    trace (snd (LockFile.child_loop (sample_world 0 0 0 (fun _ => 0) []) (bytes "lockfile")
                  100 50 0 3 (init (sample_world 0 0 0 (fun _ => 0) []))))
    = trace (init (sample_world 0 0 0 (fun _ => 0) [])) ++ pre
      ++ [Write 3 (snprintf_int MAX_PID_LEN 100); Kill 100 SIGUSR1] ++ post
    /\ filter is_kill pre = []
    /\ forallb (is_probe_of 50) post = true.
Proof.
  refine (proj1 (lock_holder_reports_after_write (sg := linux_signals)
                   (sample_world 0 0 0 (fun _ => 0) [])
                   (init (sample_world 0 0 0 (fun _ => 0) [])) 100 50 3 _ _ _)
            (bytes "lockfile") 0).
  - cbn. lia.
  - reflexivity.
  - cbn. lia.
Defined.

(** ** Files that hold no pid *)

Lemma read_pid_no_number (b : list ascii) :
  b = [] \/ (isdigit (deref b) = false /\ isspace (deref b) = false
             /\ deref b <> "-"%char /\ deref b <> "+"%char) ->
  read_pid b = 0.
Proof.
  intros [-> | (Hd & Hs & Hm & Hp)]; [reflexivity|].
  destruct b as [|c r]; [reflexivity|]. cbn [deref] in *.
  unfold read_pid. cbn [List.length Nat.ltb Nat.leb].
  unfold fill. cbn [app c_string].
  destruct (is_nul c) eqn:Hn; [reflexivity|].
  apply Ascii.eqb_neq in Hm, Hp.
  unfold strtol. cbn [skip_space]. rewrite Hs, Hm, Hp. cbn [deref]. rewrite Hd.
  cbn [deref]. unfold is_nul in Hn. rewrite Hn. cbn [negb andb].
  destruct (Ascii.eqb c NL); reflexivity.
Qed.

(** X16. A file with no pid in it is never acted on.  If the file is empty,
    or starts with a byte that is neither a digit, a sign nor white space,
    unlock_file returns 1 after saying that it could not read a pid, and
    sends no signal; in both source files. *)
Theorem unlock_file_without_pid {sg : Signals} (w : world) (s : pstate) (fuel : nat) :
  0 <= w_open w ->
  file_data s = []
  \/ (isdigit (deref (file_data s)) = false /\ isspace (deref (file_data s)) = false
      /\ deref (file_data s) <> "-"%char /\ deref (file_data s) <> "+"%char) ->
  (forall filename timeout no_block,
     runs (LockFile.unlock_file w filename timeout no_block fuel) s (Val 1)
       (unlock_prelude w (Some filename)
        ++ [Printf "Failed to read pid from file %s\n" [AStr (Some filename)]]))
  /\ (forall req f, Flock.filename req = Some f ->
     runs (Flock.unlock_file w req fuel) s (Val 1)
       (unlock_prelude w (Some f)
        ++ [Printf "Failed to read pid from file %s\n" [AStr (Some f)]])).
Proof.
  intros Ho Hf.
  assert (R : read_pid (pid_bytes s) = 0).
  { apply read_pid_no_number. unfold pid_bytes.
    destruct Hf as [-> | H]; [now left|].
    destruct (file_data s) as [|c r]; [now left|]. right. exact H. }
  split.
  - intros filename timeout no_block. unfold runs.
    rewrite (unlock_file_reads_1 w s fuel filename timeout no_block Ho), R.
    cbn [Z.eqb fst snd log probed trace]. split; [reflexivity|].
    now rewrite <- app_assoc.
  - intros req f Ef. unfold runs.
    rewrite (unlock_file_reads_2 w s fuel req f Ef Ho), R.
    cbn [Z.eqb fst snd log probed trace]. split; [reflexivity|].
    now rewrite <- app_assoc.
Qed.

(** X16 on an empty file. *)
Lemma unlock_file_without_pid_witness :
  runs (LockFile.unlock_file (sample_world 0 0 0 (fun _ => 0) []) (bytes "lockfile") 0 0 5)
       (init (sample_world 0 0 0 (fun _ => 0) [])) (Val 1)
       (unlock_prelude (sample_world 0 0 0 (fun _ => 0) []) (Some (bytes "lockfile"))
        ++ [Printf "Failed to read pid from file %s\n" [AStr (Some (bytes "lockfile"))]]).
Proof.
  refine (proj1 (unlock_file_without_pid (sg := linux_signals)
                   (sample_world 0 0 0 (fun _ => 0) [])
                   (init (sample_world 0 0 0 (fun _ => 0) [])) 5 _ _)
            (bytes "lockfile") 0 0).
  - cbn. lia.
  - left. reflexivity.
Defined.

(** X17 on [flock -n -t 5 lockfile] with lock_file.c. *)
Lemma lock_file_flag_check_witness :
  exists fmt a,
    LockFile.main (sample_world 0 0 0 (fun _ => 0) [])
      [("n"%char, []); ("t"%char, bytes "5")] [bytes "lockfile"] 5
      (init (sample_world 0 0 0 (fun _ => 0) []))
    = (Val 1, log (Printf fmt a) (init (sample_world 0 0 0 (fun _ => 0) []))).
Proof.
  refine (proj1 (lock_file_flag_check (sg := linux_signals) _ _ _ 5 _ _) _).
  - cbn. now left.
  - cbn. right. now left.
Defined.
